(** * Atrack telematics server: protocol engine

    A shallow embedding of the JavaScript sources
    (utilities.js, pattern.js, picture.js, atrackSocket.js, influxDB.js)
    together with the properties stated about them.

    Conventions of the embedding:
    - a JS string is a [string] of 8-bit code units (the server only builds
      strings by decoding socket bytes as 'ascii' or from literals);
    - a Node [Buffer] is a [list byte];
    - an integer-valued JS Number produced by integer-only code is a
      [num] ([NaN] or [Int z]); the correspondence with IEEE doubles is exact
      for magnitudes below 2^53;
    - Numbers that go through fractional arithmetic (the TPMS equations)
      are primitive binary64 floats;
    - [undefined] is [None]; a thrown exception is [Throw]. *)

From Stdlib Require Import Floats ZArith List String Ascii Bool Lia.
From Stdlib Require Strings.Byte Uint63.
Import ListNotations.

Local Open Scope Z_scope.

(* ====================================================================== *)
(** * Exceptions *)

Inductive exn : Type :=
| Error (msg : string)
| TypeError
| RangeError.

Inductive result (A : Type) : Type :=
| Ok (a : A)
| Throw (e : exn).

Arguments Ok {A} a.
Arguments Throw {A} e.

Definition bind {A B : Type} (m : result A) (k : A -> result B) : result B :=
  match m with
  | Ok a => k a
  | Throw e => Throw e
  end.

Notation "x <- m ;; k" := (bind m (fun x => k))
  (at level 61, m at next level, right associativity).

(* ====================================================================== *)
(** * The JavaScript primitives the sources rely on *)

Module JS.

(** Integer-valued Numbers. *)
Inductive num : Type :=
| NaN
| Int (z : Z).

Definition chars (s : string) : list ascii := list_ascii_of_string s.
Definition str (l : list ascii) : string := string_of_list_ascii l.

Definition code (c : ascii) : Z := Z.of_nat (nat_of_ascii c).

(** [s.length] *)
Definition length (s : string) : Z := Z.of_nat (String.length s).

(** [c.repeat(n)] for a one-character string. *)
Definition repeat (c : ascii) (n : Z) : list ascii := List.repeat c (Z.to_nat n).

(** [s.padStart(n, c)] with a one-character filler. *)
Definition padStart (s : string) (n : Z) (c : ascii) : string :=
  if n <=? length s then s
  else str (repeat c (n - length s) ++ chars s).

(** Relative index of [slice]/[subarray]: negative counts from the end,
    the result is clamped to [0, len]. *)
Definition clamp (len i : Z) : Z :=
  if i <? 0 then Z.max (len + i) 0 else Z.min i len.

Definition sub {A : Type} (l : list A) (i j : Z) : list A :=
  let len := Z.of_nat (List.length l) in
  let from := clamp len i in
  let to := clamp len j in
  firstn (Z.to_nat (to - from)) (skipn (Z.to_nat from) l).

(** [s.slice(i, j)] *)
Definition slice (s : string) (i j : Z) : string := str (sub (chars s) i j).

(** [s[i]]: [undefined] outside the string. *)
Definition at_index (s : string) (i : Z) : option string :=
  if i <? 0 then None
  else match nth_error (chars s) (Z.to_nat i) with
       | Some c => Some (str [c])
       | None => None
       end.

(** [a[i]] on an array. *)
Definition elem {A : Type} (l : list A) (i : nat) : option A := nth_error l i.

(** Prefix test used by [split] and [includes]. *)
Fixpoint starts_with (p l : list ascii) : bool :=
  match p, l with
  | [], _ => true
  | _ :: _, [] => false
  | a :: p', b :: l' => Ascii.eqb a b && starts_with p' l'
  end.

(** [s.includes(p)] *)
Fixpoint includes_chars (p l : list ascii) : bool :=
  starts_with p l ||
  match l with
  | [] => false
  | _ :: l' => includes_chars p l'
  end.

Definition includes (s p : string) : bool := includes_chars (chars p) (chars s).

(** [s.split(sep)] for a non-empty separator: left-to-right, matches do not
    overlap.  [skip] counts the characters of a separator still to drop and
    [cur] is the current piece, reversed. *)
Fixpoint split_chars (sep : list ascii) (skip : nat) (cur : list ascii)
         (l : list ascii) : list string :=
  match l with
  | [] => [str (rev cur)]
  | c :: l' =>
      match skip with
      | S k => split_chars sep k cur l'
      | O =>
          if starts_with sep l
          then str (rev cur) :: split_chars sep (Nat.pred (List.length sep)) [] l'
          else split_chars sep O (c :: cur) l'
      end
  end.

Definition split (s sep : string) : list string :=
  split_chars (chars sep) O [] (chars s).

(** ** parseInt *)

(** White space and line terminators skipped by [parseInt], within the
    8-bit range: TAB, LF, VT, FF, CR, SP, NBSP. *)
Definition is_space (c : ascii) : bool :=
  let n := code c in
  ((9 <=? n) && (n <=? 13)) || (n =? 32) || (n =? 160).

Fixpoint trim_start (l : list ascii) : list ascii :=
  match l with
  | c :: l' => if is_space c then trim_start l' else l
  | [] => []
  end.

Definition digit_value (c : ascii) : option Z :=
  let n := code c in
  if (48 <=? n) && (n <=? 57) then Some (n - 48)
  else if (97 <=? n) && (n <=? 122) then Some (n - 87)
  else if (65 <=? n) && (n <=? 90) then Some (n - 55)
  else None.

Definition digit_in (radix : Z) (c : ascii) : option Z :=
  match digit_value c with
  | Some d => if d <? radix then Some d else None
  | None => None
  end.

(** The longest prefix of digits, read in [radix]; [acc] is [None] until a
    first digit has been read. *)
Fixpoint parse_digits (radix : Z) (l : list ascii) (acc : option Z) : option Z :=
  match l with
  | [] => acc
  | c :: l' =>
      match digit_in radix c with
      | Some d =>
          parse_digits radix l'
            (Some (match acc with Some a => a * radix + d | None => d end))
      | None => acc
      end
  end.

Definition is_char (n : Z) (c : ascii) : bool := code c =? n.

(** [parseInt(s, radix)]; [radix = None] is a call with one argument.
    The sign of a zero result is not tracked. *)
Definition parseInt (s : string) (radix : option Z) : num :=
  let l := trim_start (chars s) in
  let '(sign, l) :=
    match l with
    | c :: l' => if is_char 45 c then (-1, l')
                 else if is_char 43 c then (1, l') else (1, l)
    | [] => (1, l)
    end in
  let r0 := match radix with Some r => r | None => 0 end in
  if negb (r0 =? 0) && ((r0 <? 2) || (36 <? r0)) then NaN
  else
    let strip := (r0 =? 0) || (r0 =? 16) in
    let r := if r0 =? 0 then 10 else r0 in
    let '(r, l) :=
      match l with
      | z :: x :: l' =>
          if strip && is_char 48 z && (is_char 120 x || is_char 88 x)
          then (16, l') else (r, l)
      | _ => (r, l)
      end in
    match parse_digits r l None with
    | Some v => Int (sign * v)
    | None => NaN
    end.

(** ** Number.prototype.toString(radix) on integers *)

Definition digit_char (d : Z) : ascii :=
  if d <? 10 then ascii_of_nat (Z.to_nat (48 + d))
  else ascii_of_nat (Z.to_nat (87 + d)).

Fixpoint digits_aux (fuel : nat) (radix z : Z) (acc : list ascii) : list ascii :=
  match fuel with
  | O => acc
  | S f =>
      let acc' := digit_char (z mod radix) :: acc in
      if z / radix =? 0 then acc' else digits_aux f radix (z / radix) acc'
  end.

(** Digits of a non-negative integer, most significant first. *)
Definition digits (radix z : Z) : list ascii :=
  digits_aux (S (Z.to_nat (Z.log2 z))) radix z [].

Definition int_toString (z : Z) (radix : Z) : string :=
  if z <? 0 then String "-" (str (digits radix (- z)))
  else str (digits radix z).

Definition toString (n : num) (radix : Z) : string :=
  match n with
  | NaN => "NaN"%string
  | Int z => int_toString z radix
  end.

(** Truthiness of a Number: [0] and [NaN] are falsy. *)
Definition truthy (n : num) : bool :=
  match n with
  | NaN => false
  | Int z => negb (z =? 0)
  end.

(** [a < b] on Numbers: false as soon as one side is [NaN]. *)
Definition lt (a b : num) : bool :=
  match a, b with
  | Int x, Int y => x <? y
  | _, _ => false
  end.

Definition ge (a b : num) : bool :=
  match a, b with
  | Int x, Int y => y <=? x
  | _, _ => false
  end.

(** [a - b] on Numbers. *)
Definition minus (a b : num) : num :=
  match a, b with
  | Int x, Int y => Int (x - y)
  | _, _ => NaN
  end.

End JS.

Import JS.

(* ====================================================================== *)
(** * utilities.js *)

Module Utilities.

(** [ParseBinaryToUnsigned] *)
Definition ParseBinaryToUnsigned (binaryString : string) : num :=
  parseInt binaryString (Some 2).

(** [/^[01]+$/.test(s)] *)
Definition is_binary_string (s : string) : bool :=
  match chars s with
  | [] => false
  | l => forallb (fun c => is_char 48 c || is_char 49 c) l
  end.

(** [ParseBinaryToSinged] *)
Definition ParseBinaryToSinged (binaryString : string) : result num :=
  if (length binaryString =? 0)
     || negb (is_binary_string binaryString)
     || (length binaryString =? 1)
  then Throw (Error "Invalid binary string")
  else
    let sign := match at_index binaryString 0 with
                | Some c => if String.eqb c "1" then -1 else 1
                | None => 1
                end in
    let absoluteValue := parseInt binaryString (Some 2) in
    let absoluteValue :=
      if sign =? -1
      then minus (Int (2 ^ length binaryString)) absoluteValue
      else absoluteValue in
    Ok (match absoluteValue with
        | Int a => Int (sign * a)
        | NaN => NaN
        end).

(** [GetIntSliceFromBinary(inputNum, binaryLength, slice, signed)] on an
    integer [inputNum]. *)
Definition GetIntSliceFromBinary (inputNum binaryLength : Z) (slice : string)
           (signed : bool) : result (option num) :=
  let binaryString := int_toString inputNum 2 in
  if binaryLength <? length binaryString then Ok None
  else
    let binaryString :=
      if length binaryString <? binaryLength
      then padStart binaryString binaryLength "0"
      else binaryString in
    let output : option string :=
      if includes slice "~" then
        let parts := split slice "~" in
        let parse (o : option string) :=
          match o with
          | Some p => parseInt p None
          | None => NaN
          end in
        let start := parse (elem parts 0) in
        let end_ := parse (elem parts 1) in
        if lt start end_ && ge start (Int 0) && lt end_ (Int binaryLength) then
          match start, end_ with
          | Int st, Int en =>
              let inverse_start := binaryLength - en - 1 in
              let inverse_end := binaryLength - st in
              Some (JS.slice binaryString inverse_start inverse_end)
          | _, _ => None
          end
        else None
      else
        match parseInt slice None with
        | Int bit =>
            if bit <? binaryLength
            then at_index binaryString (binaryLength - bit - 1)
            else None
        | NaN => None
        end in
    match output with
    | Some out =>
        if signed then v <- ParseBinaryToSinged out ;; Ok (Some v)
        else Ok (Some (ParseBinaryToUnsigned out))
    | None => Ok None
    end.

(** [ParseHexStringToBinary] *)
Definition ParseHexStringToBinary (hexString : string) (size : Z) : string :=
  padStart (toString (parseInt hexString (Some 16)) 2) size "0".

(** [ParseHexStringToSignedInt]: the binary string is never [undefined]. *)
Definition ParseHexStringToSignedInt (hexString : string) (size : Z)
  : result (option num) :=
  let binaryString := ParseHexStringToBinary hexString size in
  v <- ParseBinaryToSinged binaryString ;; Ok (Some v).

(** [IsStringEmptyOrSpaces]: [/^ *$/] on a non-null string. *)
Definition IsStringEmptyOrSpaces (s : string) : bool :=
  forallb (is_char 32) (chars s).

End Utilities.

(** Decimal rendering of a bit index, as written in a field catalogue. *)
Definition bit_slice (a : Z) : string := int_toString a 10.
Definition range_slice (a b : Z) : string :=
  (bit_slice a ++ "~" ++ bit_slice b)%string.

(* ====================================================================== *)
(** * Node Buffers *)

Module Buffer.

Definition byte := Byte.byte.
Definition t := list byte.

Definition val (b : byte) : Z := Z.of_N (Byte.to_N b).

Definition of_val (z : Z) : byte :=
  match Byte.of_N (Z.to_N (z mod 256)) with
  | Some b => b
  | None => Byte.x00
  end.

(** [buf.subarray(i, j)] and [buf.subarray(i)] *)
Definition subarray (buf : t) (i j : Z) : t := sub buf i j.
Definition subarray_from (buf : t) (i : Z) : t :=
  sub buf i (Z.of_nat (List.length buf)).

(** [a.equals(b)] *)
Definition equals (a b : t) : bool :=
  (List.length a =? List.length b)%nat
  && forallb (fun p => val (fst p) =? val (snd p)) (combine a b).

(** [buf.toString('hex')] *)
Definition hex_chars (b : byte) : list ascii :=
  [digit_char (val b / 16); digit_char (val b mod 16)].

Definition toString_hex (buf : t) : string := str (flat_map hex_chars buf).

(** [buf.toString('ascii')]: the high bit of every byte is cleared. *)
Definition toString_ascii (buf : t) : string :=
  str (map (fun b => ascii_of_nat (Z.to_nat (val b mod 128))) buf).

(** [Buffer.from(s, 'ascii')] *)
Definition from_ascii (s : string) : t :=
  map (fun c => of_val (code c)) (chars s).

(** [Buffer.from(s, 'hex')]: decoding stops at the first pair that is not
    two hexadecimal digits; a trailing single character is dropped. *)
Fixpoint from_hex_chars (l : list ascii) : t :=
  match l with
  | h :: l' =>
      match l' with
      | lo :: l'' =>
          match digit_in 16 h, digit_in 16 lo with
          | Some a, Some b => of_val (a * 16 + b) :: from_hex_chars l''
          | _, _ => []
          end
      | [] => []
      end
  | [] => []
  end.

Definition from_hex (s : string) : t := from_hex_chars (chars s).

(** Big-endian value of a byte sequence. *)
Definition be_value (buf : t) : Z :=
  fold_left (fun acc b => acc * 256 + val b) buf 0.

(** [buf.readBigUint64BE(0)]: a [RangeError] when fewer than 8 bytes. *)
Definition readBigUint64BE (buf : t) : result Z :=
  if (List.length buf <? 8)%nat then Throw RangeError
  else Ok (be_value (firstn 8 buf)).

(** [buf.indexOf(c, start)] for a single byte; [-1] when absent. *)
Fixpoint index_from (c : byte) (l : t) (pos : Z) : Z :=
  match l with
  | [] => -1
  | b :: l' => if val b =? val c then pos else index_from c l' (pos + 1)
  end.

Definition indexOf (buf : t) (c : byte) (start : Z) : Z :=
  let len := Z.of_nat (List.length buf) in
  let from := if start <? 0 then Z.max (len + start) 0 else start in
  index_from c (skipn (Z.to_nat from) buf) from.

End Buffer.

(** The device identifier of a connection: a BigInt when read from a
    keep-alive, a Number when parsed from an ASCII report header. *)
Inductive DeviceID : Type :=
| BigInt (z : Z)
| Number (n : num).

Definition DeviceID_truthy (d : DeviceID) : bool :=
  match d with
  | BigInt z => negb (z =? 0)
  | Number n => truthy n
  end.

(** [d.toString(radix)]; for a Number, exact below 2^53. *)
Definition DeviceID_toString (d : DeviceID) (radix : Z) : string :=
  match d with
  | BigInt z => int_toString z radix
  | Number n => toString n radix
  end.

(** [`${x}`] for a possibly undefined identifier. *)
Definition DeviceID_template (d : option DeviceID) : string :=
  match d with
  | Some d => DeviceID_toString d 10
  | None => "undefined"%string
  end.

(* ====================================================================== *)
(** * pattern.js: the g-force and TPMS decoders *)

Module Pattern.

Import PrimFloat.

(** A decoded JS value. *)
Inductive value : Type :=
| VNumber (f : float)
| VBoolean (b : bool)
| VString (s : string).

Record DecodedValue : Type := mkValue {
  name : string;
  dbtype : string;
  val : value
}.

(** The Number denoted by an integer (exact below 2^53). *)
Definition of_int (z : Z) : float :=
  match z with
  | Z0 => zero
  | Zpos _ => of_uint63 (Uint63.of_Z z)
  | Zneg p => opp (of_uint63 (Uint63.of_Z (Zpos p)))
  end.

Definition of_num (n : num) : float :=
  match n with
  | NaN => nan
  | Int z => of_int z
  end.

(** The properties of a field definition read by the two decoders; an
    absent property reads as [undefined]. *)
Record PatternInfo : Type := mkInfo {
  info_name : string;
  info_dbtype : string;
  pressure_slope : option float;
  pressure_const : option float;
  temp_slope : option float;
  temp_const : option float
}.

(** [x == undefined] on a property. *)
Definition eq_undefined (x : option float) : bool :=
  match x with
  | None => true
  | Some _ => false
  end.

(** [!x] on a property: [undefined], [0] and [NaN] are falsy. *)
Definition not_ (x : option float) : bool :=
  match x with
  | None => true
  | Some f => eqb f zero || negb (eqb f f)
  end.

(** [b == undefined] on a boolean: never holds. *)
Definition bool_eq_undefined (b : bool) : bool := false.

(** [ToNumber] of a property used as an operand. *)
Definition to_number (x : option float) : float :=
  match x with
  | Some f => f
  | None => nan
  end.

(** [GetValueGForce] *)
Definition GetValueGForce (rawValue : string) (patternInfo : PatternInfo)
  : result (option (list DecodedValue)) :=
  if length rawValue <? 12 then Ok None
  else
    let rawValue := slice rawValue 0 12 in
    let xHexString := slice rawValue 0 4 in
    let yHexString := slice rawValue 4 8 in
    let zHexString := slice rawValue 8 12 in
    xValue <- Utilities.ParseHexStringToSignedInt xHexString 32 ;;
    yValue <- Utilities.ParseHexStringToSignedInt yHexString 32 ;;
    zValue <- Utilities.ParseHexStringToSignedInt zHexString 32 ;;
    let push (suffix : string) (v : option num) (output : list DecodedValue) :=
      match v with
      | Some n =>
          output ++ [mkValue (info_name patternInfo ++ suffix) "int"
                             (VNumber (of_num n))]
      | None => output
      end in
    let output := push "_x"%string xValue [] in
    let output := push "_y"%string yValue output in
    let output := push "_z"%string zValue output in
    match output with
    | [] => Ok None
    | _ => Ok (Some output)
    end.

(** Line terminators, which [.] does not match. *)
Definition is_line_terminator (c : ascii) : bool :=
  is_char 10 c || is_char 13 c.

Definition flush (cur : list ascii) : list string :=
  match cur with
  | [] => []
  | _ => [str (rev cur)]
  end.

(** [s.match(/.{1,8}/g)]: greedy groups of at most 8 characters, none of
    them a line terminator; [room] is what the current group can still
    take and [cur] the group so far, reversed. *)
Fixpoint match_groups (room : nat) (cur : list ascii) (l : list ascii)
  : list string :=
  match l with
  | [] => flush cur
  | c :: l' =>
      if is_line_terminator c then flush cur ++ match_groups 8 [] l'
      else
        match room with
        | S (S k) => match_groups (S k) (c :: cur) l'
        | _ => str (rev (c :: cur)) :: match_groups 8 [] l'
        end
  end.

Definition floor_at_zero (f : float) : float :=
  if ltb f zero then zero else f.

(** The body of the loop over the groups, [i] being the index. *)
Fixpoint tires (TEMP_SLOPE TEMP_CONST PRESSURE_SLOPE PRESSURE_CONST : float)
         (i : Z) (groups : list string) : list DecodedValue :=
  match groups with
  | [] => []
  | g :: rest =>
      let tire_temp :=
        floor_at_zero
          (add (mul TEMP_SLOPE (of_num (parseInt (slice g 4 6) (Some 16))))
               TEMP_CONST) in
      let tire_pressure :=
        floor_at_zero
          (add (mul PRESSURE_SLOPE (of_num (parseInt (slice g 6 8) (Some 16))))
               PRESSURE_CONST) in
      mkValue ("tire_temp_" ++ int_toString (i + 1) 10) "int" (VNumber tire_temp)
      :: mkValue ("tire_pressure_" ++ int_toString (i + 1) 10) "float"
                 (VNumber tire_pressure)
      :: tires TEMP_SLOPE TEMP_CONST PRESSURE_SLOPE PRESSURE_CONST (i + 1) rest
  end.

(** [GetValueTPMS] *)
Definition GetValueTPMS (rawValue : string) (patternInfo : PatternInfo)
  : result (option (list DecodedValue)) :=
  let TPMS_LENGTH := 8 in
  if negb (length rawValue mod TPMS_LENGTH =? 0) then Ok None
  else if eq_undefined (pressure_slope patternInfo)
          || bool_eq_undefined (not_ (pressure_const patternInfo))
  then Ok None
  else
    let PRESSURE_SLOPE := to_number (pressure_slope patternInfo) in
    let PRESSURE_CONST := to_number (pressure_const patternInfo) in
    if eq_undefined (temp_slope patternInfo)
       || eq_undefined (temp_const patternInfo)
    then Ok None
    else
      let TEMP_SLOPE := to_number (temp_slope patternInfo) in
      let TEMP_CONST := to_number (temp_const patternInfo) in
      match match_groups 8 [] (chars rawValue) with
      | [] => Throw TypeError
      | rawValueArray =>
          match tires TEMP_SLOPE TEMP_CONST PRESSURE_SLOPE PRESSURE_CONST
                      0 rawValueArray with
          | [] => Ok None
          | output => Ok (Some output)
          end
      end.

End Pattern.

(* ====================================================================== *)
(** * picture.js *)

Module Picture.

(** The environment variables read by the constructor. *)
Record Env : Type := mkEnv {
  PICTURE_SAVE_TARGET : option string;
  PICTURE_BUCKET : option string;
  PICTURE_PATH : option string;
  PICTURE_EXT : option string
}.

(** A write handed to one of the two storage sinks. *)
Inductive sink_write : Type :=
| WriteToFolder (filePath fullFilePath : string) (content : Buffer.t)
| WriteToBucket (bucket : option string) (objectName : string)
                (content : Buffer.t).

Record t : Type := mk {
  pictureRTC : num;
  currentPackageID : num;
  totalPackageCount : num;
  pictureContent : Buffer.t;
  saveTarget : string;
  deviceID : option DeviceID;
  dbBucket : option string;
  filePath : string;
  fileExt : string;
  fileName : string;
  fullFilePath : string
}.

(** [parseInt(buffer.subarray(i, j).toString('hex'), 16)] *)
Definition hex_field (buffer : Buffer.t) (i j : Z) : num :=
  parseInt (Buffer.toString_hex (Buffer.subarray buffer i j)) (Some 16).

(** [ExtractPictureFrame] *)
Definition ExtractPictureFrame (buffer : Buffer.t)
  : num * num * num * num * Buffer.t :=
  let pictureRTC := hex_field buffer 0 4 in
  let picturePackageID := hex_field buffer 4 5 in
  let pictureTotalID := hex_field buffer 5 6 in
  let picturePackageSize := hex_field buffer 6 8 in
  let pictureData := Buffer.subarray_from buffer 8 in
  (pictureRTC, picturePackageID, pictureTotalID, picturePackageSize,
   pictureData).

(** [CheckPictureFrame]: a placeholder in the source. *)
Definition CheckPictureFrame (info : num * num * num * num * Buffer.t) : bool :=
  true.

(** [s.trim() !== ''] *)
Definition not_blank (s : string) : bool := negb (forallb is_space (chars s)).

Definition nonempty (s : string) : bool := negb (length s =? 0).

(** [a === b] on Numbers. *)
Definition strict_eq (a b : num) : bool :=
  match a, b with
  | Int x, Int y => x =? y
  | _, _ => false
  end.

(** The constructor. *)
Definition new (env : Env) (firstBuffer : Buffer.t)
           (deviceID : option DeviceID) : t :=
  let '(rtc, packageID, totalID, _, data) := ExtractPictureFrame firstBuffer in
  let saveTarget :=
    match PICTURE_SAVE_TARGET env with
    | Some s => if String.eqb s "folder" then "folder" else "database"
    | None => "database"
    end%string in
  let filePath :=
    match PICTURE_PATH env with
    | Some s => if nonempty s && not_blank s then s else "."%string
    | None => "."%string
    end in
  let fileExt :=
    match PICTURE_EXT env with
    | Some s => if nonempty s then s else "jpg"%string
    | None => "jpg"%string
    end in
  let fileName :=
    (DeviceID_template deviceID ++ "_" ++ toString rtc 10 ++ "." ++ fileExt)%string in
  mk rtc packageID totalID data saveTarget deviceID (PICTURE_BUCKET env)
     filePath fileExt fileName (filePath ++ "/" ++ fileName)%string.

(** [AddPicturePackage]: the new transfer state, the value returned and the
    writes issued before the first suspension point.  The storage client
    handed to the constructor is the server's MinioClient, so the test on
    it in [WriteToDB] passes. *)
Definition AddPicturePackage (p : t) (pictureBuffer : Buffer.t)
  : t * bool * list sink_write :=
  let pictureInfo := ExtractPictureFrame pictureBuffer in
  if negb (CheckPictureFrame pictureInfo) then (p, false, [])
  else
    let '(_, packageID, _, _, data) := pictureInfo in
    let content := (pictureContent p ++ data)%list in
    let p' :=
      mk (pictureRTC p) packageID (totalPackageCount p) content
         (saveTarget p) (deviceID p) (dbBucket p) (filePath p) (fileExt p)
         (fileName p) (fullFilePath p) in
    let writes :=
      if strict_eq (totalPackageCount p') packageID then
        if String.eqb (saveTarget p') "folder"
        then [WriteToFolder (filePath p') (fullFilePath p') content]
        else if String.eqb (saveTarget p') "database"
        then [WriteToBucket (dbBucket p')
                (DeviceID_template (deviceID p') ++ "/" ++ fileName p')%string
                content]
        else []
      else [] in
    (p', true, writes).

(** [isDone] *)
Definition isDone (p : t) : bool :=
  strict_eq (currentPackageID p) (totalPackageCount p).

End Picture.

(* ====================================================================== *)
(** * influxDB.js: the time-series sink *)

(** What [WriteData] hands to the write API: the tag, the timestamp and
    the decoded fields. *)
Record Point : Type := mkPoint {
  point_id : string;
  point_timestamp : string;
  point_fields : list Pattern.DecodedValue
}.

(** [WriteData]: [dataList.forEach] raises on [undefined].  The checks the
    client library makes on each field (it refuses a NaN or non-finite
    number) are outside these sources and are not modelled: the call
    returns only if this one does, and then hands over this point. *)
Definition WriteData (written : list Point) (deviceID timestamp : string)
           (dataList : option (list Pattern.DecodedValue))
  : result (list Point) :=
  match dataList with
  | Some l => Ok (written ++ [mkPoint deviceID timestamp l])
  | None => Throw TypeError
  end.

(* ====================================================================== *)
(** * atrackSocket.js: the connection *)

Module ClientSocket.

(** The fields of a connection, followed by what it has written so far to
    its socket, to the time-series sink and to the picture sinks. *)
Record t : Type := mk {
  deviceID : option DeviceID;
  lastAlive : Z;
  seqNum : option num;
  reportType : option string;
  isReportCustom : option bool;
  isReportJ1708 : option bool;
  isReportJ1939 : option bool;
  reportFormatType : option string;
  reportJ1XXXFormat : option (list string);
  reportCustomFormat : option (list string);
  reportFinalFormat : option (list string);
  picture : option Picture.t;
  socket : list Buffer.t;
  timeSeriesDB : list Point;
  storage : list Picture.sink_write
}.

Definition set_deviceID (v : option DeviceID) (st : t) : t :=
  mk v (lastAlive st) (seqNum st) (reportType st) (isReportCustom st)
     (isReportJ1708 st) (isReportJ1939 st) (reportFormatType st)
     (reportJ1XXXFormat st) (reportCustomFormat st) (reportFinalFormat st)
     (picture st) (socket st) (timeSeriesDB st) (storage st).
Definition set_lastAlive (v : Z) (st : t) : t :=
  mk (deviceID st) v (seqNum st) (reportType st) (isReportCustom st)
     (isReportJ1708 st) (isReportJ1939 st) (reportFormatType st)
     (reportJ1XXXFormat st) (reportCustomFormat st) (reportFinalFormat st)
     (picture st) (socket st) (timeSeriesDB st) (storage st).
Definition set_seqNum (v : option num) (st : t) : t :=
  mk (deviceID st) (lastAlive st) v (reportType st) (isReportCustom st)
     (isReportJ1708 st) (isReportJ1939 st) (reportFormatType st)
     (reportJ1XXXFormat st) (reportCustomFormat st) (reportFinalFormat st)
     (picture st) (socket st) (timeSeriesDB st) (storage st).
Definition set_reportType (v : option string) (st : t) : t :=
  mk (deviceID st) (lastAlive st) (seqNum st) v (isReportCustom st)
     (isReportJ1708 st) (isReportJ1939 st) (reportFormatType st)
     (reportJ1XXXFormat st) (reportCustomFormat st) (reportFinalFormat st)
     (picture st) (socket st) (timeSeriesDB st) (storage st).
Definition set_isReportCustom (v : option bool) (st : t) : t :=
  mk (deviceID st) (lastAlive st) (seqNum st) (reportType st) v
     (isReportJ1708 st) (isReportJ1939 st) (reportFormatType st)
     (reportJ1XXXFormat st) (reportCustomFormat st) (reportFinalFormat st)
     (picture st) (socket st) (timeSeriesDB st) (storage st).
Definition set_isReportJ1708 (v : option bool) (st : t) : t :=
  mk (deviceID st) (lastAlive st) (seqNum st) (reportType st)
     (isReportCustom st) v (isReportJ1939 st) (reportFormatType st)
     (reportJ1XXXFormat st) (reportCustomFormat st) (reportFinalFormat st)
     (picture st) (socket st) (timeSeriesDB st) (storage st).
Definition set_isReportJ1939 (v : option bool) (st : t) : t :=
  mk (deviceID st) (lastAlive st) (seqNum st) (reportType st)
     (isReportCustom st) (isReportJ1708 st) v (reportFormatType st)
     (reportJ1XXXFormat st) (reportCustomFormat st) (reportFinalFormat st)
     (picture st) (socket st) (timeSeriesDB st) (storage st).
Definition set_reportFormatType (v : option string) (st : t) : t :=
  mk (deviceID st) (lastAlive st) (seqNum st) (reportType st)
     (isReportCustom st) (isReportJ1708 st) (isReportJ1939 st) v
     (reportJ1XXXFormat st) (reportCustomFormat st) (reportFinalFormat st)
     (picture st) (socket st) (timeSeriesDB st) (storage st).
Definition set_reportJ1XXXFormat (v : option (list string)) (st : t) : t :=
  mk (deviceID st) (lastAlive st) (seqNum st) (reportType st)
     (isReportCustom st) (isReportJ1708 st) (isReportJ1939 st)
     (reportFormatType st) v (reportCustomFormat st) (reportFinalFormat st)
     (picture st) (socket st) (timeSeriesDB st) (storage st).
Definition set_reportCustomFormat (v : option (list string)) (st : t) : t :=
  mk (deviceID st) (lastAlive st) (seqNum st) (reportType st)
     (isReportCustom st) (isReportJ1708 st) (isReportJ1939 st)
     (reportFormatType st) (reportJ1XXXFormat st) v (reportFinalFormat st)
     (picture st) (socket st) (timeSeriesDB st) (storage st).
Definition set_reportFinalFormat (v : option (list string)) (st : t) : t :=
  mk (deviceID st) (lastAlive st) (seqNum st) (reportType st)
     (isReportCustom st) (isReportJ1708 st) (isReportJ1939 st)
     (reportFormatType st) (reportJ1XXXFormat st) (reportCustomFormat st) v
     (picture st) (socket st) (timeSeriesDB st) (storage st).
Definition set_picture (v : option Picture.t) (st : t) : t :=
  mk (deviceID st) (lastAlive st) (seqNum st) (reportType st)
     (isReportCustom st) (isReportJ1708 st) (isReportJ1939 st)
     (reportFormatType st) (reportJ1XXXFormat st) (reportCustomFormat st)
     (reportFinalFormat st) v (socket st) (timeSeriesDB st) (storage st).
Definition set_socket (v : list Buffer.t) (st : t) : t :=
  mk (deviceID st) (lastAlive st) (seqNum st) (reportType st)
     (isReportCustom st) (isReportJ1708 st) (isReportJ1939 st)
     (reportFormatType st) (reportJ1XXXFormat st) (reportCustomFormat st)
     (reportFinalFormat st) (picture st) v (timeSeriesDB st) (storage st).
Definition set_timeSeriesDB (v : list Point) (st : t) : t :=
  mk (deviceID st) (lastAlive st) (seqNum st) (reportType st)
     (isReportCustom st) (isReportJ1708 st) (isReportJ1939 st)
     (reportFormatType st) (reportJ1XXXFormat st) (reportCustomFormat st)
     (reportFinalFormat st) (picture st) (socket st) v (storage st).
Definition set_storage (v : list Picture.sink_write) (st : t) : t :=
  mk (deviceID st) (lastAlive st) (seqNum st) (reportType st)
     (isReportCustom st) (isReportJ1708 st) (isReportJ1939 st)
     (reportFormatType st) (reportJ1XXXFormat st) (reportCustomFormat st)
     (reportFinalFormat st) (picture st) (socket st) (timeSeriesDB st) v.

(** The two-character line separator of the protocol, CR LF. *)
Definition CRLF : string := String "013"%char (String "010"%char EmptyString).

Definition cmdForm : string := "$FORM".
Definition cmdJ1708 : string := "$1708".
Definition cmdJ1939 : string := "$FMSC".

Definition reportBaseFormat : list string :=
  ["GPSTime"; "RTCTime"; "SendTime"; "LNG"; "LAT"; "Heading"; "ReportID";
   "Odometer"; "HDOP"; "InputStatus"; "Speed"; "OutputStatus";
   "AnalogInputValue"; "DriverID"; "1stTemp"; "2ndTemp"; "TextMsg"]%string.

(** The constructor, at time [now]. *)
Definition new (now : Z) : t :=
  mk None now None None None None None None None None None None [] [] [].

(** [HandleKeepAliveMsg] *)
Definition HandleKeepAliveMsg (st : t) (buffer : Buffer.t) : result t :=
  id <- Buffer.readBigUint64BE (Buffer.subarray buffer 2 10) ;;
  let st := set_deviceID (Some (BigInt id)) st in
  Ok (set_seqNum
        (Some (parseInt (Buffer.toString_hex (Buffer.subarray buffer 10 12))
                        (Some 16))) st).

(** [CheckReportType] *)
Definition CheckReportType (st : t) (buffer : Buffer.t) : t :=
  match reportType st with
  | Some _ => st
  | None =>
      if Buffer.equals (Buffer.subarray buffer 2 3) [Byte.x2c]
      then set_reportType (Some "ascii"%string) st
      else set_reportType (Some "binary"%string) st
  end.

(** [s.replace(re, '$1')], where [re] matches a whole string that starts and
    ends with a double quote (code 34) around characters other than line
    terminators. *)
Definition unquote (s : string) : string :=
  match chars s with
  | q :: rest =>
      match rev rest with
      | q' :: inner =>
          if is_char 34 q && is_char 34 q'
             && forallb (fun c => negb (Pattern.is_line_terminator c)) inner
          then str (rev inner) else s
      | [] => s
      end
  | [] => s
  end.

(** [ReportFormatSplit] *)
Definition ReportFormatSplit (reportFormat : string) : list string :=
  let stripped :=
    str (filter (fun c => negb (is_char 39 c || is_char 34 c))
                (chars reportFormat)) in
  let reportSplit := split stripped "%" in
  tl reportSplit.

Definition eq_opt (a : option string) (b : string) : bool :=
  match a with
  | Some a => String.eqb a b
  | None => false
  end.

(** [SaveReportFormat] *)
Definition SaveReportFormat (st : t) (input : list string) : result t :=
  let cmd := elem input 0 in
  match elem input 1 with
  | None => Throw TypeError
  | Some input1 =>
      let value := split input1 "," in
      let save (flag : option bool) (report : option string)
               (set_format : option (list string) -> t -> t)
               (set_flag : option bool -> t -> t) : result t :=
        match flag with
        | Some _ => Ok st
        | None =>
            match report with
            | None => Throw TypeError
            | Some report =>
                if Picture.nonempty (unquote report)
                then Ok (set_flag (Some true)
                           (set_format (Some (ReportFormatSplit report)) st))
                else Ok (set_flag (Some false) st)
            end
        end in
      if eq_opt cmd cmdForm then
        save (isReportCustom st) (elem value 3)
             set_reportCustomFormat set_isReportCustom
      else if eq_opt cmd cmdJ1708 then
        save (isReportJ1708 st) (elem value 0)
             set_reportJ1XXXFormat set_isReportJ1708
      else if eq_opt cmd cmdJ1939 then
        save (isReportJ1939 st) (elem value 1)
             set_reportJ1XXXFormat set_isReportJ1939
      else Ok st
  end.

(** [base.concat(x)]: an [undefined] argument is appended as one element,
    which no later code reads as a field name. *)
Definition concat_format (base : list string) (x : option (list string))
  : list string :=
  match x with
  | Some l => (base ++ l)%list
  | None => (base ++ ["undefined"%string])%list
  end.

Definition is_true (b : option bool) : bool :=
  match b with
  | Some true => true
  | _ => false
  end.

Definition is_undefined {A : Type} (x : option A) : bool :=
  match x with
  | None => true
  | Some _ => false
  end.

(** [UpdateReportFormatStatus] *)
Definition UpdateReportFormatStatus (st : t) : bool * t :=
  if is_undefined (isReportCustom st) || is_undefined (isReportJ1708 st)
     || is_undefined (isReportJ1939 st)
  then (false, st)
  else
    let c := is_true (isReportCustom st) in
    let j8 := is_true (isReportJ1708 st) in
    let j9 := is_true (isReportJ1939 st) in
    let st :=
      if c && negb j8 && negb j9 then
        set_reportFinalFormat
          (Some (concat_format reportBaseFormat (reportCustomFormat st)))
          (set_reportFormatType (Some "custom"%string) st)
      else if negb c && j8 && negb j9 then
        set_reportFinalFormat
          (Some (concat_format reportBaseFormat (reportJ1XXXFormat st)))
          (set_reportFormatType (Some "j1708"%string) st)
      else if negb c && negb j8 && j9 then
        set_reportFinalFormat
          (Some (concat_format reportBaseFormat (reportJ1XXXFormat st)))
          (set_reportFormatType (Some "j1939"%string) st)
      else
        set_reportFinalFormat (Some reportBaseFormat)
          (set_reportFormatType (Some "base"%string) st) in
    (true, st).

(** [SendCommand] *)
Definition SendCommand (st : t) (command : string) : t :=
  set_socket (socket st ++ [Buffer.from_ascii (command ++ CRLF)%string])%list st.

(** [SendACK] *)
Definition SendACK (st : t) : t :=
  match deviceID st, seqNum st with
  | Some id, Some seq =>
      if DeviceID_truthy id && truthy seq then
        let seqNumHexString := padStart (toString seq 16) 4 "0" in
        let ackMsg :=
          ("fe02" ++ padStart (DeviceID_toString id 16) 16 "0"
                  ++ seqNumHexString)%string in
        let ackMsgHex := Buffer.from_hex ackMsg in
        set_socket (socket st ++ [ackMsgHex])%list st
      else st
  | _, _ => st
  end.

(** [GetReportFormat], the callback of the negotiation timer: the state,
    and whether the timer is cleared. *)
Definition GetReportFormat (st : t) : t * bool :=
  let '(resolved, st) := UpdateReportFormatStatus st in
  if resolved then (st, true)
  else
    let st :=
      if is_undefined (isReportCustom st)
      then SendCommand st ("AT" ++ cmdForm ++ "=?")%string else st in
    let st :=
      if is_undefined (isReportJ1708 st)
      then SendCommand st ("AT" ++ cmdJ1708 ++ "=?")%string else st in
    let st :=
      if is_undefined (isReportJ1939 st)
      then SendCommand st ("AT" ++ cmdJ1939 ++ "=?")%string else st in
    (st, false).

(** [GetHeaderValueAscii] with type 'String' and with type 'Int' *)
Definition GetHeaderValueAscii (inputBuffer : Buffer.t) (startIndex : Z)
  : string * Z :=
  let endIndex := Buffer.indexOf inputBuffer Byte.x2c startIndex in
  let output :=
    Buffer.toString_ascii (Buffer.subarray inputBuffer startIndex endIndex) in
  (output, endIndex + 1).

Definition GetHeaderValueAsciiInt (inputBuffer : Buffer.t) (startIndex : Z)
  : num * Z :=
  let '(output, next) := GetHeaderValueAscii inputBuffer startIndex in
  (parseInt output None, next).

(** [CheckReportMsg] *)
Definition CheckReportMsg (msg : string) : bool :=
  if Utilities.IsStringEmptyOrSpaces msg then false
  else
    match chars msg with
    | c :: _ => (48 <=? code c) && (code c <=? 57)
    | [] => false
    end.

Section Connection.

(** The environment of the process and the field decoder built from the
    catalogue named by REPORT_PATTERN_PATH ([atrackPattern.ExtractValue]). *)
Variable env : Picture.Env.
Variable ExtractValue :
  list string -> list string -> result (option (list Pattern.DecodedValue)).

(** [WriteReport] *)
Fixpoint WriteReport (st : t) (reportLines : list string) : result t :=
  match reportLines with
  | [] => Ok st
  | line :: rest =>
      if negb (CheckReportMsg line) then WriteReport st rest
      else
        let frame := split line "," in
        data <- ExtractValue frame
                  (match reportFinalFormat st with Some f => f | None => [] end) ;;
        let timestamp :=
          ((match elem frame 1 with Some s => s | None => "undefined" end)
           ++ str (repeat "0" 9))%string in
        match deviceID st with
        | None => Throw TypeError
        | Some id =>
            written <- WriteData (timeSeriesDB st) (DeviceID_toString id 10)
                         timestamp data ;;
            WriteReport (set_timeSeriesDB written st) rest
        end
  end.

(** [HandleReportMsgAscii] *)
Definition HandleReportMsgAscii (st : t) (buffer : Buffer.t) : result t :=
  let headerCurrentIndex := 3 in
  let '(bufferCRC, headerCurrentIndex) :=
    GetHeaderValueAscii buffer headerCurrentIndex in
  let '(bufferLength, headerCurrentIndex) :=
    GetHeaderValueAscii buffer headerCurrentIndex in
  let '(bufferSeqNum, headerCurrentIndex) :=
    GetHeaderValueAsciiInt buffer headerCurrentIndex in
  let '(bufferID, headerCurrentIndex) :=
    GetHeaderValueAsciiInt buffer headerCurrentIndex in
  let st :=
    match deviceID st with
    | None => set_deviceID (Some (Number bufferID)) st
    | Some _ => st
    end in
  let st := set_seqNum (Some bufferSeqNum) st in
  match reportFinalFormat st with
  | None => Ok st
  | Some _ =>
      let dataFrame :=
        Buffer.toString_ascii (Buffer.subarray_from buffer headerCurrentIndex) in
      let dataFrameLines := split dataFrame CRLF in
      WriteReport st dataFrameLines
  end.

(** [HandleReportMsgBinary]: not implemented in the source. *)
Definition HandleReportMsgBinary (st : t) (buffer : Buffer.t) : result t :=
  Ok st.

(** [HandleReportMsg] *)
Definition HandleReportMsg (st : t) (buffer : Buffer.t) : result t :=
  let st := CheckReportType st buffer in
  if eq_opt (reportType st) "ascii" then HandleReportMsgAscii st buffer
  else if eq_opt (reportType st) "binary" then HandleReportMsgBinary st buffer
  else Ok st.

(** The loop of [HandleOtherMsg] over the lines of the message. *)
Fixpoint HandleOtherLines (st : t) (dataSplit : list string) : result t :=
  match dataSplit with
  | [] => Ok st
  | line :: rest =>
      if Utilities.IsStringEmptyOrSpaces line then HandleOtherLines st rest
      else
        let dataCmdSplit := split line "=" in
        if (1 <? List.length dataCmdSplit)%nat then
          if eq_opt (elem dataCmdSplit 0) cmdForm
             || eq_opt (elem dataCmdSplit 0) cmdJ1708
             || eq_opt (elem dataCmdSplit 0) cmdJ1939
          then
            st <- SaveReportFormat st dataCmdSplit ;;
            HandleOtherLines (snd (UpdateReportFormatStatus st)) rest
          else HandleOtherLines st rest
        else HandleOtherLines st rest
  end.

(** [HandleOtherMsg] *)
Definition HandleOtherMsg (st : t) (buffer : Buffer.t) : result t :=
  if eq_opt (reportType st) "ascii" then
    let dataAscii := Buffer.toString_ascii buffer in
    HandleOtherLines st (split dataAscii CRLF)
  else Ok st.

(** [HandlePictureMsg] *)
Definition HandlePictureMsg (st : t) (buffer : Buffer.t) : result t :=
  let bufferCRC := Picture.hex_field buffer 2 4 in
  let bufferLength := Picture.hex_field buffer 4 6 in
  let bufferSeqNum := Picture.hex_field buffer 6 8 in
  bufferDeviceID <- Buffer.readBigUint64BE (Buffer.subarray buffer 8 16) ;;
  let st := set_seqNum (Some bufferSeqNum) st in
  let PICTURE_DATAFRAME_START_INDEX := 16 in
  let pictureDataFrame :=
    Buffer.subarray_from buffer PICTURE_DATAFRAME_START_INDEX in
  match picture st with
  | None =>
      Ok (set_picture
            (Some (Picture.new env pictureDataFrame (deviceID st))) st)
  | Some p =>
      let '(p', _, writes) := Picture.AddPicturePackage p pictureDataFrame in
      let st := set_storage (storage st ++ writes)%list
                  (set_picture (Some p') st) in
      if Picture.isDone p' then Ok (set_picture None st) else Ok st
  end.

(** The four kinds of frame, by prefix. *)
Definition is_keepalive (buffer : Buffer.t) : bool :=
  Buffer.equals (Buffer.subarray buffer 0 2) [Byte.xfe; Byte.x02]
  && (List.length buffer =? 12)%nat.

Definition is_report (buffer : Buffer.t) : bool :=
  Buffer.equals (Buffer.subarray buffer 0 2) [Byte.x40; Byte.x50].

Definition is_picture (buffer : Buffer.t) : bool :=
  Buffer.equals (Buffer.subarray buffer 0 2) [Byte.x40; Byte.x52].

(** [RecievedData], called at time [now]. *)
Definition RecievedData (now : Z) (st : t) (buffer : Buffer.t) : result t :=
  st <- (if is_keepalive buffer then HandleKeepAliveMsg st buffer
         else if is_report buffer then HandleReportMsg st buffer
         else if is_picture buffer then HandlePictureMsg st buffer
         else HandleOtherMsg st buffer) ;;
  let st := set_lastAlive now st in
  Ok (SendACK st).

(** A connection fed a sequence of frames, each with its arrival time. *)
Fixpoint run (st : t) (frames : list (Z * Buffer.t)) : result t :=
  match frames with
  | [] => Ok st
  | (now, buffer) :: rest =>
      st <- RecievedData now st buffer ;; run st rest
  end.

End Connection.

End ClientSocket.

(* ====================================================================== *)
(** * utilities.js: header fields of a binary frame *)

(** What [GetHeaderValueBinary] returns as value: a BigInt, a Number or the
    bytes themselves. *)
Inductive HeaderValue : Type :=
| HeaderBigInt (z : Z)
| HeaderInt (n : JS.num)
| HeaderBytes (b : Buffer.t).

(** [GetHeaderValueBinary] *)
Definition GetHeaderValueBinary (inputBuffer : Buffer.t) (startIndex : Z)
           (type : string) : result (HeaderValue * Z) :=
  let endIndex := Buffer.indexOf inputBuffer Byte.x2c startIndex in
  let dataArray := Buffer.subarray inputBuffer startIndex endIndex in
  output <-
    (if String.eqb type "BigUint64BE" then
       z <- Buffer.readBigUint64BE dataArray ;; Ok (HeaderBigInt z)
     else if String.eqb type "Int" then
       Ok (HeaderInt (JS.parseInt (Buffer.toString_hex dataArray) (Some 16)))
     else Ok (HeaderBytes dataArray)) ;;
  Ok (output, endIndex + 1).

(* ====================================================================== *)
(** * Vocabulary of the specification *)

Set Warnings "-inexact-float".

Import ClientSocket.

(** The [k] least significant digits of [z] in [radix], most significant
    first. *)
Fixpoint fixed (radix : Z) (k : nat) (z : Z) : list ascii :=
  match k with
  | O => []
  | S k' => fixed radix k' (z / radix) ++ [digit_char (z mod radix)]
  end.

Definition acc_value (acc : option Z) : Z :=
  match acc with
  | Some a => a
  | None => 0
  end.

(** The radix [parseInt] reads with when no prefix is stripped. *)
Definition effective (radix : option Z) (r : Z) : Prop :=
  match radix with
  | None => r = 10
  | Some r0 => r0 = r /\ 2 <= r <= 36
  end.

Definition plain_digit (c : ascii) : Prop :=
  48 <= code c <= 57 \/ 97 <= code c <= 102.

Definition no_tilde (l : list ascii) : Prop := Forall (fun c => code c <> 126) l.

(** The field definition of the repository's TPMS test. *)
Definition tpms_info : Pattern.PatternInfo :=
  Pattern.mkInfo "tpms" "tpms"
    (Some 0.3625%float) (Some 0%float) (Some 3%float) (Some (-424)%float).

(** The same definition with pressure_const left out. *)
Definition tpms_info_no_pressure_const : Pattern.PatternInfo :=
  Pattern.mkInfo "tpms" "tpms"
    (Some 0.3625%float) None (Some 3%float) (Some (-424)%float).

Definition gforce_info : Pattern.PatternInfo :=
  Pattern.mkInfo "g" "g_force" None None None None.

(** The layout of a picture packet: current-package index at offset 4,
    total-package count at offset 5, payload chunk after the 8-byte
    header. *)
Definition packet_index (pkt : Buffer.t) : option Z :=
  option_map Buffer.val (nth_error pkt 4).

Definition packet_total (pkt : Buffer.t) : option Z :=
  option_map Buffer.val (nth_error pkt 5).

Definition packet_chunk (pkt : Buffer.t) : Buffer.t := skipn 8 pkt.

Definition num_of (o : option Z) : num :=
  match o with
  | Some z => Int z
  | None => NaN
  end.

(** A transfer after the packets [pkts] have been applied in order. *)
Definition apply_packets (p : Picture.t) (pkts : list Buffer.t) : Picture.t :=
  fold_left (fun p pkt => fst (fst (Picture.AddPicturePackage p pkt))) pkts p.

(** Three packets of a transfer that declares a total of 3. *)
Definition picture_packet (index : Buffer.byte) (chunk : Buffer.t) : Buffer.t :=
  ([Byte.x65; Byte.x00; Byte.x00; Byte.x01; index; Byte.x03; Byte.x00;
    Byte.x02] ++ chunk)%list.

Definition packet1 : Buffer.t := picture_packet Byte.x01 [Byte.xff; Byte.xd8].
Definition packet2 : Buffer.t := picture_packet Byte.x02 [Byte.x11; Byte.x22].
Definition packet3 : Buffer.t := picture_packet Byte.x03 [Byte.xff; Byte.xd9].

Definition no_env : Picture.Env := Picture.mkEnv None None None None.

(** [st'] with every field outside the report-format group taken from [st]. *)
Definition with_format (st' st : ClientSocket.t) : ClientSocket.t :=
  mk (deviceID st) (lastAlive st) (seqNum st) (reportType st)
     (isReportCustom st') (isReportJ1708 st') (isReportJ1939 st')
     (reportFormatType st') (reportJ1XXXFormat st') (reportCustomFormat st')
     (reportFinalFormat st') (picture st) (socket st) (timeSeriesDB st)
     (storage st).

(** A keep-alive frame: the marker, 8 identifier bytes, 2 sequence bytes. *)
Definition keepalive_frame (id seq : Buffer.t) : Buffer.t :=
  Byte.xfe :: Byte.x02 :: (id ++ seq)%list.

(** A decoder that finds nothing to decode. *)
Definition no_decoder (input pattern : list string)
  : result (option (list Pattern.DecodedValue)) := Ok None.

(** A picture frame: the marker @R, CRC, length, sequence number 7, device
    identifier, then a packet declaring index 1 of 1. *)
Definition single_picture_frame : Buffer.t :=
  [Byte.x40; Byte.x52; Byte.x00; Byte.x00; Byte.x00; Byte.x0c; Byte.x00;
   Byte.x07; Byte.x00; Byte.x00; Byte.x00; Byte.x00; Byte.x00; Byte.x00;
   Byte.x00; Byte.x09; Byte.x65; Byte.x00; Byte.x00; Byte.x01; Byte.x01;
   Byte.x01; Byte.x00; Byte.x02; Byte.xff; Byte.xd8].

(** The frame prefix [h] holds the four commas that close the CRC, length,
    sequence and identifier fields of an ASCII report header. *)
Definition header_complete (h : Buffer.t) : Prop :=
  let i1 := Buffer.indexOf h Byte.x2c 3 in
  let i2 := Buffer.indexOf h Byte.x2c (i1 + 1) in
  let i3 := Buffer.indexOf h Byte.x2c (i2 + 1) in
  let i4 := Buffer.indexOf h Byte.x2c (i3 + 1) in
  0 <= i1 /\ 0 <= i2 /\ 0 <= i3 /\ 0 <= i4.

(** What the header of a report frame makes of a connection whose format is
    unresolved. *)
Definition after_header (st : ClientSocket.t) (h : Buffer.t) : ClientSocket.t :=
  let i1 := snd (GetHeaderValueAscii h 3) in
  let i2 := snd (GetHeaderValueAscii h i1) in
  let '(bufferSeqNum, i3) := GetHeaderValueAsciiInt h i2 in
  let '(bufferID, _) := GetHeaderValueAsciiInt h i3 in
  set_seqNum (Some bufferSeqNum)
    (match deviceID st with
     | None => set_deviceID (Some (Number bufferID)) st
     | Some _ => st
     end).

(** The state a report frame with header [h] leaves behind while the format
    is unresolved, whatever follows the header. *)
Definition after_report (now : Z) (st : ClientSocket.t) (h : Buffer.t)
  : ClientSocket.t :=
  let st1 := CheckReportType st h in
  SendACK
    (set_lastAlive now
       (if eq_opt (reportType st1) "ascii" then after_header st1 h else st1)).

(** The three customizations, each with its flag, its query command, the
    position of the format string among the comma-separated arguments of
    the response, the slot the parsed format is stored in and the name of
    the resulting format type. *)
Inductive customization : Type := Custom | J1708 | J1939.

Definition flag (c : customization) (st : ClientSocket.t) : option bool :=
  match c with
  | Custom => isReportCustom st
  | J1708 => isReportJ1708 st
  | J1939 => isReportJ1939 st
  end.

Definition cmd_of (c : customization) : string :=
  match c with
  | Custom => cmdForm
  | J1708 => cmdJ1708
  | J1939 => cmdJ1939
  end.

Definition report_index (c : customization) : nat :=
  match c with
  | Custom => 3
  | J1708 => 0
  | J1939 => 1
  end.

Definition type_of (c : customization) : string :=
  match c with
  | Custom => "custom"
  | J1708 => "j1708"
  | J1939 => "j1939"
  end.

Definition others_absent (c : customization) (st : ClientSocket.t) : Prop :=
  match c with
  | Custom => isReportJ1708 st = Some false /\ isReportJ1939 st = Some false
  | J1708 => isReportCustom st = Some false /\ isReportJ1939 st = Some false
  | J1939 => isReportCustom st = Some false /\ isReportJ1708 st = Some false
  end.

(** The format string with every single and double quote removed. *)
Definition strip_quotes (s : string) : string :=
  str (filter (fun c => negb (is_char 39 c || is_char 34 c)) (chars s)).

(** Customization [c] was recorded present with token list [fmt]: its flag
    is set, and its slot holds [fmt] unless the other J-bus customization,
    which shares the slot, is present too. *)
Definition recorded (c : customization) (fmt : list string)
           (st : ClientSocket.t) : Prop :=
  match c with
  | Custom =>
      isReportCustom st = Some true /\ reportCustomFormat st = Some fmt
  | J1708 =>
      isReportJ1708 st = Some true
      /\ (reportJ1XXXFormat st = Some fmt \/ isReportJ1939 st = Some true)
  | J1939 =>
      isReportJ1939 st = Some true
      /\ (reportJ1XXXFormat st = Some fmt \/ isReportJ1708 st = Some true)
  end.

(** The fields [SaveReportFormat] reads and writes. *)
Definition fmt_view (st : ClientSocket.t) :=
  (isReportCustom st, isReportJ1708 st, isReportJ1939 st,
   reportJ1XXXFormat st, reportCustomFormat st).

(** A format string as the device sends it, between double quotes. *)
Definition quoted (s : string) : string :=
  (String "034"%char s ++ String "034"%char EmptyString)%string.

(** A connection that has seen an ASCII report, so that command responses
    are read. *)
Definition ascii_connection : ClientSocket.t :=
  set_reportType (Some "ascii"%string) (ClientSocket.new 0).

(** The integer that [bits] binary digits of unsigned value [u] denote in
    two's complement. *)
Definition twos_complement (bits u : Z) : Z :=
  if u <? 2 ^ (bits - 1) then u else u - 2 ^ bits.

(** The names the TPMS decoder gives to [k] tires, the first one numbered
    [i + 1]: temperature then pressure, tire after tire. *)
Fixpoint tire_names (i : Z) (k : nat) : list string :=
  match k with
  | O => []
  | S k' =>
      ("tire_temp_" ++ int_toString (i + 1) 10)%string
      :: ("tire_pressure_" ++ int_toString (i + 1) 10)%string
      :: tire_names (i + 1) k'
  end.

(** A decoded value that is a Number not below zero. *)
Definition not_below_zero (d : Pattern.DecodedValue) : Prop :=
  exists f, Pattern.val d = Pattern.VNumber f
            /\ PrimFloat.ltb f PrimFloat.zero = false.

(** No character of the string is a line terminator. *)
Definition one_line (s : string) : Prop :=
  forallb (fun c => negb (Pattern.is_line_terminator c)) (chars s) = true.

(** All four coefficients of the TPMS equations are configured. *)
Definition tpms_configured (patternInfo : Pattern.PatternInfo) : Prop :=
  Pattern.pressure_slope patternInfo <> None
  /\ Pattern.pressure_const patternInfo <> None
  /\ Pattern.temp_slope patternInfo <> None
  /\ Pattern.temp_const patternInfo <> None.

(** The [k] low bytes of [z], most significant first. *)
Fixpoint be_bytes (k : nat) (z : Z) : Buffer.t :=
  match k with
  | O => []
  | S k' => be_bytes k' (z / 256) ++ [Buffer.of_val (z mod 256)]
  end.

(** The integer a device identifier stands for, if any. *)
Definition DeviceID_value (d : DeviceID) : option Z :=
  match d with
  | BigInt z => Some z
  | Number (Int z) => Some z
  | Number NaN => None
  end.

(** The identifier is a BigInt, or a Number in the range in which Numbers
    are exact. *)
Definition DeviceID_exact (d : DeviceID) : Prop :=
  match d with
  | BigInt _ => True
  | Number (Int z) => z < 2 ^ 53
  | Number NaN => True
  end.

(** No character of the string is a comma. *)
Definition no_comma (s : string) : Prop :=
  Forall (fun c => code c <> 44) (chars s).

(** An ASCII report frame: the marker @P, a comma, then the CRC, the
    length, the sequence number and the device identifier (both in
    decimal), each closed by a comma, then the report body. *)
Definition report_frame (crc len : string) (seq id : Z) (body : Buffer.t)
  : Buffer.t :=
  (Buffer.from_ascii "@P,"
   ++ Buffer.from_ascii crc ++ Byte.x2c
   :: Buffer.from_ascii len ++ Byte.x2c
   :: Buffer.from_ascii (int_toString seq 10) ++ Byte.x2c
   :: Buffer.from_ascii (int_toString id 10) ++ Byte.x2c
   :: body)%list.

(** The connection once the header of such a frame has been read. *)
Definition header_applied (st : ClientSocket.t) (seq id : Z) : ClientSocket.t :=
  let st := set_reportType (Some "ascii"%string) st in
  set_seqNum (Some (Int seq))
    (match deviceID st with
     | None => set_deviceID (Some (Number (Int id))) st
     | Some _ => st
     end).



(** The picture packet carried by a picture frame, after its 16-byte
    header. *)
Definition picture_payload (frame : Buffer.t) : Buffer.t := skipn 16 frame.

(** The write issued for a finished transfer [p] with content [content]. *)
Definition stored_picture (p : Picture.t) (content : Buffer.t)
  : Picture.sink_write :=
  if String.eqb (Picture.saveTarget p) "folder"
  then Picture.WriteToFolder (Picture.filePath p) (Picture.fullFilePath p)
         content
  else Picture.WriteToBucket (Picture.dbBucket p)
         (DeviceID_template (Picture.deviceID p) ++ "/" ++ Picture.fileName p)
         content.

(** A frame with the picture marker and a complete 16-byte header. *)
Definition picture_frame (frame : Buffer.t) : Prop :=
  is_picture frame = true /\ (16 <= List.length frame)%nat.

(** A picture frame around a packet: the marker @R, CRC, length, sequence
    number 7 and device identifier 9. *)
Definition framed (pkt : Buffer.t) : Buffer.t :=
  ([Byte.x40; Byte.x52; Byte.x00; Byte.x00; Byte.x00; Byte.x0c; Byte.x00;
    Byte.x07; Byte.x00; Byte.x00; Byte.x00; Byte.x00; Byte.x00; Byte.x00;
    Byte.x00; Byte.x09] ++ pkt)%list.

(** The query sent for customization [c]. *)
Definition query (c : customization) : Buffer.t :=
  Buffer.from_ascii ("AT" ++ cmd_of c ++ "=?" ++ CRLF)%string.

(** The customizations whose query has not been answered yet, in the order
    they are asked. *)
Definition unanswered (st : ClientSocket.t) : list customization :=
  filter (fun c => is_undefined (flag c st)) [Custom; J1708; J1939].

(** A field token of a format string: no percent sign, quote or comma. *)
Definition format_token (t : string) : Prop :=
  Forall (fun c => code c <> 37 /\ code c <> 39 /\ code c <> 34
                   /\ code c <> 44) (chars t).

(** The format string of a list of tokens: each one after a percent sign. *)
Fixpoint format_of (tokens : list string) : string :=
  match tokens with
  | [] => ""
  | t :: rest => ("%" ++ t ++ format_of rest)%string
  end.

(** The arguments of the response to the query for [c], the format string
    between double quotes at the position it is read from. *)
Definition response_args (c : customization) (format : string) : string :=
  match c with
  | Custom => ("0,@P,0," ++ quoted format)%string
  | J1708 => quoted format
  | J1939 => ("1," ++ quoted format)%string
  end.

(** The slot that holds the tokens of customization [c]. *)
Definition slot (c : customization) (st : ClientSocket.t)
  : option (list string) :=
  match c with
  | Custom => reportCustomFormat st
  | J1708 | J1939 => reportJ1XXXFormat st
  end.

(** No byte of the buffer is a comma. *)
Definition comma_free (b : Buffer.t) : Prop :=
  Forall (fun x => Buffer.val x <> Buffer.val Byte.x2c) b.

(** Every character of the string is a 7-bit character. *)
Definition ascii7 (s : string) : Prop :=
  Forall (fun c => code c < 128) (chars s).

(* ====================================================================== *)
(** * Properties *)

Example slice_u8_range :
  Utilities.GetIntSliceFromBinary 127 8 "3~5" false = Ok (Some (Int 7)).
Proof. reflexivity. Qed.

Example slice_u8_bit :
  Utilities.GetIntSliceFromBinary 300 8 "0" false = Ok None.
Proof. reflexivity. Qed.

Example slice_rendered :
  Utilities.GetIntSliceFromBinary 0xB4 8 (range_slice 2 5) false
  = Ok (Some (Int 13)).
Proof. reflexivity. Qed.

(* ---------------------------------------------------------------------- *)
(** ** Strings and character lists *)

Lemma chars_str l : chars (str l) = l.
Proof. apply list_ascii_of_string_of_list_ascii. Qed.

Lemma str_chars s : str (chars s) = s.
Proof. apply string_of_list_ascii_of_string. Qed.

Lemma length_chars s : String.length s = List.length (chars s).
Proof. induction s; simpl; congruence. Qed.

Lemma length_str l : length (str l) = Z.of_nat (List.length l).
Proof. unfold length. now rewrite length_chars, chars_str. Qed.

Lemma chars_append s1 s2 : chars (s1 ++ s2) = (chars s1 ++ chars s2)%list.
Proof. induction s1; simpl; [reflexivity | now rewrite IHs1]. Qed.

(* ---------------------------------------------------------------------- *)
(** ** Digits *)

Lemma code_ascii_of_nat n : (n < 256)%nat -> code (ascii_of_nat n) = Z.of_nat n.
Proof. intros H. unfold code. now rewrite nat_ascii_embedding. Qed.

Lemma code_digit_char d :
  0 <= d < 36 -> code (digit_char d) = if d <? 10 then 48 + d else 87 + d.
Proof.
  intros H. unfold digit_char.
  destruct (d <? 10) eqn:E; rewrite code_ascii_of_nat; lia.
Qed.

Ltac zcases :=
  repeat match goal with
    | |- context [?a <=? ?b] => destruct (Z.leb_spec a b)
    | |- context [?a <? ?b] => destruct (Z.ltb_spec a b)
    | |- context [?a =? ?b] => destruct (Z.eqb_spec a b)
    end; simpl; try lia; try reflexivity.

Lemma digit_in_digit_char r d :
  0 <= d < r -> r <= 36 -> digit_in r (digit_char d) = Some d.
Proof.
  intros Hd Hr. unfold digit_in, digit_value.
  rewrite code_digit_char by lia.
  destruct (d <? 10) eqn:E.
  - apply Z.ltb_lt in E.
    replace ((48 <=? 48 + d) && (48 + d <=? 57)) with true by (symmetry; zcases).
    replace (48 + d - 48) with d by lia.
    destruct (Z.ltb_spec d r); [reflexivity | lia].
  - apply Z.ltb_ge in E.
    replace ((48 <=? 87 + d) && (87 + d <=? 57)) with false by (symmetry; zcases).
    replace ((97 <=? 87 + d) && (87 + d <=? 122)) with true by (symmetry; zcases).
    replace (87 + d - 87) with d by lia.
    destruct (Z.ltb_spec d r); [reflexivity | lia].
Qed.

Lemma length_fixed r k z : List.length (fixed r k z) = k.
Proof.
  revert z. induction k; intros z; simpl; [reflexivity |].
  rewrite length_app, IHk. simpl. lia.
Qed.

Lemma fixed_app r m a z :
  0 < r ->
  fixed r (m + a) z = (fixed r m (z / r ^ Z.of_nat a) ++ fixed r a z)%list.
Proof.
  intros Hr. revert z. induction a; intros z.
  - rewrite Nat.add_0_r. simpl. now rewrite Z.div_1_r, app_nil_r.
  - rewrite Nat.add_succ_r.
    change (fixed r (S (m + a)) z)
      with (fixed r (m + a) (z / r) ++ [digit_char (z mod r)])%list.
    change (fixed r (S a) z)
      with (fixed r a (z / r) ++ [digit_char (z mod r)])%list.
    assert (0 < r ^ Z.of_nat a) by (apply Z.pow_pos_nonneg; lia).
    rewrite IHa, <- app_assoc, Z.div_div by lia.
    rewrite Nat2Z.inj_succ, Z.pow_succ_r by lia. reflexivity.
Qed.

Lemma fixed_zero r n : 1 < r -> fixed r n 0 = List.repeat (digit_char 0) n.
Proof.
  intros Hr. induction n; simpl; [reflexivity |].
  rewrite Z.div_0_l, Z.mod_0_l by lia.
  rewrite IHn. now rewrite <- repeat_cons.
Qed.

Lemma fixed_pad r k n z :
  1 < r -> 0 <= z < r ^ Z.of_nat k ->
  fixed r (n + k) z = (List.repeat (digit_char 0) n ++ fixed r k z)%list.
Proof.
  intros Hr Hz. rewrite fixed_app by lia.
  rewrite Z.div_small by lia. now rewrite fixed_zero.
Qed.

Lemma fixed_head r k z :
  0 < r ->
  fixed r (S k) z = digit_char ((z / r ^ Z.of_nat k) mod r) :: fixed r k z.
Proof.
  intros Hr. change (S k) with (1 + k)%nat. now rewrite fixed_app.
Qed.

Lemma digits_aux_S f r z acc :
  digits_aux (S f) r z acc
  = if z / r =? 0 then digit_char (z mod r) :: acc
    else digits_aux f r (z / r) (digit_char (z mod r) :: acc).
Proof. reflexivity. Qed.

Lemma digits_aux_fixed r f : 1 < r -> forall z acc,
  0 <= z < 2 ^ Z.of_nat (S f) ->
  exists k, digits_aux (S f) r z acc = (fixed r (S k) z ++ acc)%list
            /\ z < r ^ Z.of_nat (S k)
            /\ (k = O \/ r ^ Z.of_nat k <= z).
Proof.
  intros Hr. induction f; intros z acc Hz.
  - exists O. change (2 ^ Z.of_nat 1) with 2 in Hz.
    cbn [digits_aux fixed app]. rewrite Z.div_small by lia.
    rewrite Z.eqb_refl. split; [reflexivity |].
    split; [| now left]. change (Z.of_nat 1) with 1. rewrite Z.pow_1_r. lia.
  - rewrite digits_aux_S. destruct (Z.eqb_spec (z / r) 0) as [E | E].
    + exists O. apply Z.div_small_iff in E; [| lia].
      cbn [fixed app]. split; [reflexivity |].
      split; [| now left]. change (Z.of_nat 1) with 1. rewrite Z.pow_1_r. lia.
    + assert (Hq : 0 <= z / r < 2 ^ Z.of_nat (S f)).
      { split; [apply Z.div_pos; lia |].
        apply Z.div_lt_upper_bound; [lia |].
        rewrite (Nat2Z.inj_succ (S f)), Z.pow_succ_r in Hz by lia.
        assert (0 < 2 ^ Z.of_nat (S f)) by (apply Z.pow_pos_nonneg; lia).
        nia. }
      destruct (IHf (z / r) (digit_char (z mod r) :: acc) Hq)
        as (k & Hk & Hlt & Hge).
      exists (S k). rewrite Hk.
      change (fixed r (S (S k)) z)
        with (fixed r (S k) (z / r) ++ [digit_char (z mod r)])%list.
      rewrite <- app_assoc. split; [reflexivity |].
      assert (Hdm := Z.div_mod z r ltac:(lia)).
      assert (Hm := Z.mod_pos_bound z r ltac:(lia)).
      assert (Hzr : 1 <= z / r).
      { destruct (Z.eq_dec (z / r) 0); lia. }
      split.
      * rewrite (Nat2Z.inj_succ (S k)), Z.pow_succ_r by lia. nia.
      * right. rewrite (Nat2Z.inj_succ k), Z.pow_succ_r by lia.
        destruct Hge as [-> | Hge]; [simpl; nia | nia].
Qed.

Lemma digits_fixed r z : 1 < r -> 0 <= z ->
  exists k, digits r z = fixed r (S k) z
            /\ z < r ^ Z.of_nat (S k)
            /\ (k = O \/ r ^ Z.of_nat k <= z).
Proof.
  intros Hr Hz. unfold digits.
  destruct (digits_aux_fixed r (Z.to_nat (Z.log2 z)) Hr z []) as (k & Hk & H).
  - split; [lia |]. rewrite Nat2Z.inj_succ, Z2Nat.id by apply Z.log2_nonneg.
    destruct (Z.eq_dec z 0) as [-> | ]; [reflexivity |].
    apply Z.log2_spec. lia.
  - exists k. now rewrite Hk, app_nil_r.
Qed.

Lemma parse_digits_fixed r : 1 < r <= 36 -> forall k z rest acc,
  0 <= z ->
  parse_digits r (fixed r (S k) z ++ rest) acc
  = parse_digits r rest
      (Some (acc_value acc * r ^ Z.of_nat (S k) + z mod r ^ Z.of_nat (S k))).
Proof.
  intros Hr. induction k; intros z rest acc Hz.
  - simpl fixed. simpl app.
    cbn [parse_digits]. rewrite digit_in_digit_char; try lia.
    2: apply Z.mod_pos_bound; lia.
    change (Z.of_nat 1) with 1. rewrite Z.pow_1_r.
    destruct acc; simpl; f_equal; f_equal; lia.
  - change (fixed r (S (S k)) z)
      with (fixed r (S k) (z / r) ++ [digit_char (z mod r)])%list.
    rewrite <- app_assoc. rewrite IHk by (apply Z.div_pos; lia).
    simpl app. cbn [parse_digits]. rewrite digit_in_digit_char; try lia.
    2: apply Z.mod_pos_bound; lia.
    f_equal. f_equal. cbn [acc_value].
    rewrite (Nat2Z.inj_succ (S k)), (Z.pow_succ_r _ (Z.of_nat (S k))) by lia.
    assert (0 < r ^ Z.of_nat (S k)) by (apply Z.pow_pos_nonneg; lia).
    rewrite (Z.rem_mul_r z r) by lia. ring.
Qed.

Lemma plain_digit_char d : 0 <= d < 16 -> plain_digit (digit_char d).
Proof.
  intros H. unfold plain_digit. rewrite code_digit_char by lia.
  destruct (Z.ltb_spec d 10); lia.
Qed.

Lemma parseInt_plain s radix r c l :
  chars s = c :: l -> effective radix r ->
  plain_digit c -> Forall plain_digit l ->
  parseInt s radix
  = match parse_digits r (c :: l) None with
    | Some v => Int v
    | None => NaN
    end.
Proof.
  intros Hs Hrad Hc Hl. unfold parseInt. rewrite Hs.
  assert (Hsp : is_space c = false).
  { unfold is_space. red in Hc. zcases. }
  assert (H45 : is_char 45 c = false) by (unfold is_char; red in Hc; zcases).
  assert (H43 : is_char 43 c = false) by (unfold is_char; red in Hc; zcases).
  cbn [trim_start]. rewrite Hsp, H45, H43.
  assert (Hx : match l with
               | x :: _ => is_char 120 x || is_char 88 x = false
               | [] => True
               end).
  { destruct l as [| x l']; [exact I |].
    inversion Hl as [| ? ? Hp _]; subst. unfold is_char. red in Hp. zcases. }
  destruct radix as [r0 |]; cbn [effective] in Hrad; cbv beta iota.
  - destruct Hrad as [-> Hr].
    replace (negb (r =? 0) && ((r <? 2) || (36 <? r))) with false
      by (symmetry; zcases).
    replace (if r =? 0 then 10 else r) with r by zcases.
    destruct l as [| x l']; [| rewrite Hx, andb_false_r]; cbv beta iota;
      (destruct (parse_digits r _ None); [now rewrite Z.mul_1_l | reflexivity]).
  - subst r. change (0 =? 0) with true. cbn [negb andb orb].
    destruct l as [| x l']; [| rewrite Hx, andb_false_r]; cbv beta iota;
      (destruct (parse_digits 10 _ None); [now rewrite Z.mul_1_l | reflexivity]).
Qed.

Lemma Forall_plain_fixed r k z :
  1 < r <= 16 -> Forall plain_digit (fixed r k z).
Proof.
  intros Hr. revert z. induction k; intros z; simpl; [constructor |].
  apply Forall_app. split; [apply IHk |].
  constructor; [| constructor]. apply plain_digit_char.
  assert (Hm := Z.mod_pos_bound z r ltac:(lia)). lia.
Qed.

Lemma parseInt_fixed radix r k z :
  effective radix r -> 1 < r <= 16 -> 0 <= z ->
  parseInt (str (fixed r (S k) z)) radix = Int (z mod r ^ Z.of_nat (S k)).
Proof.
  intros Hrad Hr Hz.
  assert (HF := Forall_plain_fixed r (S k) z Hr).
  rewrite fixed_head in HF by lia. inversion HF as [| ? ? Hc Hl]; subst.
  rewrite (parseInt_plain _ radix r _ _ (eq_trans (chars_str _) (fixed_head r k z ltac:(lia)))
             Hrad Hc Hl).
  rewrite <- fixed_head by lia.
  rewrite <- (app_nil_r (fixed r (S k) z)).
  rewrite parse_digits_fixed by lia. reflexivity.
Qed.

Lemma parseInt_int_toString radix r z :
  effective radix r -> 1 < r <= 16 -> 0 <= z ->
  parseInt (int_toString z r) radix = Int z.
Proof.
  intros Hrad Hr Hz. unfold int_toString.
  destruct (Z.ltb_spec z 0); [lia |].
  destruct (digits_fixed r z) as (k & -> & Hlt & _); try lia.
  rewrite parseInt_fixed by assumption.
  now rewrite Z.mod_small by lia.
Qed.

(* ---------------------------------------------------------------------- *)
(** ** Splitting a rendered bit range *)

Lemma plain_no_tilde l : Forall plain_digit l -> no_tilde l.
Proof.
  apply Forall_impl. intros c Hc. red in Hc. lia.
Qed.

Lemma starts_with_tilde c l :
  starts_with ["~"%char] (c :: l) = Ascii.eqb "~" c.
Proof. simpl. now rewrite andb_true_r. Qed.

Lemma eqb_tilde_code c : code c <> 126 -> Ascii.eqb "~" c = false.
Proof.
  intros H. apply Ascii.eqb_neq. intros <-. now apply H.
Qed.

Lemma includes_no_tilde l : no_tilde l -> includes_chars ["~"%char] l = false.
Proof.
  induction 1 as [| c l Hc Hl IH]; [reflexivity |].
  cbn [includes_chars]. rewrite starts_with_tilde, eqb_tilde_code by assumption.
  exact IH.
Qed.

Lemma includes_tilde a b : includes_chars ["~"%char] (a ++ "~"%char :: b) = true.
Proof.
  induction a as [| c a IH]; [reflexivity |].
  change ((c :: a) ++ "~"%char :: b)%list with (c :: (a ++ "~"%char :: b))%list.
  cbn [includes_chars]. rewrite IH. apply orb_true_r.
Qed.

Lemma split_no_tilde l : no_tilde l -> forall cur,
  split_chars ["~"%char] O cur l = [str (rev cur ++ l)].
Proof.
  induction 1 as [| c l Hc Hl IH]; intros cur.
  - simpl. now rewrite app_nil_r.
  - cbn [split_chars]. rewrite starts_with_tilde, eqb_tilde_code by assumption.
    rewrite IH. simpl. now rewrite <- app_assoc.
Qed.

Lemma split_tilde a b : no_tilde a -> no_tilde b -> forall cur,
  split_chars ["~"%char] O cur (a ++ "~"%char :: b)
  = [str (rev cur ++ a); str b].
Proof.
  intros Ha Hb. induction Ha as [| c a Hc Ha IH]; intros cur.
  - simpl. rewrite app_nil_r. f_equal. now apply (split_no_tilde b Hb []).
  - change ((c :: a) ++ "~"%char :: b)%list with (c :: (a ++ "~"%char :: b))%list.
    cbn [split_chars]. rewrite starts_with_tilde, eqb_tilde_code by assumption.
    rewrite IH. simpl. now rewrite <- app_assoc.
Qed.

Lemma chars_bit_slice a : 0 <= a ->
  Forall plain_digit (chars (bit_slice a)).
Proof.
  intros Ha. unfold bit_slice, int_toString.
  destruct (Z.ltb_spec a 0); [lia |]. rewrite chars_str.
  destruct (digits_fixed 10 a) as (k & -> & _); try lia.
  apply Forall_plain_fixed. lia.
Qed.

Lemma chars_range_slice a b :
  chars (range_slice a b)
  = (chars (bit_slice a) ++ "~"%char :: chars (bit_slice b))%list.
Proof. unfold range_slice. now rewrite !chars_append. Qed.

(* ---------------------------------------------------------------------- *)
(** ** Windows of a fixed-width digit string *)

Lemma sub_fixed r x y a z :
  0 < r ->
  sub (fixed r (x + y + a) z) (Z.of_nat x) (Z.of_nat (x + y))
  = fixed r y (z / r ^ Z.of_nat a).
Proof.
  intros Hr. unfold sub, clamp. rewrite length_fixed.
  destruct (Z.ltb_spec (Z.of_nat x) 0); [lia |].
  destruct (Z.ltb_spec (Z.of_nat (x + y)) 0); [lia |].
  rewrite !Z.min_l by lia.
  replace (Z.to_nat (Z.of_nat (x + y) - Z.of_nat x)) with y by lia.
  rewrite Nat2Z.id.
  rewrite (fixed_app r (x + y) a) by lia.
  rewrite (fixed_app r x y) by lia.
  rewrite <- app_assoc.
  rewrite skipn_app, length_fixed, Nat.sub_diag.
  rewrite skipn_all2 by (rewrite length_fixed; lia).
  simpl skipn. simpl app.
  rewrite firstn_app, length_fixed, Nat.sub_diag.
  rewrite firstn_all2 by (rewrite length_fixed; lia).
  simpl. now rewrite app_nil_r.
Qed.

Lemma nth_fixed r x a z :
  0 < r ->
  nth_error (fixed r (x + 1 + a) z) x
  = Some (digit_char ((z / r ^ Z.of_nat a) mod r)).
Proof.
  intros Hr.
  rewrite (fixed_app r (x + 1) a) by lia.
  rewrite (fixed_app r x 1) by lia.
  rewrite <- app_assoc.
  rewrite nth_error_app2 by (rewrite length_fixed; lia).
  rewrite length_fixed, Nat.sub_diag. reflexivity.
Qed.

(** The binary string built by [GetIntSliceFromBinary] for an in-range
    input: exactly the [n] low bits, most significant first. *)
Lemma padded_binary v n :
  0 < n -> 0 <= v < 2 ^ n ->
  let bs := int_toString v 2 in
  (n <? length bs) = false
  /\ (if length bs <? n then padStart bs n "0" else bs)
     = str (fixed 2 (Z.to_nat n) v).
Proof.
  intros Hn Hv bs. subst bs. unfold int_toString.
  destruct (Z.ltb_spec v 0); [lia |].
  destruct (digits_fixed 2 v) as (k & -> & Hlt & Hge); try lia.
  rewrite length_str, length_fixed.
  assert (Hk : Z.of_nat (S k) <= n).
  { destruct Hge as [-> | Hge]; [simpl; lia |].
    destruct (Z.le_gt_cases n (Z.of_nat k)) as [Hle | Hgt]; [| lia].
    assert (2 ^ n <= 2 ^ Z.of_nat k) by (apply Z.pow_le_mono_r; lia). lia. }
  split; [apply Z.ltb_ge; lia |].
  destruct (Z.ltb_spec (Z.of_nat (S k)) n) as [Hlt' | Hge'].
  - unfold padStart. rewrite length_str, length_fixed.
    destruct (Z.leb_spec n (Z.of_nat (S k))); [lia |].
    rewrite chars_str. f_equal. unfold repeat.
    replace (Z.to_nat n) with (Z.to_nat (n - Z.of_nat (S k)) + S k)%nat by lia.
    now rewrite fixed_pad by lia.
  - f_equal. f_equal. lia.
Qed.

(* ---------------------------------------------------------------------- *)
(** ** Bit slices *)

Lemma parseInt_bit_slice a : 0 <= a -> parseInt (bit_slice a) None = Int a.
Proof.
  intros Ha. unfold bit_slice.
  apply (parseInt_int_toString None 10); [reflexivity | lia | lia].
Qed.

Lemma GetIntSliceFromBinary_range v n a b :
  0 <= v < 2 ^ n -> 0 <= a < b /\ b < n ->
  Utilities.GetIntSliceFromBinary v n (range_slice a b) false
  = Ok (Some (Int ((v / 2 ^ a) mod 2 ^ (b - a + 1)))).
Proof.
  intros Hv Hab. unfold Utilities.GetIntSliceFromBinary. cbv zeta.
  destruct (padded_binary v n ltac:(lia) Hv) as [H1 H2]. cbv zeta in H1, H2.
  rewrite H1, H2. clear H1 H2.
  assert (Pa := chars_bit_slice a ltac:(lia)).
  assert (Pb := chars_bit_slice b ltac:(lia)).
  unfold includes, split. change (chars "~") with ["~"%char].
  rewrite chars_range_slice, includes_tilde.
  rewrite split_tilde by now apply plain_no_tilde.
  cbn [elem nth_error rev app]. rewrite !str_chars.
  rewrite !parseInt_bit_slice by lia.
  replace (lt (Int a) (Int b) && ge (Int a) (Int 0) && lt (Int b) (Int n))
    with true by (symmetry; unfold lt, ge; zcases).
  unfold slice. rewrite chars_str.
  set (x := Z.to_nat (n - b - 1)). set (y := Z.to_nat (b - a)).
  replace (Z.to_nat n) with (x + S y + Z.to_nat a)%nat by lia.
  replace (n - b - 1) with (Z.of_nat x) by lia.
  replace (n - a) with (Z.of_nat (x + S y)) by lia.
  rewrite sub_fixed by lia.
  unfold Utilities.ParseBinaryToUnsigned.
  rewrite (parseInt_fixed (Some 2) 2) by (try split; try lia; apply Z.div_pos; lia).
  rewrite Z2Nat.id by lia.
  replace (Z.of_nat (S y)) with (b - a + 1) by lia. reflexivity.
Qed.

Lemma GetIntSliceFromBinary_bit v n a :
  0 <= v < 2 ^ n -> 0 <= a < n ->
  Utilities.GetIntSliceFromBinary v n (bit_slice a) false
  = Ok (Some (Int ((v / 2 ^ a) mod 2))).
Proof.
  intros Hv Ha. unfold Utilities.GetIntSliceFromBinary. cbv zeta.
  destruct (padded_binary v n ltac:(lia) Hv) as [H1 H2]. cbv zeta in H1, H2.
  rewrite H1, H2. clear H1 H2.
  assert (Pa := chars_bit_slice a ltac:(lia)).
  unfold includes. change (chars "~") with ["~"%char].
  rewrite includes_no_tilde by now apply plain_no_tilde.
  rewrite parseInt_bit_slice by lia.
  destruct (Z.ltb_spec a n); [| lia].
  unfold at_index. destruct (Z.ltb_spec (n - a - 1) 0); [lia |].
  rewrite chars_str.
  set (x := Z.to_nat (n - a - 1)).
  replace (Z.to_nat n) with (x + 1 + Z.to_nat a)%nat by lia.
  rewrite nth_fixed by lia.
  unfold Utilities.ParseBinaryToUnsigned.
  rewrite Z2Nat.id by lia.
  assert (Hm := Z.mod_pos_bound (v / 2 ^ a) 2 ltac:(lia)).
  replace [digit_char ((v / 2 ^ a) mod 2)]
    with (fixed 2 1 ((v / 2 ^ a) mod 2)).
  2:{ simpl. now rewrite Z.mod_mod by lia. }
  rewrite (parseInt_fixed (Some 2) 2) by (try split; lia).
  change (2 ^ Z.of_nat 1) with 2. now rewrite Z.mod_mod by lia.
Qed.

(** C3. For every integer [v] in [0, 2^n): a range ["a~b"] with
    [0 <= a < b < n] decodes to bits [b] down to [a] of [v], that is
    [(v / 2^a) mod 2^(b-a+1)], and a single-bit slice ["a"] with
    [0 <= a < n] decodes to [(v / 2^a) mod 2]. *)
Theorem GetIntSliceFromBinary_round_trip v n :
  0 <= v < 2 ^ n ->
  (forall a b, 0 <= a < b /\ b < n ->
     Utilities.GetIntSliceFromBinary v n (range_slice a b) false
     = Ok (Some (Int ((v / 2 ^ a) mod 2 ^ (b - a + 1)))))
  /\ (forall a, 0 <= a < n ->
        Utilities.GetIntSliceFromBinary v n (bit_slice a) false
        = Ok (Some (Int ((v / 2 ^ a) mod 2)))).
Proof.
  intros Hv. split.
  - intros a b Hab. now apply GetIntSliceFromBinary_range.
  - intros a Ha. now apply GetIntSliceFromBinary_bit.
Qed.

Lemma GetIntSliceFromBinary_round_trip_witness :
  0 <= 180 < 2 ^ 8
  /\ Utilities.GetIntSliceFromBinary 180 8 (range_slice 2 5) false
     = Ok (Some (Int ((180 / 2 ^ 2) mod 2 ^ (5 - 2 + 1))))
  /\ Utilities.GetIntSliceFromBinary 180 8 (bit_slice 7) false
     = Ok (Some (Int ((180 / 2 ^ 7) mod 2))).
Proof.
  assert (H : 0 <= 180 < 2 ^ 8) by (simpl; lia).
  split; [exact H |].
  destruct (GetIntSliceFromBinary_round_trip 180 8 H) as [Hr Hb].
  split; [apply (Hr 2 5); lia | apply (Hb 7); lia].
Defined.

(** A range whose two ends coincide is rejected by the guard
    [start < end]; a single bit is written without the tilde. *)
Example slice_degenerate_range :
  Utilities.GetIntSliceFromBinary 180 8 (range_slice 7 7) false = Ok None.
Proof. reflexivity. Qed.

(* ---------------------------------------------------------------------- *)
(** ** TPMS *)

Example tpms_two_tires :
  Pattern.GetValueTPMS "13E29AA0A0AC9E84" tpms_info
  = Ok (Some [Pattern.mkValue "tire_temp_1" "int" (Pattern.VNumber 38);
              Pattern.mkValue "tire_pressure_1" "float" (Pattern.VNumber 58);
              Pattern.mkValue "tire_temp_2" "int" (Pattern.VNumber 50);
              Pattern.mkValue "tire_pressure_2" "float" (Pattern.VNumber 47.85)]).
Proof. vm_compute. reflexivity. Qed.

Example tpms_floor :
  Pattern.GetValueTPMS "13E28084" tpms_info
  = Ok (Some [Pattern.mkValue "tire_temp_1" "int" (Pattern.VNumber 0);
              Pattern.mkValue "tire_pressure_1" "float" (Pattern.VNumber 47.85)]).
Proof. vm_compute. reflexivity. Qed.

Lemma GetValueTPMS_bad_length rawValue patternInfo :
  length rawValue mod 8 <> 0 ->
  Pattern.GetValueTPMS rawValue patternInfo = Ok None.
Proof.
  intros H. unfold Pattern.GetValueTPMS. cbv zeta.
  destruct (Z.eqb_spec (length rawValue mod 8) 0); [contradiction | reflexivity].
Qed.

(** C4. The raw value "D0DC9911" with the test coefficients decodes to
    tire_temp_1 = 35 (int) then tire_pressure_1 = 6.1625 (float); a raw
    value whose length is not a multiple of 8 decodes to nothing. *)
Theorem GetValueTPMS_contract :
  Pattern.GetValueTPMS "D0DC9911" tpms_info
  = Ok (Some [Pattern.mkValue "tire_temp_1" "int" (Pattern.VNumber 35);
              Pattern.mkValue "tire_pressure_1" "float"
                (Pattern.VNumber 6.1625)])
  /\ forall rawValue patternInfo,
       length rawValue mod 8 <> 0 ->
       Pattern.GetValueTPMS rawValue patternInfo = Ok None.
Proof.
  split; [vm_compute; reflexivity |].
  intros rawValue patternInfo H. now apply GetValueTPMS_bad_length.
Qed.

Lemma GetValueTPMS_contract_witness :
  length "1234ABCD123" mod 8 <> 0
  /\ Pattern.GetValueTPMS "1234ABCD123" tpms_info = Ok None.
Proof.
  assert (H : length "1234ABCD123" mod 8 <> 0) by (vm_compute; discriminate).
  split; [exact H |].
  exact (proj2 GetValueTPMS_contract "1234ABCD123"%string tpms_info H).
Defined.

(** The three coefficients whose check is written as [x == undefined] are
    enforced. *)
Lemma GetValueTPMS_checked_coefficients rawValue patternInfo :
  Pattern.pressure_slope patternInfo = None
  \/ Pattern.temp_slope patternInfo = None
  \/ Pattern.temp_const patternInfo = None ->
  Pattern.GetValueTPMS rawValue patternInfo = Ok None.
Proof.
  intros H. unfold Pattern.GetValueTPMS. cbv zeta.
  destruct (negb (length rawValue mod 8 =? 0)); [reflexivity |].
  destruct (Pattern.pressure_slope patternInfo) eqn:Eps; [| reflexivity].
  cbn [Pattern.eq_undefined Pattern.bool_eq_undefined orb].
  destruct (Pattern.temp_slope patternInfo) eqn:Ets; [| reflexivity].
  destruct (Pattern.temp_const patternInfo) eqn:Etc; [| reflexivity].
  destruct H as [H | [H | H]]; discriminate.
Qed.

(** C8. With pressure_const left out of the field definition the decoder
    does not return none on "D0DC9911" (length 8): the negated test on
    that coefficient never fires, and a NaN pressure is emitted. *)
Theorem GetValueTPMS_missing_pressure_const :
  length "D0DC9911" mod 8 = 0
  /\ Pattern.pressure_const tpms_info_no_pressure_const = None
  /\ Pattern.GetValueTPMS "D0DC9911" tpms_info_no_pressure_const
     = Ok (Some [Pattern.mkValue "tire_temp_1" "int" (Pattern.VNumber 35);
                 Pattern.mkValue "tire_pressure_1" "float"
                   (Pattern.VNumber PrimFloat.nan)]).
Proof. repeat split; vm_compute; reflexivity. Qed.

(* ---------------------------------------------------------------------- *)
(** ** G-force *)

Example gforce_three_groups :
  Pattern.GetValueGForce "0001FFFF8000" gforce_info
  = Ok (Some [Pattern.mkValue "g_x" "int" (Pattern.VNumber 1);
              Pattern.mkValue "g_y" "int" (Pattern.VNumber 65535);
              Pattern.mkValue "g_z" "int" (Pattern.VNumber 32768)]).
Proof. vm_compute. reflexivity. Qed.

(** A group that is not hexadecimal makes the conversion throw. *)
Lemma ParseHexStringToSignedInt_NaN hexString :
  parseInt hexString (Some 16) = NaN ->
  Utilities.ParseHexStringToSignedInt hexString 32
  = Throw (Error "Invalid binary string").
Proof.
  intros H. unfold Utilities.ParseHexStringToSignedInt,
    Utilities.ParseHexStringToBinary. rewrite H. reflexivity.
Qed.

Lemma GetValueGForce_throws rawValue patternInfo :
  12 <= length rawValue ->
  parseInt (slice (slice rawValue 0 12) 0 4) (Some 16) = NaN ->
  Pattern.GetValueGForce rawValue patternInfo
  = Throw (Error "Invalid binary string").
Proof.
  intros Hlen H. unfold Pattern.GetValueGForce. cbv zeta.
  destruct (Z.ltb_spec (length rawValue) 12); [lia |].
  now rewrite (ParseHexStringToSignedInt_NaN _ H).
Qed.

(** C5. On the 12-character input "ZZZZ00010002", whose first group is
    not hexadecimal, the decoder raises instead of omitting that group and
    emitting the other two. *)
Theorem GetValueGForce_unparsable_group :
  12 <= length "ZZZZ00010002"
  /\ parseInt (slice "ZZZZ00010002" 0 4) (Some 16) = NaN
  /\ parseInt (slice "ZZZZ00010002" 4 8) (Some 16) = Int 1
  /\ parseInt (slice "ZZZZ00010002" 8 12) (Some 16) = Int 2
  /\ Pattern.GetValueGForce "ZZZZ00010002" gforce_info
     = Throw (Error "Invalid binary string").
Proof. repeat split; vm_compute; try reflexivity; discriminate. Qed.

(* ---------------------------------------------------------------------- *)
(** ** Buffers *)

Lemma val_bound b : 0 <= Buffer.val b < 256.
Proof.
  unfold Buffer.val. assert (H := Byte.to_N_bounded b). lia.
Qed.

Lemma of_val_val b : Buffer.of_val (Buffer.val b) = b.
Proof.
  unfold Buffer.of_val. rewrite Z.mod_small by apply val_bound.
  unfold Buffer.val. now rewrite N2Z.id, Byte.of_to_N.
Qed.

Lemma sub_nat {A : Type} (l : list A) i j :
  (i <= j)%nat ->
  sub l (Z.of_nat i) (Z.of_nat j) = firstn (j - i) (skipn i l).
Proof.
  intros Hij. unfold sub, clamp.
  destruct (Z.ltb_spec (Z.of_nat i) 0); [lia |].
  destruct (Z.ltb_spec (Z.of_nat j) 0); [lia |].
  destruct (Nat.le_gt_cases (List.length l) i) as [Hle | Hgt].
  - rewrite (skipn_all2 l Hle). rewrite skipn_all2 by lia.
    now rewrite !firstn_nil.
  - replace (Z.to_nat (Z.min (Z.of_nat i) (Z.of_nat (List.length l)))) with i by lia.
    destruct (Nat.le_gt_cases j (List.length l)).
    + f_equal. lia.
    + rewrite !firstn_all2; try reflexivity; rewrite length_skipn; lia.
Qed.

Lemma sub_from {A : Type} (l : list A) i :
  sub l (Z.of_nat i) (Z.of_nat (List.length l)) = skipn i l.
Proof.
  destruct (Nat.le_gt_cases i (List.length l)) as [Hle | Hgt].
  - rewrite sub_nat by assumption. apply firstn_all2. rewrite length_skipn. lia.
  - unfold sub, clamp.
    destruct (Z.ltb_spec (Z.of_nat i) 0); [lia |].
    destruct (Z.ltb_spec (Z.of_nat (List.length l)) 0); [lia |].
    rewrite !skipn_all2 by lia. now rewrite firstn_nil.
Qed.

Lemma be_value_snoc bs b :
  Buffer.be_value (bs ++ [b]) = Buffer.be_value bs * 256 + Buffer.val b.
Proof. unfold Buffer.be_value. now rewrite fold_left_app. Qed.

Lemma be_value_bound bs :
  0 <= Buffer.be_value bs < 256 ^ Z.of_nat (List.length bs).
Proof.
  induction bs as [| b bs IH] using rev_ind; [cbv; split; congruence |].
  rewrite be_value_snoc, length_app, Nat2Z.inj_add, Z.pow_add_r by lia.
  change (256 ^ Z.of_nat (List.length [b])) with 256.
  assert (Hb := val_bound b). nia.
Qed.

Lemma hex_fixed bs :
  flat_map Buffer.hex_chars bs
  = fixed 16 (2 * List.length bs) (Buffer.be_value bs).
Proof.
  induction bs as [| b bs IH] using rev_ind; [reflexivity |].
  rewrite flat_map_app, be_value_snoc, length_app, IH.
  replace (2 * (List.length bs + List.length [b]))%nat
    with (S (S (2 * List.length bs))) by (simpl; lia).
  cbn [fixed flat_map Buffer.hex_chars]. rewrite <- !app_assoc, app_nil_r.
  assert (Hb := val_bound b).
  set (B := Buffer.be_value bs). set (v := Buffer.val b) in *.
  replace ((B * 256 + v) / 16 / 16) with B
    by (Z.div_mod_to_equations; lia).
  replace (((B * 256 + v) / 16) mod 16) with (v / 16)
    by (Z.div_mod_to_equations; lia).
  replace ((B * 256 + v) mod 16) with (v mod 16)
    by (Z.div_mod_to_equations; lia).
  reflexivity.
Qed.

Lemma pow_256 n : 256 ^ Z.of_nat n = 16 ^ Z.of_nat (2 * n).
Proof.
  rewrite Nat2Z.inj_mul, Z.pow_mul_r by lia. reflexivity.
Qed.

(** [parseInt(buf.toString('hex'), 16)] reads a non-empty buffer as a
    big-endian integer. *)
Lemma parseInt_hex bs :
  bs <> [] ->
  parseInt (Buffer.toString_hex bs) (Some 16) = Int (Buffer.be_value bs).
Proof.
  intros Hne. unfold Buffer.toString_hex. rewrite hex_fixed.
  destruct bs as [| b bs]; [contradiction |].
  assert (Hb := be_value_bound (b :: bs)). rewrite pow_256 in Hb.
  set (z := Buffer.be_value (b :: bs)) in *.
  replace (2 * List.length (b :: bs))%nat
    with (S (S (2 * List.length bs))) in * by (simpl; lia).
  rewrite (parseInt_fixed (Some 16) 16) by (try split; lia).
  now rewrite Z.mod_small by lia.
Qed.

Lemma from_hex_app bs rest :
  Buffer.from_hex_chars (flat_map Buffer.hex_chars bs ++ rest)
  = (bs ++ Buffer.from_hex_chars rest)%list.
Proof.
  induction bs as [| b bs IH]; [reflexivity |].
  cbn [flat_map Buffer.hex_chars app Buffer.from_hex_chars].
  assert (Hb := val_bound b).
  rewrite !digit_in_digit_char by (Z.div_mod_to_equations; lia).
  rewrite IH. f_equal.
  replace (Buffer.val b / 16 * 16 + Buffer.val b mod 16) with (Buffer.val b)
    by (Z.div_mod_to_equations; lia).
  apply of_val_val.
Qed.

Lemma from_hex_toString_hex bs : Buffer.from_hex (Buffer.toString_hex bs) = bs.
Proof.
  unfold Buffer.from_hex, Buffer.toString_hex. rewrite chars_str.
  rewrite <- (app_nil_r (flat_map _ _)), from_hex_app. apply app_nil_r.
Qed.

(** [z.toString(r).padStart(n, '0')] is the [n]-digit rendering when [z]
    fits in [n] digits. *)
Lemma padStart_int_toString r z n :
  1 < r -> 0 < n -> 0 <= z < r ^ n ->
  padStart (int_toString z r) n "0" = str (fixed r (Z.to_nat n) z).
Proof.
  intros Hr Hn Hz. unfold int_toString.
  destruct (Z.ltb_spec z 0); [lia |].
  destruct (digits_fixed r z) as (k & -> & Hlt & Hge); try lia.
  assert (Hk : Z.of_nat (S k) <= n).
  { destruct Hge as [-> | Hge]; [simpl; lia |].
    destruct (Z.le_gt_cases n (Z.of_nat k)) as [Hle | Hgt]; [| lia].
    assert (r ^ n <= r ^ Z.of_nat k) by (apply Z.pow_le_mono_r; lia). lia. }
  unfold padStart. rewrite length_str, length_fixed.
  destruct (Z.leb_spec n (Z.of_nat (S k))).
  - f_equal. f_equal. lia.
  - rewrite chars_str. f_equal. unfold repeat.
    replace (Z.to_nat n) with (Z.to_nat (n - Z.of_nat (S k)) + S k)%nat by lia.
    now rewrite fixed_pad by lia.
Qed.

(** One byte of a buffer read as a hexadecimal field. *)
Lemma hex_field_byte buf i :
  Picture.hex_field buf (Z.of_nat i) (Z.of_nat (S i))
  = match nth_error buf i with
    | Some b => Int (Buffer.val b)
    | None => NaN
    end.
Proof.
  unfold Picture.hex_field, Buffer.subarray. rewrite sub_nat by lia.
  replace (S i - i)%nat with 1%nat by lia.
  destruct (nth_error buf i) as [b |] eqn:E.
  - apply nth_error_split in E as (l1 & l2 & -> & <-).
    rewrite skipn_app, Nat.sub_diag, skipn_all. simpl.
    rewrite (parseInt_hex [b]) by discriminate.
    unfold Buffer.be_value. simpl. reflexivity.
  - apply nth_error_None in E. rewrite skipn_all2 by assumption. reflexivity.
Qed.

(* ---------------------------------------------------------------------- *)
(** ** Picture reassembly *)

Lemma ExtractPictureFrame_fields pkt :
  Picture.ExtractPictureFrame pkt
  = (Picture.hex_field pkt 0 4, num_of (packet_index pkt),
     num_of (packet_total pkt), Picture.hex_field pkt 6 8, packet_chunk pkt).
Proof.
  unfold Picture.ExtractPictureFrame, packet_index, packet_total, packet_chunk.
  assert (H4 := hex_field_byte pkt 4). assert (H5 := hex_field_byte pkt 5).
  assert (H8 := sub_from pkt 8).
  change (Z.of_nat 4) with 4 in H4. change (Z.of_nat 5) with 5 in H4, H5.
  change (Z.of_nat 6) with 6 in H5. change (Z.of_nat 8) with 8 in H8.
  unfold Buffer.subarray_from. rewrite H4, H5, H8.
  destruct (nth_error pkt 4), (nth_error pkt 5); reflexivity.
Qed.

Lemma new_fields env first dev :
  Picture.currentPackageID (Picture.new env first dev) = num_of (packet_index first)
  /\ Picture.totalPackageCount (Picture.new env first dev)
     = num_of (packet_total first)
  /\ Picture.pictureContent (Picture.new env first dev) = packet_chunk first.
Proof.
  unfold Picture.new. rewrite ExtractPictureFrame_fields. repeat split.
Qed.

Lemma AddPicturePackage_fields p pkt :
  let p' := fst (fst (Picture.AddPicturePackage p pkt)) in
  Picture.currentPackageID p' = num_of (packet_index pkt)
  /\ Picture.totalPackageCount p' = Picture.totalPackageCount p
  /\ Picture.pictureContent p'
     = (Picture.pictureContent p ++ packet_chunk pkt)%list.
Proof.
  unfold Picture.AddPicturePackage. rewrite ExtractPictureFrame_fields.
  cbn. repeat split.
Qed.

Lemma apply_packets_snoc p pkts pkt :
  apply_packets p (pkts ++ [pkt])
  = fst (fst (Picture.AddPicturePackage (apply_packets p pkts) pkt)).
Proof. unfold apply_packets. now rewrite fold_left_app. Qed.

Lemma apply_packets_fields env first dev rest :
  let p := apply_packets (Picture.new env first dev) rest in
  Picture.currentPackageID p = num_of (packet_index (last rest first))
  /\ Picture.totalPackageCount p = num_of (packet_total first)
  /\ Picture.pictureContent p
     = (packet_chunk first ++ List.concat (map packet_chunk rest))%list.
Proof.
  induction rest as [| pkt rest IH] using rev_ind.
  - cbn. rewrite app_nil_r. apply (new_fields env first dev).
  - cbv zeta in *. rewrite apply_packets_snoc.
    destruct IH as (_ & Ht & Hc).
    destruct (AddPicturePackage_fields
                (apply_packets (Picture.new env first dev) rest) pkt)
      as (Hi' & Ht' & Hc').
    cbv zeta in Hi', Ht', Hc'. rewrite Hi', Ht', Hc', Ht, Hc.
    rewrite last_last, map_app, concat_app. cbn [map List.concat].
    rewrite app_nil_r, app_assoc. repeat split.
Qed.

Lemma strict_eq_true a b :
  Picture.strict_eq a b = true <-> exists k, a = Int k /\ b = Int k.
Proof.
  destruct a as [| x], b as [| y]; simpl; split;
    try discriminate; try (intros (k & H1 & H2); discriminate).
  - intros H. apply Z.eqb_eq in H as ->. now exists y.
  - intros (k & H1 & H2). injection H1 as ->. injection H2 as ->.
    apply Z.eqb_refl.
Qed.

Lemma num_of_Int o k : num_of o = Int k <-> o = Some k.
Proof.
  destruct o; simpl; split; intros H; try discriminate;
    injection H as ->; reflexivity.
Qed.

(** C6. After any packets have been applied to a transfer, the content is
    the concatenation of all payload chunks in application order and the
    transfer is done exactly when the index of the last packet applied
    equals the total declared by the first packet; with a declared total
    of 3 it is done exactly when the last packet applied has index 3. *)
Theorem picture_reassembly env first dev rest :
  let p := apply_packets (Picture.new env first dev) rest in
  Picture.pictureContent p
  = (packet_chunk first ++ List.concat (map packet_chunk rest))%list
  /\ (Picture.isDone p = true
      <-> exists k, packet_index (last rest first) = Some k
                    /\ packet_total first = Some k)
  /\ (packet_total first = Some 3 ->
      (Picture.isDone p = true <-> packet_index (last rest first) = Some 3)).
Proof.
  destruct (apply_packets_fields env first dev rest) as (Hi & Ht & Hc).
  cbv zeta in *. split; [exact Hc |].
  assert (Hdone : Picture.isDone
                    (apply_packets (Picture.new env first dev) rest) = true
                  <-> exists k, packet_index (last rest first) = Some k
                                /\ packet_total first = Some k).
  { unfold Picture.isDone. rewrite Hi, Ht, strict_eq_true.
    split; intros (k & H1 & H2); exists k;
      (split; [now apply num_of_Int in H1 || apply num_of_Int
              | now apply num_of_Int in H2 || apply num_of_Int]). }
  split; [exact Hdone |].
  intros H3. rewrite Hdone, H3. split.
  - intros (k & H1 & H2). injection H2 as <-. exact H1.
  - intros H. now exists 3.
Qed.

Lemma picture_reassembly_witness :
  packet_total packet1 = Some 3
  /\ (Picture.isDone
        (apply_packets (Picture.new no_env packet1 None) [packet2; packet3])
      = true
      <-> packet_index (last [packet2; packet3] packet1) = Some 3).
Proof.
  assert (H : packet_total packet1 = Some 3) by reflexivity.
  split; [exact H |].
  exact (proj2 (proj2 (picture_reassembly no_env packet1 None
                         [packet2; packet3])) H).
Defined.

Example picture_three_packets :
  Picture.isDone (apply_packets (Picture.new no_env packet1 None) []) = false
  /\ Picture.isDone (apply_packets (Picture.new no_env packet1 None) [packet2])
     = false
  /\ Picture.isDone
       (apply_packets (Picture.new no_env packet1 None) [packet2; packet3])
     = true
  /\ Picture.pictureContent
       (apply_packets (Picture.new no_env packet1 None) [packet2; packet3])
     = [Byte.xff; Byte.xd8; Byte.x11; Byte.x22; Byte.xff; Byte.xd9].
Proof. repeat split. Qed.

(* ---------------------------------------------------------------------- *)
(** ** The connection: what each handler can change *)

Lemma with_format_refl st : st = with_format st st.
Proof. now destruct st. Qed.

Lemma with_format_trans st1 st2 st3 :
  st2 = with_format st2 st1 -> st3 = with_format st3 st2 ->
  st3 = with_format st3 st1.
Proof.
  intros H2 H3. rewrite H3 at 1. rewrite H2 at 1.
  destruct st1, st2, st3. reflexivity.
Qed.

Lemma SaveReportFormat_shape st input st' :
  SaveReportFormat st input = Ok st' -> st' = with_format st' st.
Proof.
  unfold SaveReportFormat. intros H.
  destruct (elem input 1); [| discriminate].
  repeat match type of H with
    | (if ?c then _ else _) = _ => destruct c
    | match ?x with _ => _ end = _ => destruct x eqn:?
    end; try discriminate; injection H as <-; now destruct st.
Qed.

Lemma UpdateReportFormatStatus_shape st :
  snd (UpdateReportFormatStatus st)
  = with_format (snd (UpdateReportFormatStatus st)) st.
Proof.
  unfold UpdateReportFormatStatus.
  repeat match goal with
    | |- context [if ?c then _ else _] => destruct c
    end; now destruct st.
Qed.

Lemma SendACK_shape st : SendACK st = set_socket (socket (SendACK st)) st.
Proof.
  unfold SendACK.
  destruct (deviceID st), (seqNum st); try now destruct st.
  destruct (DeviceID_truthy d && truthy n); now destruct st.
Qed.

Lemma HandleKeepAliveMsg_shape st buffer st' :
  HandleKeepAliveMsg st buffer = Ok st' ->
  st' = set_seqNum (seqNum st') (set_deviceID (deviceID st') st).
Proof.
  unfold HandleKeepAliveMsg. intros H.
  destruct (Buffer.readBigUint64BE _); [| discriminate].
  injection H as <-. now destruct st.
Qed.

Section ConnectionFacts.

Variable env : Picture.Env.
Variable ExtractValue :
  list string -> list string -> result (option (list Pattern.DecodedValue)).

Lemma WriteReport_shape lines : forall st st',
  WriteReport ExtractValue st lines = Ok st' ->
  st' = set_timeSeriesDB (timeSeriesDB st') st.
Proof.
  induction lines as [| line rest IH]; intros st st' H; simpl in H.
  - injection H as <-. now destruct st.
  - destruct (negb (CheckReportMsg line)); [now apply IH |].
    destruct (ExtractValue _ _) as [data |]; [| discriminate]. simpl in H.
    destruct (deviceID st); [| discriminate].
    destruct (WriteData _ _ _ _) as [written |]; [| discriminate]. simpl in H.
    apply IH in H. rewrite H. now destruct st.
Qed.

Lemma HandleReportMsg_shape st buffer st' :
  HandleReportMsg ExtractValue st buffer = Ok st' ->
  st' = set_timeSeriesDB (timeSeriesDB st')
          (set_seqNum (seqNum st')
             (set_deviceID (deviceID st')
                (set_reportType (reportType st') st))).
Proof.
  unfold HandleReportMsg. intros H.
  assert (Hc : CheckReportType st buffer
               = set_reportType (reportType (CheckReportType st buffer)) st).
  { unfold CheckReportType. destruct (reportType st) eqn:E.
    - destruct st; simpl in *. now subst.
    - destruct (Buffer.equals _ _); now destruct st. }
  destruct (eq_opt (reportType (CheckReportType st buffer)) "ascii").
  - unfold HandleReportMsgAscii in H.
    destruct (GetHeaderValueAscii buffer 3) as [? i1].
    destruct (GetHeaderValueAscii buffer i1) as [? i2].
    destruct (GetHeaderValueAsciiInt buffer i2) as [sq i3].
    destruct (GetHeaderValueAsciiInt buffer i3) as [id i4].
    match type of H with
    | match reportFinalFormat ?s with _ => _ end = _ =>
        set (st2 := s) in *;
        assert (H2 : st2 = set_seqNum (seqNum st2)
                             (set_deviceID (deviceID st2)
                                (CheckReportType st buffer)))
    end.
    { subst st2. destruct (deviceID (CheckReportType st buffer)) eqn:E;
        destruct (CheckReportType st buffer); simpl in *; now subst. }
    destruct (reportFinalFormat st2).
    + apply WriteReport_shape in H. rewrite H, H2, Hc. now destruct st.
    + injection H as <-. rewrite H2, Hc. now destruct st.
  - destruct (eq_opt (reportType (CheckReportType st buffer)) "binary");
      injection H as <-; rewrite Hc; now destruct st.
Qed.

Lemma HandleOtherLines_shape lines : forall st st',
  HandleOtherLines st lines = Ok st' -> st' = with_format st' st.
Proof.
  induction lines as [| line rest IH]; intros st st' H; simpl in H.
  - injection H as <-. apply with_format_refl.
  - destruct (Utilities.IsStringEmptyOrSpaces line); [now apply IH |].
    destruct (1 <? _)%nat; [| now apply IH].
    destruct (_ || _); [| now apply IH].
    destruct (SaveReportFormat st _) as [st1 |] eqn:E; [| discriminate].
    simpl in H. apply IH in H. apply SaveReportFormat_shape in E.
    eapply with_format_trans; [exact E |].
    eapply with_format_trans; [apply UpdateReportFormatStatus_shape | exact H].
Qed.

Lemma HandleOtherMsg_shape st buffer st' :
  HandleOtherMsg st buffer = Ok st' -> st' = with_format st' st.
Proof.
  unfold HandleOtherMsg. intros H.
  destruct (eq_opt (reportType st) "ascii").
  - now apply HandleOtherLines_shape in H.
  - injection H as <-. apply with_format_refl.
Qed.

Lemma HandlePictureMsg_shape st buffer st' :
  HandlePictureMsg env st buffer = Ok st' ->
  st' = set_storage (storage st')
          (set_picture (picture st') (set_seqNum (seqNum st') st)).
Proof.
  unfold HandlePictureMsg. intros H.
  destruct (Buffer.readBigUint64BE _); [| discriminate]. cbn [bind] in H.
  destruct (picture (set_seqNum _ st)) as [p |].
  - destruct (Picture.AddPicturePackage p _) as [[p' r] writes].
    destruct (Picture.isDone p'); injection H as <-; now destruct st.
  - injection H as <-. now destruct st.
Qed.

(** No handler writes to the socket: only [SendACK] does. *)
Lemma handlers_keep_socket st buffer st' :
  (if is_keepalive buffer then HandleKeepAliveMsg st buffer
   else if is_report buffer then HandleReportMsg ExtractValue st buffer
   else if is_picture buffer then HandlePictureMsg env st buffer
   else HandleOtherMsg st buffer) = Ok st' ->
  socket st' = socket st.
Proof.
  intros H.
  destruct (is_keepalive buffer);
    [apply HandleKeepAliveMsg_shape in H
    | destruct (is_report buffer);
      [apply HandleReportMsg_shape in H
      | destruct (is_picture buffer);
        [apply HandlePictureMsg_shape in H
        | apply HandleOtherMsg_shape in H]]];
    rewrite H; now destruct st.
Qed.

(** A frame that is not a picture frame leaves the transfer and the
    picture sinks alone. *)
Lemma RecievedData_keeps_picture now st buffer st' :
  is_picture buffer = false ->
  RecievedData env ExtractValue now st buffer = Ok st' ->
  picture st' = picture st /\ storage st' = storage st.
Proof.
  unfold RecievedData. intros Hp H. rewrite Hp in H.
  match type of H with
  | bind ?m _ = _ => destruct m as [st1 |] eqn:E; [| discriminate]
  end.
  simpl in H. injection H as <-. rewrite SendACK_shape.
  destruct (is_keepalive buffer);
    [apply HandleKeepAliveMsg_shape in E
    | destruct (is_report buffer);
      [apply HandleReportMsg_shape in E
      | apply HandleOtherMsg_shape in E]];
    rewrite E; now destruct st.
Qed.

End ConnectionFacts.

(* ---------------------------------------------------------------------- *)
(** ** Keep-alive frames and acknowledgments *)

Lemma sub_lit {A : Type} (l : list A) (i j : Z) :
  0 <= i <= j ->
  sub l i j = firstn (Z.to_nat (j - i)) (skipn (Z.to_nat i) l).
Proof.
  intros H. rewrite <- (Z2Nat.id i), <- (Z2Nat.id j) at 1 by lia.
  rewrite sub_nat by lia. f_equal. lia.
Qed.

Lemma str_app a b : (str a ++ str b)%string = str (a ++ b).
Proof.
  rewrite <- (str_chars (str a ++ str b)). now rewrite chars_append, !chars_str.
Qed.

Lemma keepalive_parts id seq :
  List.length id = 8%nat -> List.length seq = 2%nat ->
  is_keepalive (keepalive_frame id seq) = true
  /\ Buffer.subarray (keepalive_frame id seq) 2 10 = id
  /\ Buffer.subarray (keepalive_frame id seq) 10 12 = seq.
Proof.
  intros Hid Hseq. unfold is_keepalive, Buffer.subarray.
  rewrite !sub_lit by lia. unfold keepalive_frame.
  change (firstn (Z.to_nat (2 - 0))
            (skipn (Z.to_nat 0) (Byte.xfe :: Byte.x02 :: id ++ seq)))
    with [Byte.xfe; Byte.x02].
  change (firstn (Z.to_nat (10 - 2))
            (skipn (Z.to_nat 2) (Byte.xfe :: Byte.x02 :: id ++ seq)))
    with (firstn 8 (id ++ seq)).
  change (firstn (Z.to_nat (12 - 10))
            (skipn (Z.to_nat 10) (Byte.xfe :: Byte.x02 :: id ++ seq)))
    with (firstn 2 (skipn 8 (id ++ seq))).
  repeat split.
  - cbn [List.length]. rewrite length_app, Hid, Hseq. reflexivity.
  - rewrite firstn_app, Hid, firstn_all2 by lia. simpl. apply app_nil_r.
  - rewrite skipn_app, Hid, skipn_all2 by lia.
    change (8 - 8)%nat with 0%nat. cbn [skipn app].
    apply firstn_all2. lia.
Qed.

Lemma HandleKeepAliveMsg_keepalive st id seq :
  List.length id = 8%nat -> List.length seq = 2%nat ->
  HandleKeepAliveMsg st (keepalive_frame id seq)
  = Ok (set_seqNum (Some (Int (Buffer.be_value seq)))
          (set_deviceID (Some (BigInt (Buffer.be_value id))) st)).
Proof.
  intros Hid Hseq. unfold HandleKeepAliveMsg.
  destruct (keepalive_parts id seq Hid Hseq) as (_ & -> & ->).
  unfold Buffer.readBigUint64BE. rewrite Hid. cbn [Nat.ltb Nat.leb bind].
  rewrite firstn_all2 by lia.
  rewrite parseInt_hex by (destruct seq; [discriminate | discriminate]).
  reflexivity.
Qed.

(** The acknowledgment built from a non-zero identifier and sequence number
    is the marker followed by their big-endian bytes. *)
Lemma SendACK_bytes st id seq :
  List.length id = 8%nat -> List.length seq = 2%nat ->
  deviceID st = Some (BigInt (Buffer.be_value id)) ->
  seqNum st = Some (Int (Buffer.be_value seq)) ->
  Buffer.be_value id <> 0 -> Buffer.be_value seq <> 0 ->
  SendACK st = set_socket (socket st ++ [keepalive_frame id seq]) st.
Proof.
  intros Hid Hseq Hd Hs Hnz Hsz. unfold SendACK. rewrite Hd, Hs.
  cbn [DeviceID_truthy truthy DeviceID_toString toString].
  destruct (Z.eqb_spec (Buffer.be_value id) 0); [contradiction |].
  destruct (Z.eqb_spec (Buffer.be_value seq) 0); [contradiction |].
  cbn [negb andb].
  assert (Bid := be_value_bound id). assert (Bseq := be_value_bound seq).
  rewrite Hid in Bid. rewrite Hseq in Bseq.
  rewrite (padStart_int_toString 16 _ 16) by (try lia; exact Bid).
  rewrite (padStart_int_toString 16 _ 4) by (try lia; exact Bseq).
  change (Z.to_nat 16) with (2 * 8)%nat. change (Z.to_nat 4) with (2 * 2)%nat.
  replace (fixed 16 (2 * 8) (Buffer.be_value id))
    with (flat_map Buffer.hex_chars id) by (now rewrite hex_fixed, Hid).
  replace (fixed 16 (2 * 2) (Buffer.be_value seq))
    with (flat_map Buffer.hex_chars seq) by (now rewrite hex_fixed, Hseq).
  change "fe02"%string with (str (flat_map Buffer.hex_chars [Byte.xfe; Byte.x02])).
  rewrite !str_app, <- !flat_map_app.
  change (str (flat_map Buffer.hex_chars ([Byte.xfe; Byte.x02] ++ id ++ seq)))
    with (Buffer.toString_hex (keepalive_frame id seq)).
  now rewrite from_hex_toString_hex.
Qed.

Section Acknowledgment.

Variable env : Picture.Env.
Variable ExtractValue :
  list string -> list string -> result (option (list Pattern.DecodedValue)).

Lemma RecievedData_keepalive now st id seq :
  List.length id = 8%nat -> List.length seq = 2%nat ->
  RecievedData env ExtractValue now st (keepalive_frame id seq)
  = Ok (SendACK
          (set_lastAlive now
             (set_seqNum (Some (Int (Buffer.be_value seq)))
                (set_deviceID (Some (BigInt (Buffer.be_value id))) st)))).
Proof.
  intros Hid Hseq. unfold RecievedData.
  destruct (keepalive_parts id seq Hid Hseq) as (-> & _).
  now rewrite HandleKeepAliveMsg_keepalive.
Qed.

(** Every keep-alive frame sets the identifier and the sequence number to
    the big-endian integers at offsets 2..10 and 10..12; when both are
    non-zero the acknowledgment written is the marker followed by the same
    10 bytes. *)
Lemma keepalive_acknowledged now st id seq :
  List.length id = 8%nat -> List.length seq = 2%nat ->
  exists st',
    RecievedData env ExtractValue now st (keepalive_frame id seq) = Ok st'
    /\ deviceID st' = Some (BigInt (Buffer.be_value id))
    /\ seqNum st' = Some (Int (Buffer.be_value seq))
    /\ (Buffer.be_value id <> 0 -> Buffer.be_value seq <> 0 ->
        socket st' = (socket st ++ [keepalive_frame id seq])%list).
Proof.
  intros Hid Hseq. eexists. split; [now apply RecievedData_keepalive |].
  rewrite SendACK_shape. repeat split; try now destruct st.
  intros Hnz Hsz.
  rewrite (SendACK_bytes _ id seq) by (assumption || now destruct st).
  now destruct st.
Qed.

Lemma SendACK_zero st :
  seqNum st = Some (Int 0) \/ deviceID st = Some (BigInt 0)
  \/ deviceID st = Some (Number (Int 0)) ->
  SendACK st = st.
Proof.
  intros H. unfold SendACK.
  destruct H as [H | [H | H]]; rewrite H.
  - destruct (deviceID st); [| reflexivity].
    now rewrite andb_false_r.
  - now destruct (seqNum st).
  - now destruct (seqNum st).
Qed.

Lemma RecievedData_zero_sequence now st buffer st' :
  RecievedData env ExtractValue now st buffer = Ok st' ->
  seqNum st' = Some (Int 0) -> socket st' = socket st.
Proof.
  intros H Hs. unfold RecievedData in H.
  match type of H with
  | bind ?m _ = _ => destruct m as [st1 |] eqn:E; [| discriminate]
  end.
  apply handlers_keep_socket in E. cbn [bind] in H. injection H as <-.
  rewrite SendACK_shape in Hs.
  rewrite SendACK_zero; [now destruct st1 |].
  left. now destruct st1.
Qed.

Lemma keepalive_zero_sequence now st id :
  List.length id = 8%nat ->
  exists st',
    RecievedData env ExtractValue now st
      (keepalive_frame id [Byte.x00; Byte.x00]) = Ok st'
    /\ deviceID st' = Some (BigInt (Buffer.be_value id))
    /\ seqNum st' = Some (Int 0)
    /\ socket st' = socket st.
Proof.
  intros Hid.
  destruct (keepalive_acknowledged now st id [Byte.x00; Byte.x00] Hid eq_refl)
    as (st' & HR & Hd & Hs & _).
  exists st'. repeat split; try assumption.
  now apply (RecievedData_zero_sequence now st _ st' HR).
Qed.

(** C9. When the sequence number is 0, or the identifier is 0, [SendACK]
    writes nothing; so a frame after which the connection's sequence
    number is 0 is not acknowledged, and in particular no keep-alive frame
    whose sequence bytes are 00 00 is. *)
Theorem SendACK_skips_zero :
  (forall st,
      seqNum st = Some (Int 0) \/ deviceID st = Some (BigInt 0)
      \/ deviceID st = Some (Number (Int 0)) ->
      SendACK st = st)
  /\ (forall now st buffer st',
         RecievedData env ExtractValue now st buffer = Ok st' ->
         seqNum st' = Some (Int 0) -> socket st' = socket st)
  /\ (forall now st id,
         List.length id = 8%nat ->
         exists st',
           RecievedData env ExtractValue now st
             (keepalive_frame id [Byte.x00; Byte.x00]) = Ok st'
           /\ deviceID st' = Some (BigInt (Buffer.be_value id))
           /\ seqNum st' = Some (Int 0)
           /\ socket st' = socket st).
Proof.
  split; [exact SendACK_zero |].
  split; [exact RecievedData_zero_sequence | exact keepalive_zero_sequence].
Qed.

(** C1. The keep-alive frame FE 02, identifier 00 00 00 00 00 00 00 01,
    sequence 00 00 sets the identifier to 1 and the sequence number to 0,
    and no acknowledgment is written for it. *)
Theorem keepalive_sequence_zero_unacknowledged now st :
  let frame :=
    keepalive_frame
      [Byte.x00; Byte.x00; Byte.x00; Byte.x00; Byte.x00; Byte.x00; Byte.x00;
       Byte.x01] [Byte.x00; Byte.x00] in
  is_keepalive frame = true
  /\ exists st',
       RecievedData env ExtractValue now st frame = Ok st'
       /\ deviceID st' = Some (BigInt 1)
       /\ seqNum st' = Some (Int 0)
       /\ socket st' = socket st.
Proof.
  split; [reflexivity |].
  exact (keepalive_zero_sequence now st
           [Byte.x00; Byte.x00; Byte.x00; Byte.x00; Byte.x00; Byte.x00;
            Byte.x00; Byte.x01] eq_refl).
Qed.

End Acknowledgment.

Lemma SendACK_skips_zero_witness :
  let st := set_seqNum (Some (Int 0))
              (set_deviceID (Some (BigInt 5)) (ClientSocket.new 0)) in
  seqNum st = Some (Int 0) /\ SendACK st = st.
Proof.
  split; [reflexivity |].
  apply (proj1 (SendACK_skips_zero no_env no_decoder)).
  left. reflexivity.
Defined.

(* ---------------------------------------------------------------------- *)
(** ** Frame classification *)

Lemma val_inj a b : Buffer.val a = Buffer.val b -> a = b.
Proof.
  intros H. rewrite <- (of_val_val a), <- (of_val_val b). now rewrite H.
Qed.

Lemma equals_eq a b : Buffer.equals a b = true -> a = b.
Proof.
  unfold Buffer.equals. revert b.
  induction a as [| x a IH]; intros [| y b] H; try reflexivity;
    try discriminate.
  cbn in H. apply andb_prop in H as [Hlen H]. apply andb_prop in H as [Hxy H].
  apply Z.eqb_eq, val_inj in Hxy. subst y. f_equal.
  apply IH. now rewrite Hlen, H.
Qed.

Lemma picture_frame_only buffer :
  is_picture buffer = true ->
  is_keepalive buffer = false /\ is_report buffer = false.
Proof.
  unfold is_picture, is_keepalive, is_report. intros H.
  apply equals_eq in H. rewrite H. split; reflexivity.
Qed.

Lemma report_frame_only buffer :
  is_report buffer = true -> is_keepalive buffer = false.
Proof.
  unfold is_keepalive, is_report. intros H.
  apply equals_eq in H. rewrite H. reflexivity.
Qed.

Lemma nth_error_sub_from buffer i k :
  nth_error (Buffer.subarray_from buffer (Z.of_nat i)) k
  = nth_error buffer (i + k).
Proof.
  unfold Buffer.subarray_from. rewrite sub_from. apply nth_error_skipn.
Qed.

(* ---------------------------------------------------------------------- *)
(** ** A single-packet picture *)

Section SinglePacket.

Variable env : Picture.Env.
Variable ExtractValue :
  list string -> list string -> result (option (list Pattern.DecodedValue)).

Lemma run_keeps_picture frames : forall st st',
  Forall (fun f => is_picture (snd f) = false) frames ->
  run env ExtractValue st frames = Ok st' ->
  picture st' = picture st /\ storage st' = storage st.
Proof.
  induction frames as [| [now buffer] rest IH]; intros st st' HF H.
  - injection H as <-. now split.
  - cbn [run] in H. inversion HF as [| ? ? Hp Hrest]; subst.
    destruct (RecievedData env ExtractValue now st buffer) as [st1 |] eqn:E;
      [| discriminate].
    cbn [bind] in H.
    apply RecievedData_keeps_picture in E as [E1 E2]; [| exact Hp].
    destruct (IH st1 st' Hrest H) as [H1 H2]. split; congruence.
Qed.

Lemma HandlePictureMsg_first st buffer :
  (22 <= List.length buffer)%nat -> picture st = None ->
  HandlePictureMsg env st buffer
  = Ok (set_picture
          (Some (Picture.new env (Buffer.subarray_from buffer 16) (deviceID st)))
          (set_seqNum (Some (Picture.hex_field buffer 6 8)) st)).
Proof.
  intros Hlen Hp. unfold HandlePictureMsg, Buffer.readBigUint64BE.
  unfold Buffer.subarray at 1. rewrite sub_lit by lia.
  rewrite length_firstn, length_skipn.
  change (Z.to_nat (16 - 8)) with 8%nat. change (Z.to_nat 8) with 8%nat.
  destruct (Nat.ltb_spec (Nat.min 8 (List.length buffer - 8)) 8); [lia |].
  cbn [bind].
  replace (picture (set_seqNum (Some (Picture.hex_field buffer 6 8)) st))
    with (@None Picture.t) by (now destruct st; simpl in *).
  now destruct st.
Qed.

(** C10. A picture frame that arrives while no transfer is in progress and
    whose current-package index equals its total-package count creates a
    transfer that is already done, writes to neither storage sink, and
    leaves the transfer in place: it stays there, with nothing written,
    through every later frame that is not a picture frame. *)
Theorem single_packet_picture_stays now st buffer index total :
  picture st = None ->
  is_picture buffer = true ->
  nth_error buffer 20 = Some index ->
  nth_error buffer 21 = Some total ->
  Buffer.val index = Buffer.val total ->
  exists st' p,
    RecievedData env ExtractValue now st buffer = Ok st'
    /\ picture st' = Some p
    /\ Picture.isDone p = true
    /\ storage st' = storage st
    /\ forall frames st'',
         Forall (fun f => is_picture (snd f) = false) frames ->
         run env ExtractValue st' frames = Ok st'' ->
         picture st'' = Some p /\ storage st'' = storage st.
Proof.
  intros Hnone Hpic Hi Ht Heq.
  assert (Hlen : (22 <= List.length buffer)%nat).
  { assert (H := nth_error_Some buffer 21). rewrite Ht in H.
    assert (21 < List.length buffer)%nat by (apply H; discriminate). lia. }
  destruct (picture_frame_only buffer Hpic) as [Hk Hr].
  set (p := Picture.new env (Buffer.subarray_from buffer 16) (deviceID st)).
  assert (HR : RecievedData env ExtractValue now st buffer
               = Ok (SendACK
                       (set_lastAlive now
                          (set_picture (Some p)
                             (set_seqNum (Some (Picture.hex_field buffer 6 8))
                                st))))).
  { unfold RecievedData. rewrite Hk, Hr, Hpic.
    now rewrite HandlePictureMsg_first. }
  eexists. exists p. split; [exact HR |].
  assert (Hp : picture
                 (SendACK
                    (set_lastAlive now
                       (set_picture (Some p)
                          (set_seqNum (Some (Picture.hex_field buffer 6 8))
                             st)))) = Some p)
    by (rewrite SendACK_shape; now destruct st).
  assert (Hs : storage
                 (SendACK
                    (set_lastAlive now
                       (set_picture (Some p)
                          (set_seqNum (Some (Picture.hex_field buffer 6 8))
                             st)))) = storage st)
    by (rewrite SendACK_shape; now destruct st).
  split; [exact Hp |]. split.
  - destruct (new_fields env (Buffer.subarray_from buffer 16) (deviceID st))
      as (Hc & Htot & _).
    unfold Picture.isDone. fold p in Hc, Htot. rewrite Hc, Htot.
    unfold packet_index, packet_total.
    assert (H4 := nth_error_sub_from buffer 16 4).
    assert (H5 := nth_error_sub_from buffer 16 5).
    change (Z.of_nat 16) with 16 in H4, H5. cbn [Nat.add] in H4, H5.
    rewrite H4, H5, Hi, Ht. cbn. rewrite Heq. apply Z.eqb_refl.
  - split; [exact Hs |].
    intros frames st'' HF Hrun.
    destruct (run_keeps_picture frames _ _ HF Hrun) as [H1 H2].
    split; congruence.
Qed.

End SinglePacket.

Lemma single_packet_picture_stays_witness :
  exists st' p,
    RecievedData no_env no_decoder 0 (ClientSocket.new 0) single_picture_frame
    = Ok st'
    /\ picture st' = Some p
    /\ Picture.isDone p = true
    /\ storage st' = storage (ClientSocket.new 0)
    /\ forall frames st'',
         Forall (fun f => is_picture (snd f) = false) frames ->
         run no_env no_decoder st' frames = Ok st'' ->
         picture st'' = Some p /\ storage st'' = storage (ClientSocket.new 0).
Proof.
  apply (single_packet_picture_stays no_env no_decoder 0 (ClientSocket.new 0)
           single_picture_frame Byte.x01 Byte.x01);
    reflexivity.
Defined.

(* ---------------------------------------------------------------------- *)
(** ** Reports that arrive before the format is resolved *)

Lemma index_from_range c l : forall pos,
  Buffer.index_from c l pos = -1
  \/ pos <= Buffer.index_from c l pos < pos + Z.of_nat (List.length l).
Proof.
  induction l as [| b l IH]; intros pos; [now left |].
  cbn [Buffer.index_from List.length].
  destruct (Buffer.val b =? Buffer.val c); [right; lia |].
  destruct (IH (pos + 1)) as [H | H]; [now left | right; lia].
Qed.

Lemma index_from_app c l rest : forall pos,
  0 <= pos -> 0 <= Buffer.index_from c l pos ->
  Buffer.index_from c (l ++ rest) pos = Buffer.index_from c l pos.
Proof.
  induction l as [| b l IH]; intros pos Hpos H; [simpl in H; lia |].
  cbn [Buffer.index_from app] in *.
  destruct (Buffer.val b =? Buffer.val c); [reflexivity |].
  apply IH; [lia | exact H].
Qed.

Lemma indexOf_app h rest c s :
  0 <= s -> 0 <= Buffer.indexOf h c s ->
  Buffer.indexOf (h ++ rest) c s = Buffer.indexOf h c s
  /\ s <= Buffer.indexOf h c s < Z.of_nat (List.length h).
Proof.
  unfold Buffer.indexOf. intros Hs H.
  destruct (Z.ltb_spec s 0); [lia |].
  destruct (Nat.le_gt_cases (List.length h) (Z.to_nat s)) as [Hle | Hgt].
  - rewrite skipn_all2 in H by assumption. simpl in H. lia.
  - rewrite skipn_app.
    replace (Z.to_nat s - List.length h)%nat with 0%nat by lia.
    cbn [skipn]. rewrite index_from_app by assumption. split; [reflexivity |].
    destruct (index_from_range c (skipn (Z.to_nat s) h) s) as [E | E]; [lia |].
    rewrite length_skipn in E. lia.
Qed.

Lemma sub_app {A : Type} (h rest : list A) i j :
  0 <= i <= j -> j <= Z.of_nat (List.length h) ->
  sub (h ++ rest) i j = sub h i j.
Proof.
  intros Hij Hj. rewrite !sub_lit by lia.
  rewrite skipn_app, firstn_app, length_skipn.
  replace (Z.to_nat (j - i) - (List.length h - Z.to_nat i))%nat with 0%nat by lia.
  now rewrite firstn_O, app_nil_r.
Qed.

Lemma GetHeaderValueAscii_app h rest s :
  0 <= s -> 0 <= Buffer.indexOf h Byte.x2c s ->
  GetHeaderValueAscii (h ++ rest) s = GetHeaderValueAscii h s.
Proof.
  intros Hs H. unfold GetHeaderValueAscii, Buffer.subarray.
  destruct (indexOf_app h rest Byte.x2c s Hs H) as [-> Hr].
  now rewrite sub_app by lia.
Qed.

Lemma GetHeaderValueAscii_next h s :
  snd (GetHeaderValueAscii h s) = Buffer.indexOf h Byte.x2c s + 1.
Proof. reflexivity. Qed.

Section PrematureReport.

Variable env : Picture.Env.
Variable ExtractValue :
  list string -> list string -> result (option (list Pattern.DecodedValue)).

Lemma HandleReportMsgAscii_unresolved st h rest :
  header_complete h -> reportFinalFormat st = None ->
  HandleReportMsgAscii ExtractValue st (h ++ rest) = Ok (after_header st h).
Proof.
  intros (H1 & H2 & H3 & H4) Hf.
  assert (B1 := proj2 (indexOf_app h rest Byte.x2c 3 ltac:(lia) H1)).
  assert (B2 := proj2 (indexOf_app h rest Byte.x2c
                         (Buffer.indexOf h Byte.x2c 3 + 1) ltac:(lia) H2)).
  assert (B3 := proj2 (indexOf_app h rest Byte.x2c
                         (Buffer.indexOf h Byte.x2c
                            (Buffer.indexOf h Byte.x2c 3 + 1) + 1)
                         ltac:(lia) H3)).
  unfold HandleReportMsgAscii, after_header, GetHeaderValueAsciiInt.
  rewrite (GetHeaderValueAscii_app h rest 3) by lia.
  destruct (GetHeaderValueAscii h 3) as [crc i1] eqn:E1.
  assert (Hi1 : i1 = Buffer.indexOf h Byte.x2c 3 + 1)
    by (now rewrite <- GetHeaderValueAscii_next, E1).
  cbn [snd]. rewrite (GetHeaderValueAscii_app h rest i1) by (subst i1; lia).
  destruct (GetHeaderValueAscii h i1) as [len i2] eqn:E2.
  assert (Hi2 : i2 = Buffer.indexOf h Byte.x2c i1 + 1)
    by (now rewrite <- GetHeaderValueAscii_next, E2).
  cbn [snd]. rewrite (GetHeaderValueAscii_app h rest i2) by (subst i2 i1; lia).
  destruct (GetHeaderValueAscii h i2) as [sq i3] eqn:E3.
  assert (Hi3 : i3 = Buffer.indexOf h Byte.x2c i2 + 1)
    by (now rewrite <- GetHeaderValueAscii_next, E3).
  rewrite (GetHeaderValueAscii_app h rest i3) by (subst i3 i2 i1; lia).
  destruct (GetHeaderValueAscii h i3) as [id i4].
  destruct (deviceID st); destruct st; simpl in *; now subst.
Qed.

Lemma CheckReportType_app st h rest :
  (3 <= List.length h)%nat ->
  CheckReportType st (h ++ rest) = CheckReportType st h.
Proof.
  intros H. unfold CheckReportType, Buffer.subarray.
  now rewrite sub_app by lia.
Qed.

Lemma is_report_app h rest :
  (2 <= List.length h)%nat -> is_report (h ++ rest) = is_report h.
Proof.
  intros H. unfold is_report, Buffer.subarray. now rewrite sub_app by lia.
Qed.

Lemma header_length h : header_complete h -> (4 <= List.length h)%nat.
Proof.
  intros (H1 & _).
  assert (B := proj2 (indexOf_app h [] Byte.x2c 3 ltac:(lia) H1)). lia.
Qed.

Lemma RecievedData_unresolved now st h rest :
  is_report h = true -> header_complete h -> reportFinalFormat st = None ->
  RecievedData env ExtractValue now st (h ++ rest) = Ok (after_report now st h).
Proof.
  intros Hr Hh Hf. assert (Hlen := header_length h Hh).
  unfold RecievedData, after_report.
  assert (Hr' : is_report (h ++ rest) = true) by (now rewrite is_report_app by lia).
  rewrite (report_frame_only _ Hr'), Hr'.
  unfold HandleReportMsg. rewrite CheckReportType_app by lia.
  assert (Hf1 : reportFinalFormat (CheckReportType st h) = None).
  { unfold CheckReportType. destruct (reportType st); [exact Hf |].
    destruct (Buffer.equals _ _); now destruct st. }
  destruct (eq_opt (reportType (CheckReportType st h)) "ascii").
  - now rewrite HandleReportMsgAscii_unresolved.
  - destruct (eq_opt (reportType (CheckReportType st h)) "binary"); reflexivity.
Qed.

Lemma HandleReportMsg_unresolved st buffer :
  reportFinalFormat st = None ->
  exists st1,
    HandleReportMsg ExtractValue st buffer = Ok st1
    /\ timeSeriesDB st1 = timeSeriesDB st
    /\ reportFinalFormat st1 = None.
Proof.
  intros Hf. unfold HandleReportMsg.
  set (st0 := CheckReportType st buffer).
  assert (H0 : timeSeriesDB st0 = timeSeriesDB st
               /\ reportFinalFormat st0 = None).
  { subst st0. unfold CheckReportType. destruct (reportType st); [now split |].
    destruct (Buffer.equals _ _); now destruct st. }
  destruct H0 as [Ht0 Hf0].
  destruct (eq_opt (reportType st0) "ascii").
  - unfold HandleReportMsgAscii.
    destruct (GetHeaderValueAscii buffer 3) as [crc i1].
    destruct (GetHeaderValueAscii buffer i1) as [len i2].
    destruct (GetHeaderValueAsciiInt buffer i2) as [sq i3].
    destruct (GetHeaderValueAsciiInt buffer i3) as [id i4].
    match goal with
    | |- context [match reportFinalFormat ?s with _ => _ end] =>
        assert (H2 : reportFinalFormat s = None /\ timeSeriesDB s = timeSeriesDB st)
          by (destruct (deviceID st0); destruct st0; simpl in *; now subst);
        destruct H2 as [H2 H3]; rewrite H2; exists s
    end.
    now repeat split.
  - destruct (eq_opt (reportType st0) "binary"); exists st0; now repeat split.
Qed.

Lemma RecievedData_report_unresolved now st buffer :
  is_report buffer = true -> reportFinalFormat st = None ->
  exists st',
    RecievedData env ExtractValue now st buffer = Ok st'
    /\ timeSeriesDB st' = timeSeriesDB st
    /\ reportFinalFormat st' = None
    /\ st' = set_socket (socket st')
               (set_lastAlive now
                  (set_seqNum (seqNum st')
                     (set_deviceID (deviceID st')
                        (set_reportType (reportType st') st)))).
Proof.
  intros Hr Hf. unfold RecievedData.
  rewrite (report_frame_only _ Hr), Hr.
  destruct (HandleReportMsg_unresolved st buffer Hf) as (st1 & H1 & Ht & Hf1).
  rewrite H1. cbn [bind]. eexists. split; [reflexivity |].
  apply HandleReportMsg_shape in H1. rewrite SendACK_shape.
  repeat split.
  - rewrite <- Ht. now destruct st1.
  - rewrite <- Hf1. now destruct st1.
  - rewrite H1, Ht. now destruct st.
Qed.

(** C7. While the effective field list is unset, every report frame is
    processed without error, writes nothing to the time-series sink and
    leaves the format unresolved: it changes at most the identifier, the
    sequence number, the sniffed report type, the liveness time and the
    socket.  What it leaves behind does not depend on the bytes after the
    header: whatever frames follow, the connection behaves as it would
    have after any other body. *)
Theorem premature_report_dropped now st :
  reportFinalFormat st = None ->
  (forall buffer,
      is_report buffer = true ->
      exists st',
        RecievedData env ExtractValue now st buffer = Ok st'
        /\ timeSeriesDB st' = timeSeriesDB st
        /\ reportFinalFormat st' = None
        /\ st' = set_socket (socket st')
                   (set_lastAlive now
                      (set_seqNum (seqNum st')
                         (set_deviceID (deviceID st')
                            (set_reportType (reportType st') st)))))
  /\ (forall h,
         is_report h = true -> header_complete h ->
         forall body body' later,
           run env ExtractValue st ((now, h ++ body) :: later)
           = run env ExtractValue st ((now, h ++ body') :: later)).
Proof.
  intros Hf. split.
  - intros buffer Hr. now apply RecievedData_report_unresolved.
  - intros h Hr Hh body body' later. cbn [run].
    now rewrite !RecievedData_unresolved.
Qed.

End PrematureReport.

Lemma premature_report_dropped_witness :
  let h := Buffer.from_ascii "@P,ABCD,25,7,352602017041662," in
  let st := ClientSocket.new 0 in
  let body := Buffer.from_ascii "20240418,20240418,20240418,100598781" in
  reportFinalFormat st = None
  /\ is_report (h ++ body) = true
  /\ header_complete h
  /\ (exists st',
         RecievedData no_env no_decoder 5 st (h ++ body) = Ok st'
         /\ timeSeriesDB st' = timeSeriesDB st
         /\ reportFinalFormat st' = None
         /\ st' = set_socket (socket st')
                    (set_lastAlive 5
                       (set_seqNum (seqNum st')
                          (set_deviceID (deviceID st')
                             (set_reportType (reportType st') st)))))
  /\ forall body' later,
       run no_env no_decoder st ((5, h ++ body) :: later)
       = run no_env no_decoder st ((5, h ++ body') :: later).
Proof.
  cbv zeta.
  assert (Hf : reportFinalFormat (ClientSocket.new 0) = None) by reflexivity.
  assert (Hr : is_report
                 (Buffer.from_ascii "@P,ABCD,25,7,352602017041662,"
                  ++ Buffer.from_ascii "20240418,20240418,20240418,100598781")
               = true) by reflexivity.
  assert (Hr' : is_report (Buffer.from_ascii "@P,ABCD,25,7,352602017041662,")
                = true) by reflexivity.
  assert (Hh : header_complete
                 (Buffer.from_ascii "@P,ABCD,25,7,352602017041662,"))
    by (unfold header_complete; vm_compute; repeat split; discriminate).
  destruct (premature_report_dropped no_env no_decoder 5 (ClientSocket.new 0) Hf)
    as [P1 P2].
  split; [exact Hf |]. split; [exact Hr |]. split; [exact Hh |].
  split; [exact (P1 _ Hr) |].
  intros body' later. exact (P2 _ Hr' Hh _ body' later).
Defined.

(* ---------------------------------------------------------------------- *)
(** ** Report-format negotiation *)

Lemma recorded_view c fmt st st' :
  fmt_view st' = fmt_view st -> recorded c fmt st -> recorded c fmt st'.
Proof.
  unfold fmt_view. intros H. injection H as H1 H2 H3 H4 H5.
  destruct c; unfold recorded; rewrite H1, H2, H3, H4, H5 || idtac;
    intros R; destruct st, st'; simpl in *; subst; exact R.
Qed.

Lemma SaveReportFormat_recorded c fmt st input st' :
  SaveReportFormat st input = Ok st' ->
  recorded c fmt st -> recorded c fmt st'.
Proof.
  unfold SaveReportFormat. intros H R.
  destruct (elem input 1); [| discriminate].
  repeat match type of H with
    | match ?x with _ => _ end = _ => destruct x eqn:?
    end; try discriminate; injection H as <-;
    destruct c; unfold recorded in *; destruct st; simpl in *;
    intuition congruence.
Qed.

Lemma SaveReportFormat_present c st input input1 report :
  flag c st = None ->
  elem input 0 = Some (cmd_of c) ->
  elem input 1 = Some input1 ->
  elem (split input1 ",") (report_index c) = Some report ->
  Picture.nonempty (unquote report) = true ->
  exists st',
    SaveReportFormat st input = Ok st'
    /\ recorded c (ReportFormatSplit report) st'.
Proof.
  intros Hflag H0 H1 Hrep Hne. unfold SaveReportFormat. rewrite H0, H1.
  destruct c; simpl in Hflag, Hrep |- *; rewrite Hflag, Hrep, Hne;
    eexists; (split; [reflexivity |]); unfold recorded; destruct st; simpl;
    auto.
Qed.

Lemma UpdateReportFormatStatus_view st :
  fmt_view (snd (UpdateReportFormatStatus st)) = fmt_view st.
Proof.
  unfold UpdateReportFormatStatus.
  repeat match goal with
    | |- context [if ?c then _ else _] => destruct c
    end; now destruct st.
Qed.

Lemma UpdateReportFormatStatus_recorded c fmt st :
  recorded c fmt st -> others_absent c st ->
  exists st',
    UpdateReportFormatStatus st = (true, st')
    /\ reportFormatType st' = Some (type_of c)
    /\ reportFinalFormat st' = Some (reportBaseFormat ++ fmt)%list.
Proof.
  intros R A. unfold UpdateReportFormatStatus.
  destruct c; unfold recorded, others_absent in *; simpl.
  - destruct R as [-> Rf]. destruct A as [-> ->]. cbn.
    eexists. split; [reflexivity |]. destruct st; simpl in *. now subst.
  - destruct R as [-> Rf]. destruct A as [-> A]. rewrite A in *. cbn.
    destruct Rf as [Rf | Rf]; [| discriminate].
    eexists. split; [reflexivity |]. destruct st; simpl in *. now subst.
  - destruct R as [-> Rf]. destruct A as [-> A]. rewrite A in *. cbn.
    destruct Rf as [Rf | Rf]; [| discriminate].
    eexists. split; [reflexivity |]. destruct st; simpl in *. now subst.
Qed.

Lemma UpdateReportFormatStatus_base st :
  isReportCustom st = Some false -> isReportJ1708 st = Some false ->
  isReportJ1939 st = Some false ->
  exists st',
    UpdateReportFormatStatus st = (true, st')
    /\ reportFormatType st' = Some "base"%string
    /\ reportFinalFormat st' = Some reportBaseFormat.
Proof.
  intros H1 H2 H3. unfold UpdateReportFormatStatus. rewrite H1, H2, H3. cbn.
  eexists. split; [reflexivity |]. now destruct st.
Qed.

Section Negotiation.

Variable env : Picture.Env.
Variable ExtractValue :
  list string -> list string -> result (option (list Pattern.DecodedValue)).

Lemma HandleOtherLines_recorded c fmt lines : forall st st',
  HandleOtherLines st lines = Ok st' ->
  recorded c fmt st -> recorded c fmt st'.
Proof.
  induction lines as [| line rest IH]; intros st st' H R; simpl in H.
  - now injection H as <-.
  - destruct (Utilities.IsStringEmptyOrSpaces line); [now apply (IH st) |].
    destruct (1 <? _)%nat; [| now apply (IH st)].
    destruct (_ || _); [| now apply (IH st)].
    destruct (SaveReportFormat st _) as [st1 |] eqn:E; [| discriminate].
    simpl in H. apply (IH _ _ H).
    apply (recorded_view c fmt st1); [apply UpdateReportFormatStatus_view |].
    now apply (SaveReportFormat_recorded c fmt st (split line "=") st1).
Qed.

Lemma RecievedData_recorded c fmt now st buffer st' :
  RecievedData env ExtractValue now st buffer = Ok st' ->
  recorded c fmt st -> recorded c fmt st'.
Proof.
  unfold RecievedData. intros H R.
  match type of H with
  | bind ?m _ = _ => destruct m as [st1 |] eqn:E; [| discriminate]
  end.
  cbn [bind] in H. injection H as <-.
  apply (recorded_view c fmt st1); [rewrite SendACK_shape; now destruct st1 |].
  destruct (is_keepalive buffer);
    [apply HandleKeepAliveMsg_shape in E
    | destruct (is_report buffer);
      [apply HandleReportMsg_shape in E
      | destruct (is_picture buffer);
        [apply HandlePictureMsg_shape in E |]]].
  1-3: apply (recorded_view c fmt st); [rewrite E; now destruct st | exact R].
  unfold HandleOtherMsg in E. destruct (eq_opt (reportType st) "ascii").
  - eapply HandleOtherLines_recorded; eassumption.
  - now injection E as <-.
Qed.

Lemma run_recorded c fmt frames : forall st st',
  run env ExtractValue st frames = Ok st' ->
  recorded c fmt st -> recorded c fmt st'.
Proof.
  induction frames as [| [now buffer] rest IH]; intros st st' H R.
  - now injection H as <-.
  - cbn [run] in H.
    destruct (RecievedData env ExtractValue now st buffer) as [st1 |] eqn:E;
      [| discriminate].
    cbn [bind] in H. apply (IH st1 st' H).
    now apply (RecievedData_recorded c fmt now st buffer).
Qed.

(** Format negotiation as the code has it.  Once the response for
    customization [c] has been saved with a non-empty format string,
    whatever frames follow, if the other two customizations have resolved
    absent then
    [UpdateReportFormatStatus] reports resolution, sets the type to [c]'s
    and the effective list to the base fields followed by the split on '%'
    of the format string with its quotes removed, minus the first element
    of that split.  If all three resolved absent the type is base and the
    effective list is the base fields. *)
Theorem format_negotiation :
  (forall c st input input1 report,
      flag c st = None ->
      elem input 0 = Some (cmd_of c) ->
      elem input 1 = Some input1 ->
      elem (split input1 ",") (report_index c) = Some report ->
      Picture.nonempty (unquote report) = true ->
      exists st1,
        SaveReportFormat st input = Ok st1
        /\ forall frames st2,
             run env ExtractValue st1 frames = Ok st2 ->
             others_absent c st2 ->
             exists st3,
               UpdateReportFormatStatus st2 = (true, st3)
               /\ reportFormatType st3 = Some (type_of c)
               /\ reportFinalFormat st3
                  = Some (reportBaseFormat
                          ++ tl (split (strip_quotes report) "%"))%list)
  /\ (forall st,
         isReportCustom st = Some false -> isReportJ1708 st = Some false ->
         isReportJ1939 st = Some false ->
         exists st',
           UpdateReportFormatStatus st = (true, st')
           /\ reportFormatType st' = Some "base"%string
           /\ reportFinalFormat st' = Some reportBaseFormat).
Proof.
  split; [| exact UpdateReportFormatStatus_base].
  intros c st input input1 report Hflag H0 H1 Hrep Hne.
  destruct (SaveReportFormat_present c st input input1 report
              Hflag H0 H1 Hrep Hne) as (st1 & HS & R).
  exists st1. split; [exact HS |].
  intros frames st2 Hrun A.
  apply (UpdateReportFormatStatus_recorded c (ReportFormatSplit report) st2);
    [| exact A].
  now apply (run_recorded c _ frames st1).
Qed.

End Negotiation.

Lemma format_negotiation_witness :
  let report := quoted "%MV%BV" in
  let input := ["$FORM"; "0,@P,0," ++ report]%string in
  let frames :=
    [(1, Buffer.from_ascii
           ("$1708=" ++ quoted "" ++ CRLF ++ "$FMSC=0," ++ quoted "" ++ CRLF)%string)] in
  exists st1 st2 st3,
    SaveReportFormat ascii_connection input = Ok st1
    /\ run no_env no_decoder st1 frames = Ok st2
    /\ UpdateReportFormatStatus st2 = (true, st3)
    /\ reportFormatType st3 = Some "custom"%string
    /\ reportFinalFormat st3
       = Some (reportBaseFormat ++ ["MV"; "BV"]%string)%list.
Proof.
  cbv zeta.
  destruct (proj1 (format_negotiation no_env no_decoder) Custom
              ascii_connection
              ["$FORM"; "0,@P,0," ++ quoted "%MV%BV"]%string
              ("0,@P,0," ++ quoted "%MV%BV")%string (quoted "%MV%BV")
              eq_refl eq_refl eq_refl eq_refl eq_refl) as (st1 & HS & K).
  exists st1.
  assert (Hrun : exists st2,
             run no_env no_decoder st1
               [(1, Buffer.from_ascii
                      ("$1708=" ++ quoted "" ++ CRLF ++ "$FMSC=0,"
                       ++ quoted "" ++ CRLF)%string)] = Ok st2
             /\ others_absent Custom st2).
  { vm_compute in HS. injection HS as <-. eexists. split.
    - vm_compute. reflexivity.
    - split; reflexivity. }
  destruct Hrun as (st2 & Hrun & A).
  destruct (K _ st2 Hrun A) as (st3 & H3 & Ht & Hf).
  exists st2, st3. repeat split; assumption.
Defined.

(* ---------------------------------------------------------------------- *)
(** ** G-force groups that do parse *)

Lemma binary_fixed k z :
  forallb (fun c => is_char 48 c || is_char 49 c) (fixed 2 k z) = true.
Proof.
  revert z. induction k; intros z; [reflexivity |].
  cbn [fixed]. rewrite forallb_app, IHk. cbn [forallb andb].
  assert (Hm := Z.mod_pos_bound z 2 ltac:(lia)).
  unfold is_char. rewrite code_digit_char by lia.
  destruct (Z.ltb_spec (z mod 2) 10); [| lia].
  assert (z mod 2 = 0 \/ z mod 2 = 1) as [-> | ->] by lia; reflexivity.
Qed.

Lemma ParseHexStringToSignedInt_positive hexString x :
  parseInt hexString (Some 16) = Int x -> 0 <= x < 2 ^ 31 ->
  Utilities.ParseHexStringToSignedInt hexString 32 = Ok (Some (Int x)).
Proof.
  intros H Hx. unfold Utilities.ParseHexStringToSignedInt,
    Utilities.ParseHexStringToBinary. rewrite H. cbn [toString].
  rewrite (padStart_int_toString 2 x 32) by lia.
  change (Z.to_nat 32) with 32%nat.
  unfold Utilities.ParseBinaryToSinged, Utilities.is_binary_string.
  rewrite length_str, length_fixed, chars_str.
  change (Z.of_nat 32 =? 0) with false. change (Z.of_nat 32 =? 1) with false.
  rewrite (fixed_head 2 31 x) by lia.
  rewrite <- (fixed_head 2 31 x) at 1 by lia.
  rewrite binary_fixed. cbn [negb orb].
  unfold at_index. rewrite chars_str. cbn [Z.ltb Z.compare Z.to_nat nth_error].
  rewrite <- (fixed_head 2 31 x) by lia.
  rewrite (parseInt_fixed (Some 2) 2) by (try split; lia).
  rewrite Z.div_small by (change (Z.of_nat 31) with 31; lia).
  change (String.eqb (str [digit_char (0 mod 2)]) "1") with false.
  cbn [Z.eqb bind]. rewrite Z.mod_small by (change (Z.of_nat 32) with 32; lia).
  now rewrite Z.mul_1_l.
Qed.

(** When the three groups are hexadecimal, three values are emitted, in
    the order x, y, z. *)
Lemma GetValueGForce_three rawValue patternInfo x y z :
  12 <= length rawValue ->
  parseInt (slice (slice rawValue 0 12) 0 4) (Some 16) = Int x ->
  parseInt (slice (slice rawValue 0 12) 4 8) (Some 16) = Int y ->
  parseInt (slice (slice rawValue 0 12) 8 12) (Some 16) = Int z ->
  0 <= x < 2 ^ 31 -> 0 <= y < 2 ^ 31 -> 0 <= z < 2 ^ 31 ->
  Pattern.GetValueGForce rawValue patternInfo
  = Ok (Some
          [Pattern.mkValue (Pattern.info_name patternInfo ++ "_x") "int"
             (Pattern.VNumber (Pattern.of_int x));
           Pattern.mkValue (Pattern.info_name patternInfo ++ "_y") "int"
             (Pattern.VNumber (Pattern.of_int y));
           Pattern.mkValue (Pattern.info_name patternInfo ++ "_z") "int"
             (Pattern.VNumber (Pattern.of_int z))]).
Proof.
  intros Hlen Px Py Pz Hx Hy Hz. unfold Pattern.GetValueGForce. cbv zeta.
  destruct (Z.ltb_spec (length rawValue) 12); [lia |].
  rewrite (ParseHexStringToSignedInt_positive _ x Px Hx).
  rewrite (ParseHexStringToSignedInt_positive _ y Py Hy).
  rewrite (ParseHexStringToSignedInt_positive _ z Pz Hz).
  reflexivity.
Qed.

(* ---------------------------------------------------------------------- *)
(** ** Signed binary strings *)

Lemma is_binary_fixed k z :
  Utilities.is_binary_string (str (fixed 2 (S k) z)) = true.
Proof.
  unfold Utilities.is_binary_string. rewrite chars_str.
  assert (H := binary_fixed (S k) z).
  destruct (fixed 2 (S k) z) eqn:E; [| exact H].
  apply (f_equal (@List.length ascii)) in E. rewrite length_fixed in E.
  discriminate.
Qed.

Lemma at_index_fixed_head r k z :
  0 < r ->
  at_index (str (fixed r (S k) z)) 0
  = Some (str [digit_char ((z / r ^ Z.of_nat k) mod r)]).
Proof.
  intros Hr. unfold at_index. rewrite chars_str, fixed_head by lia. reflexivity.
Qed.

Lemma ParseBinaryToSinged_fixed k w :
  0 <= w < 2 ^ Z.of_nat (S (S k)) ->
  Utilities.ParseBinaryToSinged (str (fixed 2 (S (S k)) w))
  = Ok (Int (twos_complement (Z.of_nat (S (S k))) w)).
Proof.
  intros Hw. unfold Utilities.ParseBinaryToSinged.
  rewrite length_str, length_fixed, is_binary_fixed.
  destruct (Z.eqb_spec (Z.of_nat (S (S k))) 0); [lia |].
  destruct (Z.eqb_spec (Z.of_nat (S (S k))) 1); [lia |].
  cbn [negb orb]. rewrite at_index_fixed_head by lia.
  rewrite (parseInt_fixed (Some 2) 2) by (try split; lia).
  rewrite (Z.mod_small w) by lia.
  assert (Hp : 2 ^ Z.of_nat (S (S k)) = 2 * 2 ^ Z.of_nat (S k))
    by (rewrite (Nat2Z.inj_succ (S k)), Z.pow_succ_r by lia; reflexivity).
  assert (Hpos : 0 < 2 ^ Z.of_nat (S k)) by (apply Z.pow_pos_nonneg; lia).
  unfold twos_complement.
  replace (Z.of_nat (S (S k)) - 1) with (Z.of_nat (S k)) by lia.
  destruct (Z.ltb_spec w (2 ^ Z.of_nat (S k))) as [Hlt | Hge].
  - rewrite Z.div_small by lia.
    change (String.eqb (str [digit_char (0 mod 2)]) "1") with false.
    cbv iota. change (1 =? -1) with false. cbv iota. now rewrite Z.mul_1_l.
  - replace (w / 2 ^ Z.of_nat (S k)) with 1
      by (apply Z.div_unique with (r := w - 2 ^ Z.of_nat (S k)); lia).
    change (String.eqb (str [digit_char (1 mod 2)]) "1") with true.
    cbv iota. change (-1 =? -1) with true. cbv iota. cbn [minus].
    f_equal. f_equal. lia.
Qed.

(** The unsigned value of a string of binary digits. *)
Lemma binary_string_fixed l :
  forallb (fun c => is_char 48 c || is_char 49 c) l = true ->
  exists w, 0 <= w < 2 ^ Z.of_nat (List.length l)
            /\ l = fixed 2 (List.length l) w.
Proof.
  induction l as [| c l IH] using rev_ind; intros H.
  - exists 0. split; [simpl; lia | reflexivity].
  - rewrite forallb_app in H. apply andb_prop in H as [Hl Hc].
    destruct (IH Hl) as (w & Hw & E).
    cbn [forallb] in Hc. rewrite andb_true_r in Hc.
    rewrite length_app, Nat.add_1_r, Nat2Z.inj_succ, Z.pow_succ_r by lia.
    assert (Hd : exists d, 0 <= d < 2 /\ c = digit_char d).
    { unfold is_char, code in Hc. apply orb_prop in Hc as [Hc | Hc];
        apply Z.eqb_eq in Hc;
        [exists 0 | exists 1]; (split; [lia |]);
        rewrite <- (ascii_nat_embedding c);
        [replace (nat_of_ascii c) with 48%nat by lia
        | replace (nat_of_ascii c) with 49%nat by lia]; reflexivity. }
    destruct Hd as (d & Hd & ->).
    exists (2 * w + d). split; [lia |].
    cbn [fixed].
    replace ((2 * w + d) / 2) with w by (Z.div_mod_to_equations; lia).
    replace ((2 * w + d) mod 2) with d by (Z.div_mod_to_equations; lia).
    now rewrite <- E.
Qed.

(** X1. On a string of binary digits, at least 2 and at most 53 of them (the
    range in which Numbers are exact), [ParseBinaryToSinged] gives the two's
    complement reading of the string: its unsigned value [u] when the first
    digit is 0, [u - 2^len] when it is 1.  On a string that has another
    character or fewer than two characters it throws. *)
Theorem ParseBinaryToSinged_twos_complement s :
  (Utilities.is_binary_string s = true /\ 2 <= length s <= 53 ->
   exists u,
     parseInt s (Some 2) = Int u /\ 0 <= u < 2 ^ length s
     /\ Utilities.ParseBinaryToSinged s
        = Ok (Int (twos_complement (length s) u)))
  /\ (Utilities.is_binary_string s = false \/ length s < 2 ->
      Utilities.ParseBinaryToSinged s = Throw (Error "Invalid binary string")).
Proof.
  split.
  - intros [Hb [Hlen _]]. unfold Utilities.is_binary_string in Hb.
    assert (Hl : length s = Z.of_nat (List.length (chars s)))
      by (unfold length; now rewrite length_chars).
    destruct (chars s) as [| c l] eqn:E; [discriminate |].
    destruct (binary_string_fixed (c :: l) Hb) as (u & Hu & Ef).
    destruct l as [| c' l]; [cbn in Hl; lia |].
    cbn [List.length] in Hu, Ef, Hl.
    assert (Hs : s = str (fixed 2 (S (S (List.length l))) u))
      by (now rewrite <- Ef, <- E, str_chars).
    exists u. rewrite Hl. split; [| split; [exact Hu |]].
    + rewrite Hs at 1. rewrite (parseInt_fixed (Some 2) 2) by (try split; lia).
      now rewrite Z.mod_small by lia.
    + rewrite Hs at 1. now apply ParseBinaryToSinged_fixed.
  - intros H. unfold Utilities.ParseBinaryToSinged.
    destruct H as [-> | H].
    + cbn [negb]. now rewrite orb_true_r.
    + assert (0 <= length s) by (unfold length; lia).
      assert (length s = 0 \/ length s = 1) as [-> | ->] by lia; [reflexivity |].
      cbn [Z.eqb]. now rewrite orb_true_r.
Qed.

Lemma ParseBinaryToSinged_twos_complement_witness :
  Utilities.is_binary_string "1011" = true /\ 2 <= length "1011" <= 53
  /\ exists u,
       parseInt "1011" (Some 2) = Int u /\ 0 <= u < 2 ^ length "1011"
       /\ Utilities.ParseBinaryToSinged "1011"
          = Ok (Int (twos_complement (length "1011") u)).
Proof.
  assert (H : Utilities.is_binary_string "1011" = true
              /\ 2 <= length "1011" <= 53)
    by (split; [reflexivity | split; vm_compute; discriminate]).
  split; [exact (proj1 H) |]. split; [exact (proj2 H) |].
  exact (proj1 (ParseBinaryToSinged_twos_complement "1011"%string) H).
Defined.

(* ---------------------------------------------------------------------- *)
(** ** Bit slices: width, range and sign *)

(** X2. An input that does not fit in [binaryLength] bits is rejected
    whatever slice is asked for, signed or not. *)
Theorem GetIntSliceFromBinary_out_of_width v n slice signed :
  0 <= n -> 2 ^ n <= v ->
  Utilities.GetIntSliceFromBinary v n slice signed = Ok None.
Proof.
  intros Hn Hv. unfold Utilities.GetIntSliceFromBinary. cbv zeta.
  assert (0 < 2 ^ n) by (apply Z.pow_pos_nonneg; lia).
  unfold int_toString. destruct (Z.ltb_spec v 0); [lia |].
  destruct (digits_fixed 2 v) as (k & -> & Hlt & _); try lia.
  rewrite length_str, length_fixed.
  destruct (Z.ltb_spec n (Z.of_nat (S k))) as [_ | Hge]; [reflexivity |].
  assert (2 ^ Z.of_nat (S k) <= 2 ^ n) by (apply Z.pow_le_mono_r; lia). lia.
Qed.

Lemma GetIntSliceFromBinary_out_of_width_witness :
  0 <= 8 /\ 2 ^ 8 <= 300
  /\ Utilities.GetIntSliceFromBinary 300 8 "1~2" false = Ok None.
Proof.
  assert (H1 : 0 <= 8) by lia. assert (H2 : 2 ^ 8 <= 300) by (simpl; lia).
  split; [exact H1 |]. split; [exact H2 |].
  exact (GetIntSliceFromBinary_out_of_width 300 8 "1~2"%string false H1 H2).
Defined.

(** X3. Whatever the input, no value is produced for a slice that leaves
    the width: a range ["a~b"] whose end is not below [binaryLength] or not
    above its start, or a single bit at or beyond [binaryLength]. *)
Theorem GetIntSliceFromBinary_out_of_range v n signed :
  (forall a b, 0 <= a -> 0 <= b -> b <= a \/ n <= b ->
     Utilities.GetIntSliceFromBinary v n (range_slice a b) signed = Ok None)
  /\ (forall a, 0 <= a -> n <= a ->
        Utilities.GetIntSliceFromBinary v n (bit_slice a) signed = Ok None).
Proof.
  split.
  - intros a b Ha Hb Hab. unfold Utilities.GetIntSliceFromBinary. cbv zeta.
    destruct (n <? length (int_toString v 2)); [reflexivity |].
    assert (Pa := chars_bit_slice a Ha). assert (Pb := chars_bit_slice b Hb).
    unfold includes, split. change (chars "~") with ["~"%char].
    rewrite chars_range_slice, includes_tilde.
    rewrite split_tilde by now apply plain_no_tilde.
    cbn [elem nth_error rev app]. rewrite !str_chars.
    rewrite !parseInt_bit_slice by lia.
    replace (lt (Int a) (Int b) && ge (Int a) (Int 0) && lt (Int b) (Int n))
      with false by (symmetry; unfold lt, ge; zcases).
    reflexivity.
  - intros a Ha Hn. unfold Utilities.GetIntSliceFromBinary. cbv zeta.
    destruct (n <? length (int_toString v 2)); [reflexivity |].
    assert (Pa := chars_bit_slice a Ha).
    unfold includes. change (chars "~") with ["~"%char].
    rewrite includes_no_tilde by now apply plain_no_tilde.
    rewrite parseInt_bit_slice by lia.
    destruct (Z.ltb_spec a n); [lia | reflexivity].
Qed.

Lemma GetIntSliceFromBinary_out_of_range_witness :
  Utilities.GetIntSliceFromBinary 127 8 (range_slice 6 8) false = Ok None
  /\ Utilities.GetIntSliceFromBinary 127 8 (range_slice 5 5) false = Ok None
  /\ Utilities.GetIntSliceFromBinary 127 8 (bit_slice 8) false = Ok None.
Proof.
  destruct (GetIntSliceFromBinary_out_of_range 127 8 false) as [Hr Hb].
  split; [apply (Hr 6 8); lia |].
  split; [apply (Hr 5 5); lia | apply (Hb 8); lia].
Defined.

Lemma fixed_mod r k : 1 < r -> forall z,
  fixed r k (z mod r ^ Z.of_nat k) = fixed r k z.
Proof.
  intros Hr. induction k; intros z; [reflexivity |].
  cbn [fixed]. rewrite Nat2Z.inj_succ, Z.pow_succ_r by lia.
  assert (Hpos : 0 < r ^ Z.of_nat k) by (apply Z.pow_pos_nonneg; lia).
  rewrite (Z.rem_mul_r z r) by lia.
  assert (Hm := Z.mod_pos_bound z r ltac:(lia)).
  replace ((z mod r + r * ((z / r) mod r ^ Z.of_nat k)) / r)
    with ((z / r) mod r ^ Z.of_nat k)
    by (apply Z.div_unique with (r := z mod r); lia).
  replace ((z mod r + r * ((z / r) mod r ^ Z.of_nat k)) mod r)
    with (z mod r)
    by (apply Z.mod_unique with (q := (z / r) mod r ^ Z.of_nat k); lia).
  now rewrite IHk.
Qed.

(** X4. With [signed] set, a range ["a~b"] of an in-width input decodes to
    the two's complement reading of bits [b] down to [a], while a
    single-bit slice makes the call throw: one binary digit is not a valid
    signed string. *)
Theorem GetIntSliceFromBinary_signed v n :
  0 <= v < 2 ^ n ->
  (forall a b, 0 <= a < b /\ b < n ->
     Utilities.GetIntSliceFromBinary v n (range_slice a b) true
     = Ok (Some (Int (twos_complement (b - a + 1)
                        ((v / 2 ^ a) mod 2 ^ (b - a + 1))))))
  /\ (forall a, 0 <= a < n ->
        Utilities.GetIntSliceFromBinary v n (bit_slice a) true
        = Throw (Error "Invalid binary string")).
Proof.
  intros Hv. split.
  - intros a b Hab. unfold Utilities.GetIntSliceFromBinary. cbv zeta.
    destruct (padded_binary v n ltac:(lia) Hv) as [H1 H2]. cbv zeta in H1, H2.
    rewrite H1, H2. clear H1 H2.
    assert (Pa := chars_bit_slice a ltac:(lia)).
    assert (Pb := chars_bit_slice b ltac:(lia)).
    unfold includes, split. change (chars "~") with ["~"%char].
    rewrite chars_range_slice, includes_tilde.
    rewrite split_tilde by now apply plain_no_tilde.
    cbn [elem nth_error rev app]. rewrite !str_chars.
    rewrite !parseInt_bit_slice by lia.
    replace (lt (Int a) (Int b) && ge (Int a) (Int 0) && lt (Int b) (Int n))
      with true by (symmetry; unfold lt, ge; zcases).
    unfold slice. rewrite chars_str.
    set (x := Z.to_nat (n - b - 1)). set (y := Z.to_nat (b - a - 1)).
    replace (Z.to_nat n) with (x + S (S y) + Z.to_nat a)%nat by lia.
    replace (n - b - 1) with (Z.of_nat x) by lia.
    replace (n - a) with (Z.of_nat (x + S (S y))) by lia.
    rewrite sub_fixed by lia. rewrite Z2Nat.id by lia.
    assert (Hm := Z.mod_pos_bound (v / 2 ^ a) (2 ^ Z.of_nat (S (S y)))
                    ltac:(apply Z.pow_pos_nonneg; lia)).
    replace (fixed 2 (S (S y)) (v / 2 ^ a))
      with (fixed 2 (S (S y)) ((v / 2 ^ a) mod 2 ^ Z.of_nat (S (S y)))).
    2:{ apply fixed_mod. lia. }
    rewrite ParseBinaryToSinged_fixed by exact Hm.
    cbn [bind]. replace (Z.of_nat (S (S y))) with (b - a + 1) by lia.
    reflexivity.
  - intros a Ha. unfold Utilities.GetIntSliceFromBinary. cbv zeta.
    destruct (padded_binary v n ltac:(lia) Hv) as [H1 H2]. cbv zeta in H1, H2.
    rewrite H1, H2. clear H1 H2.
    assert (Pa := chars_bit_slice a ltac:(lia)).
    unfold includes. change (chars "~") with ["~"%char].
    rewrite includes_no_tilde by now apply plain_no_tilde.
    rewrite parseInt_bit_slice by lia.
    destruct (Z.ltb_spec a n); [| lia].
    unfold at_index. destruct (Z.ltb_spec (n - a - 1) 0); [lia |].
    rewrite chars_str.
    set (x := Z.to_nat (n - a - 1)).
    replace (Z.to_nat n) with (x + 1 + Z.to_nat a)%nat by lia.
    rewrite nth_fixed by lia.
    unfold Utilities.ParseBinaryToSinged. rewrite length_str.
    cbn [List.length Z.of_nat Pos.of_succ_nat Z.eqb]. rewrite !orb_true_r.
    reflexivity.
Qed.

Lemma GetIntSliceFromBinary_signed_witness :
  0 <= 180 < 2 ^ 8
  /\ Utilities.GetIntSliceFromBinary 180 8 (range_slice 4 7) true
     = Ok (Some (Int (twos_complement (7 - 4 + 1)
                        ((180 / 2 ^ 4) mod 2 ^ (7 - 4 + 1)))))
  /\ Utilities.GetIntSliceFromBinary 180 8 (bit_slice 7) true
     = Throw (Error "Invalid binary string").
Proof.
  assert (H : 0 <= 180 < 2 ^ 8) by (simpl; lia).
  split; [exact H |].
  destruct (GetIntSliceFromBinary_signed 180 8 H) as [Hr Hb].
  split; [apply (Hr 4 7); lia | apply (Hb 7); lia].
Defined.

Example slice_signed_negative :
  Utilities.GetIntSliceFromBinary 180 8 (range_slice 4 7) true
  = Ok (Some (Int (-5))).
Proof. reflexivity. Qed.

(* ---------------------------------------------------------------------- *)
(** ** What a g-force field can decode to *)

Lemma digit_in_bound r c d : digit_in r c = Some d -> 0 <= d < r.
Proof.
  unfold digit_in, digit_value. intros H.
  assert (0 <= code c) by (unfold code; lia).
  destruct ((48 <=? code c) && (code c <=? 57)) eqn:E1.
  - destruct (Z.ltb_spec (code c - 48) r); [| discriminate].
    injection H as <-. apply andb_prop in E1 as [E1 _].
    apply Z.leb_le in E1. lia.
  - destruct ((97 <=? code c) && (code c <=? 122)) eqn:E2.
    + destruct (Z.ltb_spec (code c - 87) r); [| discriminate].
      injection H as <-. apply andb_prop in E2 as [E2 _].
      apply Z.leb_le in E2. lia.
    + destruct ((65 <=? code c) && (code c <=? 90)) eqn:E3; [| discriminate].
      destruct (Z.ltb_spec (code c - 55) r); [| discriminate].
      injection H as <-. apply andb_prop in E3 as [E3 _].
      apply Z.leb_le in E3. lia.
Qed.

Lemma parse_digits_bound r : 1 < r -> forall l a v,
  0 <= a ->
  parse_digits r l (Some a) = Some v ->
  0 <= v < (a + 1) * r ^ Z.of_nat (List.length l).
Proof.
  intros Hr. induction l as [| c l IH]; intros a v Ha H.
  - cbn in H. injection H as <-. cbn. lia.
  - cbn [parse_digits] in H.
    assert (Hpos : 0 < r ^ Z.of_nat (List.length l))
      by (apply Z.pow_pos_nonneg; lia).
    cbn [List.length]. rewrite Nat2Z.inj_succ, Z.pow_succ_r by lia.
    destruct (digit_in r c) as [d |] eqn:E.
    + apply digit_in_bound in E.
      apply IH in H; [| nia]. nia.
    + injection H as <-. nia.
Qed.

Lemma parse_digits_None_bound r : 1 < r -> forall l v,
  parse_digits r l None = Some v ->
  0 <= v < r ^ Z.of_nat (List.length l).
Proof.
  intros Hr l v H. destruct l as [| c l]; [discriminate |].
  cbn [parse_digits] in H. destruct (digit_in r c) as [d |] eqn:E;
    [| discriminate].
  apply digit_in_bound in E.
  apply (parse_digits_bound r Hr) in H; [| lia].
  cbn [List.length]. rewrite Nat2Z.inj_succ, Z.pow_succ_r by lia.
  assert (0 < r ^ Z.of_nat (List.length l)) by (apply Z.pow_pos_nonneg; lia).
  nia.
Qed.

Lemma length_trim_start l : (List.length (trim_start l) <= List.length l)%nat.
Proof.
  induction l as [| c l IH]; [apply Nat.le_refl |].
  cbn [trim_start]. destruct (is_space c); cbn [List.length]; lia.
Qed.

(** A hexadecimal [parseInt] result is smaller in magnitude than
    [16^length]. *)
Lemma parseInt_hex_bound s x :
  parseInt s (Some 16) = Int x ->
  Z.abs x < 16 ^ Z.of_nat (List.length (chars s)).
Proof.
  unfold parseInt. intros H.
  assert (Ht := length_trim_start (chars s)).
  set (t := trim_start (chars s)) in *.
  assert (Hmono : forall n m, (n <= m)%nat -> 16 ^ Z.of_nat n <= 16 ^ Z.of_nat m)
    by (intros; apply Z.pow_le_mono_r; lia).
  assert (K : forall sign l, (sign = 1 \/ sign = -1) ->
              (List.length l <= List.length (chars s))%nat ->
              (let '(r, l0) :=
                 match l with
                 | z :: x0 :: l' =>
                     if true && is_char 48 z && (is_char 120 x0 || is_char 88 x0)
                     then (16, l') else (16, l)
                 | _ => (16, l)
                 end in
               match parse_digits r l0 None with
               | Some v => Int (sign * v)
               | None => NaN
               end) = Int x ->
              Z.abs x < 16 ^ Z.of_nat (List.length (chars s))).
  { intros sign l Hs Hl HK.
    assert (exists l0, (List.length l0 <= List.length l)%nat
                       /\ match parse_digits 16 l0 None with
                          | Some v => Int (sign * v)
                          | None => NaN
                          end = Int x) as (l0 & Hl0 & P).
    { destruct l as [| z [| x0 l']];
        [exists []; split; [lia | exact HK]
        | exists [z]; split; [lia | exact HK] |].
      destruct (true && is_char 48 z && (is_char 120 x0 || is_char 88 x0)).
      - exists l'. split; [cbn; lia | exact HK].
      - exists (z :: x0 :: l'). split; [lia | exact HK]. }
    destruct (parse_digits 16 l0 None) as [v |] eqn:E; [| discriminate].
    injection P as <-. apply parse_digits_None_bound in E; [| lia].
    assert (H16 := Hmono _ _ (Nat.le_trans _ _ _ Hl0 Hl)).
    destruct Hs as [-> | ->]; lia. }
  cbv zeta in H. change (negb (16 =? 0) && ((16 <? 2) || (36 <? 16))) with false in H.
  cbv iota in H. change ((16 =? 0) || (16 =? 16)) with true in H.
  change (if 16 =? 0 then 10 else 16) with 16 in H.
  destruct t as [| c l]; [apply (K 1 []); [now left | lia | exact H] |].
  destruct (is_char 45 c).
  - apply (K (-1) l); [now right | cbn in Ht; lia | exact H].
  - destruct (is_char 43 c).
    + apply (K 1 l); [now left | cbn in Ht; lia | exact H].
    + apply (K 1 (c :: l)); [now left | exact Ht | exact H].
Qed.

Lemma length_slice s i j :
  0 <= i <= j -> length (slice s i j) <= j - i.
Proof.
  intros H. unfold slice. rewrite length_str, sub_lit by lia.
  rewrite length_firstn. lia.
Qed.

(** A negative Number never renders as a string of binary digits. *)
Lemma ParseHexStringToSignedInt_negative hexString x :
  parseInt hexString (Some 16) = Int x -> x < 0 ->
  Utilities.ParseHexStringToSignedInt hexString 32
  = Throw (Error "Invalid binary string").
Proof.
  intros H Hx. unfold Utilities.ParseHexStringToSignedInt,
    Utilities.ParseHexStringToBinary. rewrite H. cbn [toString].
  unfold int_toString. destruct (Z.ltb_spec x 0); [| lia].
  set (ds := digits 2 (- x)).
  assert (Hb : exists pre,
             chars (padStart (String "-" (str ds)) 32 "0")
             = (pre ++ "-"%char :: ds)%list).
  { unfold padStart. destruct (32 <=? length (String "-" (str ds))).
    - exists []. cbn. now rewrite chars_str.
    - eexists. rewrite chars_str. cbn [chars list_ascii_of_string].
      fold (chars (str ds)). now rewrite chars_str. }
  destruct Hb as (pre & Hb).
  unfold Utilities.ParseBinaryToSinged, Utilities.is_binary_string.
  rewrite Hb.
  assert (Hf : match (pre ++ "-"%char :: ds)%list with
               | [] => false
               | a :: l0 =>
                   forallb (fun c => is_char 48 c || is_char 49 c) (a :: l0)
               end = false).
  { destruct (pre ++ "-"%char :: ds)%list eqn:E; [reflexivity |].
    rewrite <- E, forallb_app. cbn [forallb].
    change (is_char 48 "-" || is_char 49 "-") with false.
    now rewrite andb_false_r. }
  rewrite Hf. cbn [negb]. rewrite orb_true_r. reflexivity.
Qed.

Lemma hex_group_outcome g :
  length g <= 4 ->
  Utilities.ParseHexStringToSignedInt g 32 = Throw (Error "Invalid binary string")
  \/ exists x, 0 <= x <= 65535
               /\ Utilities.ParseHexStringToSignedInt g 32 = Ok (Some (Int x)).
Proof.
  intros Hlen. destruct (parseInt g (Some 16)) as [| x] eqn:E.
  - left. now apply ParseHexStringToSignedInt_NaN.
  - assert (Hb := parseInt_hex_bound g x E).
    assert (16 ^ Z.of_nat (List.length (chars g)) <= 16 ^ 4).
    { apply Z.pow_le_mono_r; [lia |]. unfold length in Hlen.
      rewrite length_chars in Hlen. lia. }
    change (16 ^ 4) with 65536 in *.
    destruct (Z.lt_ge_cases x 0).
    + left. now apply (ParseHexStringToSignedInt_negative g x).
    + right. exists x. split; [lia |].
      apply ParseHexStringToSignedInt_positive; [exact E |].
      change (2 ^ 31) with 2147483648. lia.
Qed.

(** X5. On an input of 12 characters or more the g-force decoder has two
    outcomes only: it throws, or it emits exactly three values named
    _x, _y, _z, each an integer between 0 and 65535.  It never emits fewer
    than three values and never a negative one; and it reads nothing past
    the twelfth character. *)
Theorem GetValueGForce_outcome rawValue patternInfo :
  12 <= length rawValue ->
  (Pattern.GetValueGForce rawValue patternInfo
   = Throw (Error "Invalid binary string")
   \/ exists x y z,
        (0 <= x <= 65535 /\ 0 <= y <= 65535 /\ 0 <= z <= 65535)
        /\ Pattern.GetValueGForce rawValue patternInfo
           = Ok (Some
                   [Pattern.mkValue (Pattern.info_name patternInfo ++ "_x")
                      "int" (Pattern.VNumber (Pattern.of_int x));
                    Pattern.mkValue (Pattern.info_name patternInfo ++ "_y")
                      "int" (Pattern.VNumber (Pattern.of_int y));
                    Pattern.mkValue (Pattern.info_name patternInfo ++ "_z")
                      "int" (Pattern.VNumber (Pattern.of_int z))]))
  /\ forall rest,
       Pattern.GetValueGForce (rawValue ++ rest) patternInfo
       = Pattern.GetValueGForce (slice rawValue 0 12) patternInfo.
Proof.
  intros Hlen. split.
  - unfold Pattern.GetValueGForce. cbv zeta.
    destruct (Z.ltb_spec (length rawValue) 12); [lia |].
    set (r12 := slice rawValue 0 12).
    destruct (hex_group_outcome (slice r12 0 4)) as [-> | (x & Hx & ->)];
      [apply (length_slice r12 0 4); lia | now left |].
    destruct (hex_group_outcome (slice r12 4 8)) as [-> | (y & Hy & ->)];
      [apply (length_slice r12 4 8); lia | now left |].
    destruct (hex_group_outcome (slice r12 8 12)) as [-> | (z & Hz & ->)];
      [apply (length_slice r12 8 12); lia | now left |].
    right. exists x, y, z. split; [now repeat split | reflexivity].
  - intros rest.
    assert (H12 : forall s, 12 <= length s ->
                  chars (slice s 0 12) = firstn 12 (chars s)).
    { intros s Hs. unfold slice. rewrite chars_str, sub_lit by lia. reflexivity. }
    assert (Hl : length (rawValue ++ rest) = length rawValue + length rest).
    { unfold length. rewrite !length_chars, chars_append, length_app. lia. }
    assert (Hr : 0 <= length rest) by (unfold length; lia).
    assert (E : slice (rawValue ++ rest) 0 12 = slice rawValue 0 12).
    { rewrite <- (str_chars (slice (rawValue ++ rest) 0 12)),
        <- (str_chars (slice rawValue 0 12)).
      rewrite !H12 by lia. rewrite chars_append, firstn_app.
      unfold length in Hlen. rewrite length_chars in Hlen.
      replace (12 - List.length (chars rawValue))%nat with 0%nat by lia.
      now rewrite firstn_O, app_nil_r. }
    assert (L12 : length (slice rawValue 0 12) = 12).
    { unfold length at 1. rewrite length_chars, H12, length_firstn by lia.
      unfold length in Hlen. rewrite length_chars in Hlen. lia. }
    assert (E2 : slice (slice rawValue 0 12) 0 12 = slice rawValue 0 12).
    { rewrite <- (str_chars (slice (slice rawValue 0 12) 0 12)).
      rewrite H12 by lia. rewrite firstn_all2.
      - apply str_chars.
      - unfold length in L12. rewrite length_chars in L12. lia. }
    unfold Pattern.GetValueGForce. cbv zeta. rewrite E, E2, L12, Hl.
    destruct (Z.ltb_spec (length rawValue + length rest) 12); [lia |].
    destruct (Z.ltb_spec 12 12); [lia | reflexivity].
Qed.

Lemma GetValueGForce_outcome_witness :
  12 <= length "FFFF8000ABCD"
  /\ Pattern.GetValueGForce ("FFFF8000ABCD" ++ "77") gforce_info
     = Pattern.GetValueGForce (slice "FFFF8000ABCD" 0 12) gforce_info.
Proof.
  assert (H : 12 <= length "FFFF8000ABCD") by (vm_compute; discriminate).
  split; [exact H |].
  exact (proj2 (GetValueGForce_outcome "FFFF8000ABCD"%string gforce_info H)
           "77"%string).
Defined.

(* ---------------------------------------------------------------------- *)
(** ** TPMS: one pair of values per tire *)

Lemma match_groups_count l : forall room cur k,
  (room + List.length cur = 8)%nat -> (1 <= room)%nat ->
  forallb (fun c => negb (Pattern.is_line_terminator c)) l = true ->
  (List.length cur + List.length l = 8 * k)%nat ->
  List.length (Pattern.match_groups room cur l) = k.
Proof.
  induction l as [| c l IH]; intros room cur k Hroom H1 Hl Hk.
  - cbn [Pattern.match_groups List.length] in *.
    destruct cur; [cbn; lia | cbn [List.length] in *; lia].
  - cbn [forallb] in Hl. apply andb_prop in Hl as [Hc Hl].
    apply negb_true_iff in Hc.
    cbn [Pattern.match_groups]. rewrite Hc.
    destruct room as [| [| room]]; [lia | |].
    + cbn [List.length] in *. destruct k as [| k]; [lia |].
      f_equal. apply (IH 8%nat [] k); cbn; try lia. exact Hl.
    + apply (IH (S room) (c :: cur) k); cbn [List.length] in *; try lia.
      exact Hl.
Qed.

Lemma tires_names ts tc ps pc groups : forall i,
  map Pattern.name (Pattern.tires ts tc ps pc i groups)
  = tire_names i (List.length groups).
Proof.
  induction groups as [| g rest IH]; intros i; [reflexivity |].
  cbn [Pattern.tires map Pattern.name tire_names List.length].
  now rewrite IH.
Qed.

Lemma floor_at_zero_not_below f :
  PrimFloat.ltb (Pattern.floor_at_zero f) PrimFloat.zero = false.
Proof.
  unfold Pattern.floor_at_zero.
  destruct (PrimFloat.ltb f PrimFloat.zero) eqn:E; [reflexivity | exact E].
Qed.

Lemma tires_not_below_zero ts tc ps pc groups : forall i,
  Forall not_below_zero (Pattern.tires ts tc ps pc i groups).
Proof.
  induction groups as [| g rest IH]; intros i; [constructor |].
  cbn [Pattern.tires].
  constructor; [eexists; split; [reflexivity | apply floor_at_zero_not_below] |].
  constructor; [eexists; split; [reflexivity | apply floor_at_zero_not_below] |].
  apply IH.
Qed.

(** X6. With the four coefficients configured, a raw value of [k >= 1]
    groups of 8 characters on one line decodes to exactly [2k] values,
    named tire_temp_1, tire_pressure_1, ..., tire_temp_k, tire_pressure_k
    in that order, none of them below zero; the empty raw value makes the
    decoder throw. *)
Theorem GetValueTPMS_tires patternInfo :
  tpms_configured patternInfo ->
  (forall rawValue k,
      one_line rawValue -> length rawValue = 8 * Z.of_nat (S k) ->
      exists output,
        Pattern.GetValueTPMS rawValue patternInfo = Ok (Some output)
        /\ map Pattern.name output = tire_names 0 (S k)
        /\ Forall not_below_zero output)
  /\ Pattern.GetValueTPMS "" patternInfo = Throw TypeError.
Proof.
  intros (H1 & H2 & H3 & H4).
  destruct (Pattern.pressure_slope patternInfo) as [ps |] eqn:E1;
    [| contradiction].
  destruct (Pattern.pressure_const patternInfo) as [pc |] eqn:E2;
    [| contradiction].
  destruct (Pattern.temp_slope patternInfo) as [ts |] eqn:E3;
    [| contradiction].
  destruct (Pattern.temp_const patternInfo) as [tc |] eqn:E4;
    [| contradiction].
  split.
  - intros rawValue k Hline Hlen.
    unfold Pattern.GetValueTPMS. cbv zeta. rewrite Hlen, E1, E2, E3, E4.
    replace (8 * Z.of_nat (S k) mod 8) with 0
      by (rewrite Z.mul_comm, Z.mod_mul; lia).
    cbn [Z.eqb negb Pattern.eq_undefined Pattern.bool_eq_undefined orb
         Pattern.to_number].
    assert (Hc : List.length (Pattern.match_groups 8 [] (chars rawValue)) = S k).
    { apply match_groups_count; cbn [List.length]; try lia; [exact Hline |].
      unfold length in Hlen. rewrite length_chars in Hlen. lia. }
    destruct (Pattern.match_groups 8 [] (chars rawValue)) as [| g rest] eqn:Eg;
      [discriminate |].
    assert (Hn := tires_names ts tc ps pc (g :: rest) 0).
    assert (Hz := tires_not_below_zero ts tc ps pc (g :: rest) 0).
    rewrite Hc in Hn.
    destruct (Pattern.tires ts tc ps pc 0 (g :: rest)) as [| d out] eqn:Et;
      [discriminate |].
    exists (d :: out). now repeat split.
  - unfold Pattern.GetValueTPMS. cbv zeta. rewrite E1, E2, E3, E4. reflexivity.
Qed.

Lemma GetValueTPMS_tires_witness :
  tpms_configured tpms_info
  /\ one_line "13E29AA0A0AC9E84"
  /\ length "13E29AA0A0AC9E84" = 8 * Z.of_nat 2
  /\ exists output,
       Pattern.GetValueTPMS "13E29AA0A0AC9E84" tpms_info = Ok (Some output)
       /\ map Pattern.name output = tire_names 0 2
       /\ Forall not_below_zero output.
Proof.
  assert (Hc : tpms_configured tpms_info) by (repeat split; discriminate).
  assert (Hl : one_line "13E29AA0A0AC9E84") by reflexivity.
  assert (Hn : length "13E29AA0A0AC9E84" = 8 * Z.of_nat 2) by reflexivity.
  split; [exact Hc |]. split; [exact Hl |]. split; [exact Hn |].
  exact (proj1 (GetValueTPMS_tires tpms_info Hc) "13E29AA0A0AC9E84"%string
           1%nat Hl Hn).
Defined.

(* ---------------------------------------------------------------------- *)
(** ** The bytes of an acknowledgment *)

Lemma val_of_val z : Buffer.val (Buffer.of_val z) = z mod 256.
Proof.
  unfold Buffer.of_val, Buffer.val.
  assert (Hm := Z.mod_pos_bound z 256 ltac:(lia)).
  destruct (Byte.of_N (Z.to_N (z mod 256))) as [b |] eqn:E.
  - apply Byte.to_of_N in E. rewrite E. lia.
  - apply Byte.of_N_None_iff in E. lia.
Qed.

Lemma length_be_bytes k z : List.length (be_bytes k z) = k.
Proof.
  revert z. induction k; intros z; [reflexivity |].
  cbn [be_bytes]. rewrite length_app, IHk. cbn. lia.
Qed.

Lemma be_value_be_bytes k : forall z,
  0 <= z < 256 ^ Z.of_nat k -> Buffer.be_value (be_bytes k z) = z.
Proof.
  induction k; intros z Hz.
  - change (256 ^ Z.of_nat 0) with 1 in Hz. cbn. lia.
  - cbn [be_bytes]. rewrite be_value_snoc, val_of_val.
    rewrite Nat2Z.inj_succ, Z.pow_succ_r in Hz by lia.
    rewrite IHk by (Z.div_mod_to_equations; lia).
    Z.div_mod_to_equations; lia.
Qed.

Lemma SendACK_Number st z :
  deviceID st = Some (Number (Int z)) ->
  socket (SendACK st)
  = socket (SendACK (set_deviceID (Some (BigInt z)) st)).
Proof.
  intros H. unfold SendACK. rewrite H.
  replace (deviceID (set_deviceID (Some (BigInt z)) st)) with (Some (BigInt z))
    by now destruct st.
  replace (seqNum (set_deviceID (Some (BigInt z)) st)) with (seqNum st)
    by now destruct st.
  destruct (seqNum st) as [sq |]; [| now destruct st].
  cbn [DeviceID_truthy truthy DeviceID_toString toString].
  destruct (negb (z =? 0) && truthy sq); now destruct st.
Qed.

Lemma SendACK_socket st d id seq :
  deviceID st = Some d -> DeviceID_value d = Some id ->
  seqNum st = Some (Int seq) ->
  0 < id < 2 ^ 64 -> 0 < seq < 2 ^ 16 ->
  socket (SendACK st)
  = (socket st ++ [keepalive_frame (be_bytes 8 id) (be_bytes 2 seq)])%list.
Proof.
  intros Hd Hv Hs Hid Hseq.
  assert (Li := length_be_bytes 8 id). assert (Ls := length_be_bytes 2 seq).
  assert (Vi : Buffer.be_value (be_bytes 8 id) = id)
    by (apply be_value_be_bytes; change (256 ^ Z.of_nat 8) with (2 ^ 64); lia).
  assert (Vs : Buffer.be_value (be_bytes 2 seq) = seq)
    by (apply be_value_be_bytes; change (256 ^ Z.of_nat 2) with (2 ^ 16); lia).
  assert (HB : forall st1,
             deviceID st1 = Some (BigInt id) -> seqNum st1 = Some (Int seq) ->
             socket (SendACK st1)
             = (socket st1
                ++ [keepalive_frame (be_bytes 8 id) (be_bytes 2 seq)])%list).
  { intros st1 H1 H2.
    rewrite (SendACK_bytes st1 (be_bytes 8 id) (be_bytes 2 seq));
      try assumption; try (rewrite ?Vi, ?Vs; assumption || lia).
    now destruct st1. }
  destruct d as [z | [| z]]; cbn in Hv; try discriminate;
    injection Hv as ->.
  - now apply HB.
  - rewrite (SendACK_Number st id Hd). rewrite HB; now destruct st.
Qed.

(** X7. When the identifier is a BigInt in (0, 2^64) (from a keep-alive) or
    a Number in (0, 2^53) (from a report header; the range in which Numbers
    are exact) and the sequence number lies in (0, 2^16), [SendACK] writes
    exactly one 12-byte frame: FE 02, the identifier as 8 big-endian bytes,
    the sequence number as 2 big-endian bytes.  That frame is itself a
    keep-alive: read back by [HandleKeepAliveMsg] it gives the same
    identifier and sequence number. *)
Theorem SendACK_encoding st d id seq :
  deviceID st = Some d -> DeviceID_value d = Some id -> DeviceID_exact d ->
  seqNum st = Some (Int seq) ->
  0 < id < 2 ^ 64 -> 0 < seq < 2 ^ 16 ->
  let ack := keepalive_frame (be_bytes 8 id) (be_bytes 2 seq) in
  socket (SendACK st) = (socket st ++ [ack])%list
  /\ List.length ack = 12%nat
  /\ is_keepalive ack = true
  /\ forall st0,
       HandleKeepAliveMsg st0 ack
       = Ok (set_seqNum (Some (Int seq))
               (set_deviceID (Some (BigInt id)) st0)).
Proof.
  intros Hd Hv _ Hs Hid Hseq ack.
  assert (Li := length_be_bytes 8 id). assert (Ls := length_be_bytes 2 seq).
  assert (Vi : Buffer.be_value (be_bytes 8 id) = id)
    by (apply be_value_be_bytes; change (256 ^ Z.of_nat 8) with (2 ^ 64); lia).
  assert (Vs : Buffer.be_value (be_bytes 2 seq) = seq)
    by (apply be_value_be_bytes; change (256 ^ Z.of_nat 2) with (2 ^ 16); lia).
  split; [| split; [| split]].
  - now apply (SendACK_socket st d).
  - subst ack. unfold keepalive_frame. cbn [List.length].
    rewrite length_app, Li, Ls. reflexivity.
  - apply (keepalive_parts _ _ Li Ls).
  - intros st0. subst ack.
    rewrite (HandleKeepAliveMsg_keepalive st0 _ _ Li Ls). now rewrite Vi, Vs.
Qed.

Lemma SendACK_encoding_witness :
  let st := set_seqNum (Some (Int 7))
              (set_deviceID (Some (Number (Int 352602017041662)))
                 (ClientSocket.new 0)) in
  socket (SendACK st)
  = [keepalive_frame (be_bytes 8 352602017041662) (be_bytes 2 7)].
Proof.
  cbv zeta.
  refine (proj1 (SendACK_encoding
                   (set_seqNum (Some (Int 7))
                      (set_deviceID (Some (Number (Int 352602017041662)))
                         (ClientSocket.new 0)))
                   (Number (Int 352602017041662))
                   352602017041662 7 eq_refl eq_refl eq_refl eq_refl _ _));
    split; reflexivity.
Defined.

(* ---------------------------------------------------------------------- *)
(** ** Reading the header of an ASCII report *)

Lemma val_from_ascii_char c : Buffer.val (Buffer.of_val (code c)) = code c.
Proof.
  rewrite val_of_val. apply Z.mod_small. unfold code.
  assert (H := nat_ascii_bounded c). lia.
Qed.

Lemma index_from_skip c l rest : forall pos,
  Forall (fun b => Buffer.val b <> Buffer.val c) l ->
  Buffer.index_from c (l ++ c :: rest) pos = pos + Z.of_nat (List.length l).
Proof.
  induction l as [| b l IH]; intros pos H.
  - cbn. rewrite Z.eqb_refl. lia.
  - inversion H as [| ? ? Hb Hl]; subst.
    cbn [app Buffer.index_from List.length].
    destruct (Z.eqb_spec (Buffer.val b) (Buffer.val c)); [contradiction |].
    rewrite IH by assumption. lia.
Qed.

Lemma from_ascii_no_comma s :
  no_comma s ->
  Forall (fun b => Buffer.val b <> Buffer.val Byte.x2c) (Buffer.from_ascii s).
Proof.
  unfold no_comma, Buffer.from_ascii. intros H.
  induction H as [| c l Hc Hl IH]; [constructor |].
  cbn [map]. constructor; [| exact IH].
  rewrite val_from_ascii_char. exact Hc.
Qed.

Lemma toString_ascii_from_ascii s :
  Forall (fun c => code c < 128) (chars s) ->
  Buffer.toString_ascii (Buffer.from_ascii s) = s.
Proof.
  unfold Buffer.toString_ascii, Buffer.from_ascii. intros H.
  rewrite <- (str_chars s) at 2. f_equal.
  induction H as [| c l Hc Hl IH]; [reflexivity |].
  cbn [map]. rewrite IH. f_equal.
  rewrite val_from_ascii_char, Z.mod_small by (unfold code in *; lia).
  unfold code. rewrite Nat2Z.id. apply ascii_nat_embedding.
Qed.

Lemma plain_digit_ascii7 l :
  Forall plain_digit l -> Forall (fun c => code c < 128) l.
Proof. apply Forall_impl. intros c Hc. red in Hc. lia. Qed.

Lemma plain_digit_no_comma l :
  Forall plain_digit l -> Forall (fun c => code c <> 44) l.
Proof. apply Forall_impl. intros c Hc. red in Hc. lia. Qed.

Lemma chars_decimal z : 0 <= z -> Forall plain_digit (chars (int_toString z 10)).
Proof. exact (chars_bit_slice z). Qed.

(** One field of the header: found where it starts, read up to its comma. *)
Lemma GetHeaderValueAscii_field pre f rest :
  no_comma f ->
  GetHeaderValueAscii (pre ++ Buffer.from_ascii f ++ Byte.x2c :: rest)
    (Z.of_nat (List.length pre))
  = (Buffer.toString_ascii (Buffer.from_ascii f),
     Z.of_nat (List.length (pre ++ Buffer.from_ascii f ++ [Byte.x2c]))).
Proof.
  intros Hf. unfold GetHeaderValueAscii, Buffer.indexOf, Buffer.subarray.
  destruct (Z.ltb_spec (Z.of_nat (List.length pre)) 0); [lia |].
  rewrite Nat2Z.id, skipn_app, skipn_all, Nat.sub_diag. cbn [skipn app].
  rewrite index_from_skip by now apply from_ascii_no_comma.
  rewrite <- Nat2Z.inj_add, sub_nat by lia.
  rewrite skipn_app, skipn_all, Nat.sub_diag. cbn [skipn app].
  replace (List.length pre + List.length (Buffer.from_ascii f)
           - List.length pre)%nat
    with (List.length (Buffer.from_ascii f)) by lia.
  rewrite firstn_app, firstn_all, Nat.sub_diag. cbn [firstn].
  rewrite app_nil_r. f_equal. rewrite !length_app. cbn [List.length]. lia.
Qed.

Section ReportHeader.

Variable env : Picture.Env.
Variable ExtractValue :
  list string -> list string -> result (option (list Pattern.DecodedValue)).

Lemma HandleReportMsgAscii_frame st crc len seq id body :
  no_comma crc -> no_comma len -> 0 <= seq -> 0 <= id ->
  HandleReportMsgAscii ExtractValue st (report_frame crc len seq id body)
  = let st2 :=
      set_seqNum (Some (Int seq))
        (match deviceID st with
         | None => set_deviceID (Some (Number (Int id))) st
         | Some _ => st
         end) in
    match reportFinalFormat st2 with
    | None => Ok st2
    | Some _ =>
        WriteReport ExtractValue st2 (split (Buffer.toString_ascii body) CRLF)
    end.
Proof.
  intros Hcrc Hlen Hseq Hid.
  assert (Dseq := chars_decimal seq Hseq). assert (Did := chars_decimal id Hid).
  unfold HandleReportMsgAscii, GetHeaderValueAsciiInt, report_frame.
  set (P0 := Buffer.from_ascii "@P,").
  change 3 with (Z.of_nat (List.length P0)).
  rewrite (GetHeaderValueAscii_field P0 crc) by assumption.
  set (P1 := (P0 ++ Buffer.from_ascii crc ++ [Byte.x2c])%list).
  replace (P0 ++ Buffer.from_ascii crc ++ Byte.x2c
           :: Buffer.from_ascii len ++ Byte.x2c
           :: Buffer.from_ascii (int_toString seq 10) ++ Byte.x2c
           :: Buffer.from_ascii (int_toString id 10) ++ Byte.x2c :: body)%list
    with (P1 ++ Buffer.from_ascii len ++ Byte.x2c
          :: Buffer.from_ascii (int_toString seq 10) ++ Byte.x2c
          :: Buffer.from_ascii (int_toString id 10) ++ Byte.x2c :: body)%list
    by (subst P1; now rewrite <- !app_assoc).
  rewrite (GetHeaderValueAscii_field P1 len) by assumption.
  set (P2 := (P1 ++ Buffer.from_ascii len ++ [Byte.x2c])%list).
  replace (P1 ++ Buffer.from_ascii len ++ Byte.x2c
           :: Buffer.from_ascii (int_toString seq 10) ++ Byte.x2c
           :: Buffer.from_ascii (int_toString id 10) ++ Byte.x2c :: body)%list
    with (P2 ++ Buffer.from_ascii (int_toString seq 10) ++ Byte.x2c
          :: Buffer.from_ascii (int_toString id 10) ++ Byte.x2c :: body)%list
    by (subst P2; now rewrite <- !app_assoc).
  rewrite (GetHeaderValueAscii_field P2 (int_toString seq 10))
    by now apply plain_digit_no_comma.
  set (P3 := (P2 ++ Buffer.from_ascii (int_toString seq 10) ++ [Byte.x2c])%list).
  replace (P2 ++ Buffer.from_ascii (int_toString seq 10) ++ Byte.x2c
           :: Buffer.from_ascii (int_toString id 10) ++ Byte.x2c :: body)%list
    with (P3 ++ Buffer.from_ascii (int_toString id 10) ++ Byte.x2c :: body)%list
    by (subst P3; now rewrite <- !app_assoc).
  rewrite (GetHeaderValueAscii_field P3 (int_toString id 10))
    by now apply plain_digit_no_comma.
  rewrite !toString_ascii_from_ascii by now apply plain_digit_ascii7.
  rewrite !(parseInt_int_toString None 10) by (reflexivity || lia).
  cbv zeta.
  set (P4 := (P3 ++ Buffer.from_ascii (int_toString id 10) ++ [Byte.x2c])%list).
  replace (Buffer.subarray_from
             (P3 ++ Buffer.from_ascii (int_toString id 10) ++ Byte.x2c :: body)
             (Z.of_nat (List.length P4)))
    with body; [reflexivity |].
  unfold Buffer.subarray_from.
  replace (P3 ++ Buffer.from_ascii (int_toString id 10) ++ Byte.x2c :: body)%list
    with (P4 ++ body)%list by (subst P4; now rewrite <- !app_assoc).
  rewrite sub_from, skipn_app, skipn_all, Nat.sub_diag. reflexivity.
Qed.

Lemma report_frame_prefix crc len seq id body :
  is_report (report_frame crc len seq id body) = true
  /\ forall st,
       reportType st = None \/ reportType st = Some "ascii"%string ->
       CheckReportType st (report_frame crc len seq id body)
       = set_reportType (Some "ascii"%string) st.
Proof.
  unfold is_report, CheckReportType, Buffer.subarray, report_frame.
  rewrite !(sub_app (Buffer.from_ascii "@P,")) by (cbn; lia).
  split; [reflexivity |].
  intros st [H | H]; rewrite H.
  - reflexivity.
  - destruct st; simpl in *. now subst.
Qed.

(** X8. A report frame "@P,<crc>,<len>,<seq>,<id>,<body>" with decimal
    sequence number and identifier below 2^53 (the range in which Numbers
    are exact), on a connection that has not sniffed the
    binary format, marks the connection ASCII, sets the sequence number to
    [seq] and sets the identifier to [id] only if none was known; the body,
    cut into lines at CR LF, is what is handed to [WriteReport], and only
    when the format is resolved.  With the format unresolved, no identifier
    known and both numbers in range, the frame is acknowledged with FE 02
    and the big-endian bytes of [id] and [seq]. *)
Theorem report_header_decoded now st crc len seq id body :
  no_comma crc -> no_comma len -> 0 <= seq < 2 ^ 53 -> 0 <= id < 2 ^ 53 ->
  reportType st = None \/ reportType st = Some "ascii"%string ->
  RecievedData env ExtractValue now st (report_frame crc len seq id body)
  = (st1 <- match reportFinalFormat st with
            | None => Ok (header_applied st seq id)
            | Some _ =>
                WriteReport ExtractValue (header_applied st seq id)
                  (split (Buffer.toString_ascii body) CRLF)
            end ;;
     Ok (SendACK (set_lastAlive now st1)))
  /\ (reportFinalFormat st = None -> deviceID st = None ->
      0 < id -> 0 < seq < 2 ^ 16 ->
      exists st',
        RecievedData env ExtractValue now st (report_frame crc len seq id body)
        = Ok st'
        /\ deviceID st' = Some (Number (Int id))
        /\ seqNum st' = Some (Int seq)
        /\ socket st'
           = (socket st
              ++ [keepalive_frame (be_bytes 8 id) (be_bytes 2 seq)])%list).
Proof.
  intros Hcrc Hlen [Hseq Hseq53] [Hid Hid53] Ht.
  destruct (report_frame_prefix crc len seq id body) as [Hr Hc].
  assert (E : RecievedData env ExtractValue now st
                (report_frame crc len seq id body)
              = (st1 <- match reportFinalFormat st with
                        | None => Ok (header_applied st seq id)
                        | Some _ =>
                            WriteReport ExtractValue (header_applied st seq id)
                              (split (Buffer.toString_ascii body) CRLF)
                        end ;;
                 Ok (SendACK (set_lastAlive now st1)))).
  { unfold RecievedData. rewrite (report_frame_only _ Hr), Hr.
    unfold HandleReportMsg. rewrite (Hc st Ht).
    replace (eq_opt (reportType (set_reportType (Some "ascii"%string) st)) "ascii")
      with true by now destruct st.
    rewrite HandleReportMsgAscii_frame by assumption. cbv zeta.
    fold (header_applied st seq id).
    replace (reportFinalFormat (header_applied st seq id))
      with (reportFinalFormat st); [reflexivity |].
    unfold header_applied. destruct (deviceID st) eqn:Ed;
      destruct st; simpl in *; now subst. }
  split; [exact E |].
  intros Hf Hd Hid0 Hseqr. rewrite E, Hf. cbn [bind].
  assert (Hidr : 0 < id < 2 ^ 64) by lia.
  eexists. split; [reflexivity |].
  assert (Hd' : deviceID (set_lastAlive now (header_applied st seq id))
                = Some (Number (Int id)))
    by (unfold header_applied; destruct st; simpl in *; now subst).
  assert (Hs' : seqNum (set_lastAlive now (header_applied st seq id))
                = Some (Int seq))
    by (unfold header_applied; destruct st; simpl in *; now subst).
  rewrite (SendACK_socket _ _ id seq Hd' eq_refl Hs' Hidr Hseqr).
  rewrite SendACK_shape.
  repeat split; try (unfold header_applied; destruct st; simpl in *; now subst).
Qed.

End ReportHeader.

Lemma report_header_decoded_witness :
  let frame :=
    report_frame "ABCD" "25" 7 352602017041662
      (Buffer.from_ascii "20240418,20240418,20240418,100598781") in
  exists st',
    RecievedData no_env no_decoder 5 (ClientSocket.new 0) frame = Ok st'
    /\ deviceID st' = Some (Number (Int 352602017041662))
    /\ seqNum st' = Some (Int 7)
    /\ socket st'
       = [keepalive_frame (be_bytes 8 352602017041662) (be_bytes 2 7)].
Proof.
  cbv zeta.
  refine (proj2 (report_header_decoded no_env no_decoder 5 (ClientSocket.new 0)
                   "ABCD" "25" 7 352602017041662
                   (Buffer.from_ascii "20240418,20240418,20240418,100598781")
                   _ _ _ _ _) eq_refl eq_refl _ _).
  - unfold no_comma. repeat constructor; vm_compute; discriminate.
  - unfold no_comma. repeat constructor; vm_compute; discriminate.
  - lia.
  - lia.
  - now left.
  - lia.
  - lia.
Defined.

(* ---------------------------------------------------------------------- *)
(** ** What a report writes *)


Section Reports.

Variable ExtractValue :
  list string -> list string -> result (option (list Pattern.DecodedValue)).



End Reports.


(* ---------------------------------------------------------------------- *)
(** ** A picture transfer from first frame to stored file *)

Lemma AddPicturePackage_static p pkt :
  let p' := fst (fst (Picture.AddPicturePackage p pkt)) in
  stored_picture p' = stored_picture p.
Proof. reflexivity. Qed.

Lemma AddPicturePackage_writes p pkt :
  Picture.saveTarget p = "folder"%string
  \/ Picture.saveTarget p = "database"%string ->
  snd (Picture.AddPicturePackage p pkt)
  = if Picture.strict_eq (Picture.totalPackageCount p)
         (num_of (packet_index pkt))
    then [stored_picture p (Picture.pictureContent p ++ packet_chunk pkt)%list]
    else [].
Proof.
  intros Hs. unfold Picture.AddPicturePackage, stored_picture.
  rewrite ExtractPictureFrame_fields. cbn.
  destruct (Picture.strict_eq _ _); [| reflexivity].
  destruct Hs as [-> | ->]; reflexivity.
Qed.

Lemma new_saveTarget env first dev :
  Picture.saveTarget (Picture.new env first dev) = "folder"%string
  \/ Picture.saveTarget (Picture.new env first dev) = "database"%string.
Proof.
  unfold Picture.new. rewrite ExtractPictureFrame_fields. cbn.
  destruct (Picture.PICTURE_SAVE_TARGET env) as [s |]; [| now right].
  destruct (String.eqb s "folder"); [now left | now right].
Qed.

Lemma strict_eq_other total o :
  o <> Some total -> Picture.strict_eq (Int total) (num_of o) = false.
Proof.
  intros H. destruct o as [k |]; [| reflexivity]. cbn.
  apply Z.eqb_neq. congruence.
Qed.

Lemma strict_eq_sym a b : Picture.strict_eq a b = Picture.strict_eq b a.
Proof. destruct a, b; cbn; try reflexivity. apply Z.eqb_sym. Qed.

Section PictureTransfer.

Variable env : Picture.Env.
Variable ExtractValue :
  list string -> list string -> result (option (list Pattern.DecodedValue)).

Lemma RecievedData_picture_frame now st buffer :
  picture_frame buffer ->
  exists st',
    RecievedData env ExtractValue now st buffer = Ok st'
    /\ deviceID st' = deviceID st
    /\ match picture st with
       | None =>
           picture st'
           = Some (Picture.new env (picture_payload buffer) (deviceID st))
           /\ storage st' = storage st
       | Some p =>
           let r := Picture.AddPicturePackage p (picture_payload buffer) in
           storage st' = (storage st ++ snd r)%list
           /\ picture st'
              = if Picture.isDone (fst (fst r)) then None else Some (fst (fst r))
       end.
Proof.
  intros [Hp Hlen]. unfold RecievedData.
  destruct (picture_frame_only buffer Hp) as [-> ->]. rewrite Hp.
  unfold HandlePictureMsg, Buffer.readBigUint64BE.
  unfold Buffer.subarray at 1. rewrite sub_lit by lia.
  rewrite length_firstn, length_skipn.
  change (Z.to_nat (16 - 8)) with 8%nat. change (Z.to_nat 8) with 8%nat.
  destruct (Nat.ltb_spec (Nat.min 8 (List.length buffer - 8)) 8); [lia |].
  cbn [bind]. unfold Buffer.subarray_from.
  change 16 with (Z.of_nat 16). rewrite sub_from.
  fold (picture_payload buffer).
  replace (picture (set_seqNum (Some (Picture.hex_field buffer 6 8)) st))
    with (picture st) by now destruct st.
  destruct (picture st) as [p |] eqn:Ep.
  - destruct (Picture.AddPicturePackage p (picture_payload buffer))
      as [[p' r] writes] eqn:Ea. cbn [fst snd].
    destruct (Picture.isDone p'); cbn [bind]; eexists;
      (split; [reflexivity |]); rewrite SendACK_shape;
      repeat split; now destruct st.
  - cbn [bind]. eexists. split; [reflexivity |]. rewrite SendACK_shape.
    repeat split; now destruct st.
Qed.

Lemma run_picture_frames total : forall frames st p,
  picture st = Some p ->
  Picture.totalPackageCount p = Int total ->
  Picture.saveTarget p = "folder"%string
  \/ Picture.saveTarget p = "database"%string ->
  Forall (fun f => picture_frame (snd f)) frames ->
  Forall (fun f => packet_index (picture_payload (snd f)) <> Some total)
    frames ->
  exists st',
    run env ExtractValue st frames = Ok st'
    /\ picture st'
       = Some (apply_packets p (map (fun f => picture_payload (snd f)) frames))
    /\ storage st' = storage st.
Proof.
  induction frames as [| [now buffer] frames IH]; intros st p Hp Ht Hs Hf Hi.
  - exists st. cbn. repeat split. exact Hp.
  - inversion Hf as [| ? ? Hf1 Hf2]; subst.
    inversion Hi as [| ? ? Hi1 Hi2]; subst. cbn [snd] in Hf1, Hi1.
    destruct (RecievedData_picture_frame now st buffer Hf1)
      as (st1 & E & _ & H). rewrite Hp in H. cbv zeta in H.
    destruct H as [Hst Hpic].
    rewrite (AddPicturePackage_writes p _ Hs), Ht, strict_eq_other in Hst
      by assumption.
    rewrite app_nil_r in Hst.
    destruct (AddPicturePackage_fields p (picture_payload buffer))
      as (Hc & Ht' & _). cbv zeta in Hc, Ht'.
    unfold Picture.isDone in Hpic.
    rewrite Hc, Ht', Ht, strict_eq_sym, strict_eq_other in Hpic by assumption.
    assert (Hs' : Picture.saveTarget
                    (fst (fst (Picture.AddPicturePackage p
                                 (picture_payload buffer))))
                  = "folder"%string
                  \/ Picture.saveTarget
                       (fst (fst (Picture.AddPicturePackage p
                                    (picture_payload buffer))))
                     = "database"%string) by exact Hs.
    destruct (IH st1 _ Hpic (eq_trans Ht' Ht) Hs' Hf2 Hi2)
      as (st' & Er & Hp' & Hst').
    exists st'. cbn [run]. rewrite E. cbn [bind].
    split; [exact Er |]. split; [exact Hp' | congruence].
Qed.

(** X10. On a connection with no transfer in progress, a sequence of
    well-formed picture frames whose first packet declares a total [total],
    whose last packet has index [total] and none of whose earlier packets
    has, is processed without error and ends with no transfer in progress
    and exactly one write added to the storage: the file named from the
    first packet and the identifier known when it arrived, holding the
    payload chunks of all the frames in order. *)
Theorem picture_transfer_stored st first mids final total :
  picture st = None ->
  Forall (fun f => picture_frame (snd f)) (first :: mids ++ [final]) ->
  packet_total (picture_payload (snd first)) = Some total ->
  Forall (fun f => packet_index (picture_payload (snd f)) <> Some total)
    (first :: mids) ->
  packet_index (picture_payload (snd final)) = Some total ->
  exists st',
    run env ExtractValue st (first :: mids ++ [final]) = Ok st'
    /\ picture st' = None
    /\ storage st'
       = (storage st
          ++ [stored_picture
                (Picture.new env (picture_payload (snd first)) (deviceID st))
                (List.concat
                   (map (fun f => packet_chunk (picture_payload (snd f)))
                      (first :: mids ++ [final])))])%list.
Proof.
  intros Hp Hf Ht Hi Hl.
  inversion Hf as [| ? ? Hf1 Hf2]; subst.
  inversion Hi as [| ? ? Hi1 Hi2]; subst.
  apply Forall_app in Hf2 as [Hfm Hfl].
  inversion Hfl as [| ? ? Hfl1 _]; subst.
  destruct first as [now1 b1], final as [nowl bl]. cbn [snd] in *.
  set (p0 := Picture.new env (picture_payload b1) (deviceID st)).
  destruct (RecievedData_picture_frame now1 st b1 Hf1) as (st1 & E1 & _ & H1).
  rewrite Hp in H1. destruct H1 as [Hp1 Hs1]. fold p0 in Hp1.
  destruct (new_fields env (picture_payload b1) (deviceID st))
    as (_ & Ht0 & Hc0). fold p0 in Ht0, Hc0. rewrite Ht in Ht0. cbn [num_of] in Ht0.
  assert (Hs0 := new_saveTarget env (picture_payload b1) (deviceID st)).
  fold p0 in Hs0.
  destruct (run_picture_frames total mids st1 p0 Hp1 Ht0 Hs0 Hfm Hi2)
    as (st2 & E2 & Hp2 & Hs2).
  set (pkts := map (fun f => picture_payload (snd f)) mids) in *.
  destruct (apply_packets_fields env (picture_payload b1) (deviceID st) pkts)
    as (_ & Htm & Hcm). cbv zeta in Htm, Hcm. fold p0 in Htm, Hcm.
  rewrite Ht in Htm. cbn [num_of] in Htm.
  assert (Hsm : stored_picture (apply_packets p0 pkts) = stored_picture p0).
  { clear. induction pkts as [| pkt pkts IH] using rev_ind; [reflexivity |].
    rewrite apply_packets_snoc, AddPicturePackage_static. exact IH. }
  assert (Htm' : Picture.saveTarget (apply_packets p0 pkts) = "folder"%string
                 \/ Picture.saveTarget (apply_packets p0 pkts)
                    = "database"%string).
  { clear - Hs0. induction pkts as [| pkt pkts IH] using rev_ind;
      [exact Hs0 |]. rewrite apply_packets_snoc. exact IH. }
  destruct (RecievedData_picture_frame nowl st2 bl Hfl1) as (st3 & E3 & _ & H3).
  rewrite Hp2 in H3. cbv zeta in H3. destruct H3 as [Hs3 Hp3].
  rewrite (AddPicturePackage_writes _ _ Htm'), Htm, Hl in Hs3.
  cbn [num_of Picture.strict_eq] in Hs3. rewrite Z.eqb_refl in Hs3.
  destruct (AddPicturePackage_fields (apply_packets p0 pkts)
              (picture_payload bl)) as (Hc3 & Ht3 & _).
  cbv zeta in Hc3, Ht3. unfold Picture.isDone in Hp3.
  rewrite Hc3, Ht3, Htm, Hl in Hp3.
  cbn [num_of Picture.strict_eq] in Hp3. rewrite Z.eqb_refl in Hp3.
  exists st3. split; [| split; [exact Hp3 |]].
  - cbn [run]. rewrite E1. cbn [bind].
    clear - E2 E3. revert st1 E2.
    induction mids as [| [n b] mids IH]; intros st1 E2.
    + cbn in E2. injection E2 as ->. cbn. now rewrite E3.
    + cbn [run app] in *.
      destruct (RecievedData env ExtractValue n st1 b) as [s |];
        [| discriminate].
      cbn [bind] in *. now apply IH.
  - rewrite Hs3, Hs2, Hs1, Hsm, Hcm. do 3 f_equal.
    cbn [map List.concat]. rewrite map_app, concat_app. cbn [map List.concat].
    rewrite app_nil_r, <- app_assoc. do 2 f_equal. subst pkts.
    now rewrite map_map.
Qed.

(** X11. A frame with the picture marker but fewer than 16 bytes raises a
    range error when its identifier is read: the frame is neither stored
    nor acknowledged. *)
Theorem short_picture_frame_raises now st buffer :
  is_picture buffer = true -> (List.length buffer < 16)%nat ->
  RecievedData env ExtractValue now st buffer = Throw RangeError.
Proof.
  intros Hp Hlen. unfold RecievedData.
  destruct (picture_frame_only buffer Hp) as [-> ->]. rewrite Hp.
  unfold HandlePictureMsg, Buffer.readBigUint64BE.
  unfold Buffer.subarray at 1. rewrite sub_lit by lia.
  rewrite length_firstn, length_skipn.
  change (Z.to_nat (16 - 8)) with 8%nat. change (Z.to_nat 8) with 8%nat.
  destruct (Nat.ltb_spec (Nat.min 8 (List.length buffer - 8)) 8); [| lia].
  reflexivity.
Qed.

End PictureTransfer.

Lemma picture_transfer_stored_witness :
  exists st',
    run no_env no_decoder (ClientSocket.new 0)
      [(1, framed packet1); (2, framed packet2); (3, framed packet3)] = Ok st'
    /\ picture st' = None
    /\ storage st'
       = [Picture.WriteToBucket None "undefined/undefined_1694498817.jpg"
            [Byte.xff; Byte.xd8; Byte.x11; Byte.x22; Byte.xff; Byte.xd9]].
Proof.
  refine (picture_transfer_stored no_env no_decoder (ClientSocket.new 0)
            (1, framed packet1) [(2, framed packet2)] (3, framed packet3) 3
            eq_refl _ eq_refl _ eq_refl).
  - repeat constructor.
  - repeat constructor; vm_compute; discriminate.
Defined.

Lemma short_picture_frame_raises_witness :
  RecievedData no_env no_decoder 5
    (set_deviceID (Some (BigInt 9)) (ClientSocket.new 0))
    [Byte.x40; Byte.x52; Byte.x00; Byte.x00; Byte.x00; Byte.x0c; Byte.x00;
     Byte.x07]
  = Throw RangeError.
Proof.
  apply short_picture_frame_raises.
  - reflexivity.
  - cbn. lia.
Defined.

(* ---------------------------------------------------------------------- *)
(** ** What each kind of frame can change *)

Section FrameConditions.

Variable env : Picture.Env.
Variable ExtractValue :
  list string -> list string -> result (option (list Pattern.DecodedValue)).

Lemma CheckReportType_settled st buffer :
  (forall t, reportType st = Some t ->
             reportType (CheckReportType st buffer) = Some t)
  /\ CheckReportType st buffer
     = set_reportType (reportType (CheckReportType st buffer)) st.
Proof.
  unfold CheckReportType. destruct (reportType st) eqn:E.
  - split; [intros t H; now rewrite <- H |].
    destruct st; simpl in *. now subst.
  - split; [discriminate |]. destruct (Buffer.equals _ _); now destruct st.
Qed.

Lemma WriteReport_settled lines : forall st st',
  WriteReport ExtractValue st lines = Ok st' ->
  reportType st' = reportType st /\ deviceID st' = deviceID st.
Proof.
  intros st st' H. apply WriteReport_shape in H. rewrite H. now destruct st.
Qed.

Lemma HandleReportMsg_settled st buffer st' :
  HandleReportMsg ExtractValue st buffer = Ok st' ->
  (forall t, reportType st = Some t -> reportType st' = Some t)
  /\ (forall d, deviceID st = Some d -> deviceID st' = Some d).
Proof.
  unfold HandleReportMsg. intros H.
  destruct (CheckReportType_settled st buffer) as [Ht Hc].
  set (st1 := CheckReportType st buffer) in *.
  assert (Hd : deviceID st1 = deviceID st) by (rewrite Hc; now destruct st).
  destruct (eq_opt (reportType st1) "ascii").
  - unfold HandleReportMsgAscii in H.
    destruct (GetHeaderValueAscii buffer 3) as [? i1].
    destruct (GetHeaderValueAscii buffer i1) as [? i2].
    destruct (GetHeaderValueAsciiInt buffer i2) as [sq i3].
    destruct (GetHeaderValueAsciiInt buffer i3) as [id i4].
    match type of H with
    | match reportFinalFormat ?s with _ => _ end = _ =>
        set (st2 := s) in *;
        assert (H2 : reportType st2 = reportType st1
                     /\ forall d, deviceID st1 = Some d -> deviceID st2 = Some d)
    end.
    { subst st2. destruct (deviceID st1) eqn:E.
      - split; [now destruct st1 |]. intros d0 H0.
        destruct st1; simpl in *. congruence.
      - split; [now destruct st1 | discriminate]. }
    destruct H2 as [H2t H2d].
    destruct (reportFinalFormat st2).
    + apply WriteReport_settled in H as [H1 H3]. rewrite H1, H3, H2t.
      split; [exact Ht |]. intros d H0. apply H2d. congruence.
    + injection H as <-. rewrite H2t.
      split; [exact Ht |]. intros d H0. apply H2d. congruence.
  - destruct (eq_opt (reportType st1) "binary"); injection H as <-;
      (split; [exact Ht | intros d H0; congruence]).
Qed.

(** X12. What a frame that is processed without error can change.  The
    liveness time becomes the arrival time and at most one message is
    written to the socket.  A sniffed report type is never changed.  A known
    identifier is changed by keep-alive frames only.  Only report frames
    write points, only picture frames touch the transfer in progress and the
    picture storage, and the negotiated format is touched only by frames of
    none of the three kinds, and by those only on a connection sniffed as
    ASCII. *)
Theorem RecievedData_frame_conditions now st buffer st' :
  RecievedData env ExtractValue now st buffer = Ok st' ->
  lastAlive st' = now
  /\ (socket st' = socket st
      \/ exists ack, socket st' = (socket st ++ [ack])%list)
  /\ (forall t, reportType st = Some t -> reportType st' = Some t)
  /\ (forall d, deviceID st = Some d -> is_keepalive buffer = false ->
                deviceID st' = Some d)
  /\ (is_report buffer = false -> timeSeriesDB st' = timeSeriesDB st)
  /\ (is_picture buffer = false ->
      picture st' = picture st /\ storage st' = storage st)
  /\ (is_keepalive buffer = true \/ is_report buffer = true
      \/ is_picture buffer = true \/ reportType st <> Some "ascii"%string ->
      fmt_view st' = fmt_view st
      /\ reportFormatType st' = reportFormatType st
      /\ reportFinalFormat st' = reportFinalFormat st).
Proof.
  unfold RecievedData. intros H.
  destruct (if is_keepalive buffer then _ else _) as [st1 |] eqn:E;
    [| discriminate].
  cbn [bind] in H. injection H as <-.
  assert (Hsock := handlers_keep_socket env ExtractValue st buffer st1 E).
  rewrite SendACK_shape.
  split; [now destruct st1 |].
  split.
  { unfold SendACK.
    destruct (deviceID (set_lastAlive now st1)), (seqNum (set_lastAlive now st1));
      try (left; rewrite <- Hsock; now destruct st1).
    destruct (DeviceID_truthy d && truthy n).
    - right. eexists. rewrite <- Hsock. now destruct st1.
    - left. rewrite <- Hsock. now destruct st1. }
  assert (P : forall A (f : ClientSocket.t -> A),
             (forall v s, f (set_socket v s) = f s) ->
             (forall v s, f (set_lastAlive v s) = f s) ->
             f (set_socket (socket (SendACK (set_lastAlive now st1)))
                  (set_lastAlive now st1)) = f st1)
    by (intros A f H1 H2; now rewrite H1, H2).
  rewrite (P _ reportType), (P _ deviceID), (P _ timeSeriesDB), (P _ picture),
    (P _ storage), (P _ fmt_view), (P _ reportFormatType),
    (P _ reportFinalFormat) by (intros ? []; reflexivity).
  clear P Hsock.
  destruct (is_keepalive buffer) eqn:Ek.
  { assert (Hr : is_report buffer = false).
    { destruct (is_report buffer) eqn:Er; [| reflexivity].
      apply report_frame_only in Er. congruence. }
    assert (Hp : is_picture buffer = false).
    { destruct (is_picture buffer) eqn:Ep; [| reflexivity].
      apply picture_frame_only in Ep as [Ep _]. congruence. }
    apply HandleKeepAliveMsg_shape in E. rewrite E.
    repeat split; try discriminate; now destruct st. }
  destruct (is_report buffer) eqn:Er.
  { assert (Hp : is_picture buffer = false).
    { destruct (is_picture buffer) eqn:Ep; [| reflexivity].
      apply picture_frame_only in Ep as [_ Ep]. congruence. }
    destruct (HandleReportMsg_settled st buffer st1 E) as [Ht Hd].
    apply HandleReportMsg_shape in E.
    split; [exact Ht |]. split; [intros d H _; now apply Hd |].
    rewrite E. repeat split; try discriminate; now destruct st. }
  destruct (is_picture buffer) eqn:Ep.
  { apply HandlePictureMsg_shape in E. rewrite E.
    repeat split; try discriminate; try (intros; now destruct st);
      now destruct st. }
  assert (E' := HandleOtherMsg_shape st buffer st1 E).
  split; [intros t Ht; rewrite E'; now destruct st1 |].
  split; [intros d Hd _; rewrite E'; now destruct st1 |].
  split; [intros _; rewrite E'; now destruct st1 |].
  split; [intros _; rewrite E'; now destruct st1 |].
  intros [F | [F | [F | F]]]; try discriminate.
  unfold HandleOtherMsg in E.
  destruct (reportType st) as [t |] eqn:Et.
  - cbn [eq_opt] in E. destruct (String.eqb_spec t "ascii").
    + subst t. congruence.
    + injection E as <-. repeat split.
  - cbn [eq_opt] in E. injection E as <-. repeat split.
Qed.

End FrameConditions.

Lemma RecievedData_frame_conditions_witness :
  let frame := framed packet1 in
  let st := set_deviceID (Some (BigInt 9)) ascii_connection in
  exists st',
    RecievedData no_env no_decoder 5 st frame = Ok st'
    /\ lastAlive st' = 5
    /\ reportType st' = Some "ascii"%string
    /\ deviceID st' = Some (BigInt 9)
    /\ timeSeriesDB st' = []
    /\ fmt_view st' = fmt_view st.
Proof.
  cbv zeta. eexists. split; [vm_compute; reflexivity |].
  destruct (RecievedData_frame_conditions no_env no_decoder 5
              (set_deviceID (Some (BigInt 9)) ascii_connection)
              (framed packet1) _ eq_refl)
    as (H1 & _ & H3 & H4 & H5 & _ & H7).
  split; [exact H1 |]. split; [exact (H3 _ eq_refl) |].
  split; [exact (H4 _ eq_refl eq_refl) |]. split; [exact (H5 eq_refl) |].
  exact (proj1 (H7 (or_intror (or_intror (or_introl eq_refl))))).
Defined.

(* ---------------------------------------------------------------------- *)
(** ** A resolved format is final *)

Lemma UpdateReportFormatStatus_flags st st' :
  UpdateReportFormatStatus st = (true, st') ->
  exists c j8 j9,
    isReportCustom st = Some c /\ isReportJ1708 st = Some j8
    /\ isReportJ1939 st = Some j9.
Proof.
  unfold UpdateReportFormatStatus.
  destruct (isReportCustom st) as [c |], (isReportJ1708 st) as [j8 |],
    (isReportJ1939 st) as [j9 |]; cbn; try discriminate.
  intros _. now exists c, j8, j9.
Qed.

Lemma UpdateReportFormatStatus_idempotent st st' :
  UpdateReportFormatStatus st = (true, st') ->
  UpdateReportFormatStatus st' = (true, st').
Proof.
  destruct st as [d la sq rt c j8 j9 ft jx cf ff pic so ts sg].
  unfold UpdateReportFormatStatus. cbn.
  destruct c as [[|] |], j8 as [[|] |], j9 as [[|] |]; cbn; try discriminate;
    intros H; injection H as <-; reflexivity.
Qed.

Lemma UpdateReportFormatStatus_same_format st st' :
  UpdateReportFormatStatus st = (true, st) ->
  fmt_view st' = fmt_view st ->
  reportFormatType st' = reportFormatType st ->
  reportFinalFormat st' = reportFinalFormat st ->
  UpdateReportFormatStatus st' = (true, st').
Proof.
  destruct st as [d la sq rt c j8 j9 ft jx cf ff pic so ts sg].
  destruct st' as [d' la' sq' rt' c' j8' j9' ft' jx' cf' ff' pic' so' ts' sg'].
  unfold UpdateReportFormatStatus, fmt_view. cbn.
  intros H Hv Ht Hf. injection Hv as -> -> -> -> ->. subst.
  destruct c as [[|] |], j8 as [[|] |], j9 as [[|] |]; cbn in *;
    try discriminate; injection H as H1 H2;
    unfold set_reportFinalFormat, set_reportFormatType; cbn; congruence.
Qed.

Lemma SaveReportFormat_known st input :
  UpdateReportFormatStatus st = (true, st) ->
  (1 < List.length input)%nat ->
  SaveReportFormat st input = Ok st.
Proof.
  intros H Hlen.
  destruct (UpdateReportFormatStatus_flags st st H)
    as (c & j8 & j9 & Hc & H8 & H9).
  unfold SaveReportFormat, elem.
  destruct (nth_error input 1) eqn:E;
    [| apply nth_error_None in E; lia].
  rewrite Hc, H8, H9.
  repeat match goal with
    | |- (if ?b then _ else _) = _ => destruct b
    end; reflexivity.
Qed.

Lemma HandleOtherLines_known st :
  UpdateReportFormatStatus st = (true, st) ->
  forall lines, HandleOtherLines st lines = Ok st.
Proof.
  intros H. induction lines as [| line rest IH]; [reflexivity |].
  cbn [HandleOtherLines].
  destruct (Utilities.IsStringEmptyOrSpaces line); [exact IH |].
  destruct (Nat.ltb_spec 1 (List.length (split line "="))); [| exact IH].
  destruct (_ || _); [| exact IH].
  rewrite SaveReportFormat_known by assumption. cbn [bind].
  now rewrite H.
Qed.

Section Resolved.

Variable env : Picture.Env.
Variable ExtractValue :
  list string -> list string -> result (option (list Pattern.DecodedValue)).

Lemma RecievedData_other_known now st buffer :
  UpdateReportFormatStatus st = (true, st) ->
  is_keepalive buffer = false -> is_report buffer = false ->
  is_picture buffer = false ->
  RecievedData env ExtractValue now st buffer
  = Ok (SendACK (set_lastAlive now st)).
Proof.
  intros H Hk Hr Hp. unfold RecievedData. rewrite Hk, Hr, Hp.
  unfold HandleOtherMsg.
  destruct (eq_opt (reportType st) "ascii"); [| reflexivity].
  now rewrite HandleOtherLines_known.
Qed.

Lemma RecievedData_known now st buffer st' :
  UpdateReportFormatStatus st = (true, st) ->
  RecievedData env ExtractValue now st buffer = Ok st' ->
  fmt_view st' = fmt_view st
  /\ reportFormatType st' = reportFormatType st
  /\ reportFinalFormat st' = reportFinalFormat st.
Proof.
  intros H E.
  destruct (is_keepalive buffer) eqn:Ek;
    [| destruct (is_report buffer) eqn:Er;
       [| destruct (is_picture buffer) eqn:Ep]].
  4: { rewrite RecievedData_other_known in E by assumption.
       injection E as <-. rewrite SendACK_shape. now destruct st. }
  all: unfold RecievedData in E; rewrite ?Ek, ?Er, ?Ep in E;
    match type of E with
    | bind ?h _ = _ => destruct h as [st1 |] eqn:E1; [| discriminate]
    end;
    cbn [bind] in E; injection E as <-; rewrite SendACK_shape.
  - apply HandleKeepAliveMsg_shape in E1. rewrite E1. now destruct st.
  - apply HandleReportMsg_shape in E1. rewrite E1. now destruct st.
  - apply HandlePictureMsg_shape in E1. rewrite E1. now destruct st.
Qed.

(** X13. Once [UpdateReportFormatStatus] has reported resolution, the
    negotiated format is final: through every later sequence of frames
    processed without error the three flags, the two recorded formats, the
    format type and the effective field list stay as they are, and a later
    frame of none of the three kinds, whatever its content, is acknowledged
    and otherwise ignored. *)
Theorem resolved_format_is_final st0 st frames st' :
  UpdateReportFormatStatus st0 = (true, st) ->
  run env ExtractValue st frames = Ok st' ->
  fmt_view st' = fmt_view st
  /\ reportFormatType st' = reportFormatType st
  /\ reportFinalFormat st' = reportFinalFormat st
  /\ UpdateReportFormatStatus st' = (true, st')
  /\ forall now buffer,
       is_keepalive buffer = false -> is_report buffer = false ->
       is_picture buffer = false ->
       RecievedData env ExtractValue now st' buffer
       = Ok (SendACK (set_lastAlive now st')).
Proof.
  intros H0 Hrun. apply UpdateReportFormatStatus_idempotent in H0.
  assert (G : fmt_view st' = fmt_view st
              /\ reportFormatType st' = reportFormatType st
              /\ reportFinalFormat st' = reportFinalFormat st
              /\ UpdateReportFormatStatus st' = (true, st')).
  { revert st H0 Hrun.
    induction frames as [| [now buffer] frames IH]; intros st H0 Hrun.
    - injection Hrun as <-. repeat split. exact H0.
    - cbn [run] in Hrun.
      destruct (RecievedData env ExtractValue now st buffer) as [st1 |] eqn:E;
        [| discriminate].
      cbn [bind] in Hrun.
      destruct (RecievedData_known now st buffer st1 H0 E) as (Hv & Ht & Hf).
      assert (H1 := UpdateReportFormatStatus_same_format st st1 H0 Hv Ht Hf).
      destruct (IH st1 H1 Hrun) as (Hv' & Ht' & Hf' & Hu').
      repeat split; congruence. }
  destruct G as (Hv & Ht & Hf & Hu). repeat split; try assumption.
  intros now buffer Hk Hr Hp. now apply RecievedData_other_known.
Qed.

End Resolved.

Lemma resolved_format_is_final_witness :
  let st0 :=
    set_isReportJ1939 (Some false)
      (set_isReportJ1708 (Some false)
         (set_isReportCustom (Some false) ascii_connection)) in
  let st := snd (UpdateReportFormatStatus st0) in
  let late := Buffer.from_ascii ("$FORM=0,@P,0," ++ quoted "%MV%BV") in
  exists st',
    run no_env no_decoder st [(5, late)] = Ok st'
    /\ reportFormatType st' = Some "base"%string
    /\ reportFinalFormat st' = Some reportBaseFormat.
Proof.
  cbv zeta. eexists. split; [vm_compute; reflexivity |].
  destruct (resolved_format_is_final no_env no_decoder
              (set_isReportJ1939 (Some false)
                 (set_isReportJ1708 (Some false)
                    (set_isReportCustom (Some false) ascii_connection)))
              _ [(5, Buffer.from_ascii ("$FORM=0,@P,0," ++ quoted "%MV%BV"))]
              _ eq_refl eq_refl)
    as (_ & Ht & Hf & _).
  split; [exact Ht | exact Hf].
Defined.

(* ---------------------------------------------------------------------- *)
(** ** A command response with too few fields *)

Section MalformedResponse.

Variable env : Picture.Env.
Variable ExtractValue :
  list string -> list string -> result (option (list Pattern.DecodedValue)).

Lemma SaveReportFormat_missing c st input input1 :
  flag c st = None ->
  elem input 0 = Some (cmd_of c) ->
  elem input 1 = Some input1 ->
  elem (split input1 ",") (report_index c) = None ->
  SaveReportFormat st input = Throw TypeError.
Proof.
  intros Hflag H0 H1 Hrep. unfold SaveReportFormat. rewrite H0, H1.
  destruct c; cbn in Hflag, Hrep |- *; now rewrite Hflag, Hrep.
Qed.

(** X14. On a connection sniffed as ASCII, a frame of none of the three
    kinds whose first line is the response to a format query not yet
    answered, with fewer comma-separated fields than the position the
    format string is read from, raises a type error: nothing is recorded
    and nothing is acknowledged. *)
Theorem short_response_raises now st buffer c line rest input1 more :
  reportType st = Some "ascii"%string ->
  is_keepalive buffer = false -> is_report buffer = false ->
  is_picture buffer = false ->
  split (Buffer.toString_ascii buffer) CRLF = line :: rest ->
  Utilities.IsStringEmptyOrSpaces line = false ->
  split line "=" = cmd_of c :: input1 :: more ->
  flag c st = None ->
  elem (split input1 ",") (report_index c) = None ->
  RecievedData env ExtractValue now st buffer = Throw TypeError.
Proof.
  intros Ht Hk Hr Hp Hl Hb Hs Hflag Hrep.
  unfold RecievedData. rewrite Hk, Hr, Hp.
  unfold HandleOtherMsg. rewrite Ht. cbn [eq_opt String.eqb Ascii.eqb Bool.eqb].
  rewrite Hl. cbn [HandleOtherLines]. rewrite Hb, Hs.
  replace (eq_opt (elem (cmd_of c :: input1 :: more) 0) cmdForm
           || eq_opt (elem (cmd_of c :: input1 :: more) 0) cmdJ1708
           || eq_opt (elem (cmd_of c :: input1 :: more) 0) cmdJ1939)
    with true by now destruct c.
  cbn [List.length Nat.ltb Nat.leb].
  rewrite (SaveReportFormat_missing c st (cmd_of c :: input1 :: more) input1
             Hflag eq_refl eq_refl Hrep).
  reflexivity.
Qed.

End MalformedResponse.

Lemma short_response_raises_witness :
  RecievedData no_env no_decoder 5 ascii_connection
    (Buffer.from_ascii ("$FORM=0,@P" ++ CRLF))
  = Throw TypeError.
Proof.
  apply (short_response_raises no_env no_decoder 5 ascii_connection
           (Buffer.from_ascii ("$FORM=0,@P" ++ CRLF)) Custom
           "$FORM=0,@P"%string [""%string] "0,@P"%string []);
    reflexivity.
Defined.

(* ---------------------------------------------------------------------- *)
(** ** The negotiation timer *)

(** X15. Each run of the negotiation timer either finds the three queries
    answered, computes the effective format, writes nothing and stops the
    timer, or writes to the socket one query per unanswered customization,
    in the order custom, J1708, J1939, changes nothing else and keeps the
    timer running: an answered query is never sent again. *)
Theorem GetReportFormat_queries st :
  match unanswered st with
  | [] =>
      GetReportFormat st = (snd (UpdateReportFormatStatus st), true)
      /\ fst (UpdateReportFormatStatus st) = true
      /\ socket (snd (UpdateReportFormatStatus st)) = socket st
      /\ reportFinalFormat (snd (UpdateReportFormatStatus st)) <> None
  | cs =>
      GetReportFormat st
      = (set_socket (socket st ++ map query cs)%list st, false)
  end.
Proof.
  destruct st as [d la sq rt c j8 j9 ft jx cf ff pic so ts sg].
  unfold unanswered, GetReportFormat, UpdateReportFormatStatus, query.
  destruct c as [c |], j8 as [j8 |], j9 as [j9 |]; cbn;
    try (unfold SendCommand, set_socket; cbn;
         rewrite <- ?app_assoc; reflexivity).
  destruct c, j8, j9; cbn; repeat split; discriminate.
Qed.

(* ---------------------------------------------------------------------- *)
(** ** The tokens of a format string *)

Lemma eqb_code c n :
  (n < 256)%nat -> Ascii.eqb (ascii_of_nat n) c = (code c =? Z.of_nat n).
Proof.
  intros Hn. destruct (Ascii.eqb_spec (ascii_of_nat n) c) as [<- | Hne].
  - unfold code. rewrite nat_ascii_embedding by assumption.
    symmetry. apply Z.eqb_refl.
  - symmetry. apply Z.eqb_neq. unfold code. intros H.
    apply Nat2Z.inj in H. apply Hne. rewrite <- H. apply ascii_nat_embedding.
Qed.

Lemma split_single_none n l : (n < 256)%nat ->
  Forall (fun c => code c <> Z.of_nat n) l -> forall cur,
  split_chars [ascii_of_nat n] O cur l = [str (rev cur ++ l)].
Proof.
  intros Hn. induction 1 as [| c l Hc Hl IH]; intros cur.
  - cbn. now rewrite app_nil_r.
  - cbn [split_chars starts_with]. rewrite eqb_code by assumption.
    destruct (Z.eqb_spec (code c) (Z.of_nat n)); [contradiction |].
    cbn [andb]. rewrite IH. cbn [rev]. now rewrite <- app_assoc.
Qed.

Lemma split_single_cons n a b : (n < 256)%nat ->
  Forall (fun c => code c <> Z.of_nat n) a -> forall cur,
  split_chars [ascii_of_nat n] O cur (a ++ ascii_of_nat n :: b)
  = str (rev cur ++ a) :: split_chars [ascii_of_nat n] O [] b.
Proof.
  intros Hn. induction 1 as [| c a Hc Ha IH]; intros cur.
  - cbn [app split_chars starts_with]. rewrite eqb_code by assumption.
    unfold code. rewrite nat_ascii_embedding, Z.eqb_refl by assumption.
    cbn. now rewrite app_nil_r.
  - cbn [app split_chars starts_with]. rewrite eqb_code by assumption.
    destruct (Z.eqb_spec (code c) (Z.of_nat n)); [contradiction |].
    cbn [andb]. rewrite IH. cbn [rev]. now rewrite <- app_assoc.
Qed.

Lemma split_format_of tokens : Forall format_token tokens -> forall cur a,
  Forall (fun c => code c <> 37) a ->
  split_chars ["%"%char] O cur (a ++ chars (format_of tokens))
  = str (rev cur ++ a) :: tokens.
Proof.
  induction 1 as [| t rest Ht Hrest IH]; intros cur a Ha.
  - cbn [format_of]. change (chars "") with (@nil ascii). rewrite app_nil_r.
    exact (split_single_none 37 a ltac:(lia) Ha cur).
  - cbn [format_of]. rewrite chars_append.
    change (chars "%") with ["%"%char]. cbn [app].
    rewrite (split_single_cons 37 a _ ltac:(lia) Ha cur). f_equal.
    change (ascii_of_nat 37) with "%"%char. rewrite chars_append.
    rewrite (IH [] (chars t)).
    + cbn [rev app]. now rewrite str_chars.
    + revert Ht. apply Forall_impl. tauto.
Qed.

Lemma chars_quoted s :
  chars (quoted s) = ("034"%char :: chars s ++ ["034"%char])%list.
Proof.
  unfold quoted. cbn [append]. change (chars (String ?c ?s)) with (c :: chars s).
  f_equal. apply chars_append.
Qed.

Lemma format_of_chars tokens :
  Forall format_token tokens ->
  Forall (fun c => code c <> 37 /\ code c <> 39 /\ code c <> 34
                   /\ code c <> 44 \/ code c = 37)
    (chars (format_of tokens)).
Proof.
  induction 1 as [| t rest Ht Hrest IH]; [constructor |].
  cbn [format_of]. rewrite chars_append.
  change (chars "%") with ["%"%char]. cbn [app].
  constructor; [now right |]. rewrite chars_append.
  apply Forall_app. split; [| exact IH].
  revert Ht. apply Forall_impl. tauto.
Qed.

Lemma ReportFormatSplit_quoted tokens :
  Forall format_token tokens ->
  ReportFormatSplit (quoted (format_of tokens)) = tokens
  /\ ReportFormatSplit (format_of tokens) = tokens.
Proof.
  intros H. assert (Hc := format_of_chars tokens H).
  assert (Hf : filter (fun c => negb (is_char 39 c || is_char 34 c))
                 (chars (format_of tokens)) = chars (format_of tokens)).
  { apply forallb_filter_id. apply forallb_forall. intros c Hin.
    rewrite Forall_forall in Hc. specialize (Hc c Hin). unfold is_char.
    destruct (Z.eqb_spec (code c) 39), (Z.eqb_spec (code c) 34);
      try reflexivity; lia. }
  assert (Hs : tl (split (str (chars (format_of tokens))) "%") = tokens).
  { unfold split. rewrite chars_str. change (chars "%") with ["%"%char].
    assert (E := split_format_of tokens H [] [] (Forall_nil _)).
    cbn [app rev] in E. now rewrite E. }
  unfold ReportFormatSplit. split; [| now rewrite Hf].
  rewrite chars_quoted. cbn [filter]. rewrite filter_app. cbn [filter].
  change (negb (is_char 39 "034"%char || is_char 34 "034"%char)) with false.
  cbv iota. now rewrite Hf, app_nil_r.
Qed.

Lemma response_args_field c format :
  Forall (fun x => code x <> 44) (chars format) ->
  elem (split (response_args c format) ",") (report_index c)
  = Some (quoted format).
Proof.
  intros H.
  assert (Hq : Forall (fun x => code x <> Z.of_nat 44) (chars (quoted format))).
  { rewrite chars_quoted. constructor; [vm_compute; discriminate |].
    apply Forall_app. split; [exact H |].
    constructor; [vm_compute; discriminate | constructor]. }
  assert (Hn := split_single_none 44 _ ltac:(lia) Hq []).
  cbn [rev app] in Hn. rewrite str_chars in Hn.
  change (ascii_of_nat 44) with ","%char in Hn.
  unfold split. change (chars ",") with [","%char].
  destruct c; cbn [response_args report_index].
  - rewrite chars_append.
    change (chars "0,@P,0,")
      with (["0"%char] ++ ","%char :: ["@"%char; "P"%char] ++ ","%char
            :: ["0"%char] ++ [","%char])%list.
    rewrite <- !app_assoc. cbn [app].
    change (split_chars [","%char] 0 []
              ("0"%char :: ","%char :: "@"%char :: "P"%char :: ","%char
               :: "0"%char :: ","%char :: chars (quoted format)))
      with ("0"%string :: "@P"%string :: "0"%string
            :: split_chars [","%char] 0 [] (chars (quoted format))).
    now rewrite Hn.
  - now rewrite Hn.
  - rewrite chars_append.
    change (chars "1,") with ["1"%char; ","%char]. cbn [app].
    change (split_chars [","%char] 0 []
              ("1"%char :: ","%char :: chars (quoted format)))
      with ("1"%string
            :: split_chars [","%char] 0 [] (chars (quoted format))).
    now rewrite Hn.
Qed.

Lemma unquote_quoted format :
  Picture.nonempty (unquote (quoted format)) = Picture.nonempty format.
Proof.
  unfold unquote. rewrite chars_quoted.
  rewrite rev_app_distr. cbn [rev app].
  change (is_char 34 "034"%char && is_char 34 "034"%char) with true.
  cbn [andb].
  destruct (forallb _ (rev (chars format))) eqn:E.
  - now rewrite rev_involutive, str_chars.
  - destruct format; [discriminate E | reflexivity].
Qed.

(** X16. A format string made of tokens, each after a percent sign, is split
    back into exactly those tokens, with or without surrounding double
    quotes.  The response to a query not yet answered, carrying such a
    format string between quotes at the position it is read from, is saved
    without error: with at least one token the customization is recorded
    present with exactly these tokens, with none it is recorded absent and
    its slot is left as it was. *)
Theorem format_response_recorded c st tokens :
  flag c st = None -> Forall format_token tokens ->
  ReportFormatSplit (quoted (format_of tokens)) = tokens
  /\ ReportFormatSplit (format_of tokens) = tokens
  /\ exists st1,
       SaveReportFormat st [cmd_of c; response_args c (format_of tokens)]
       = Ok st1
       /\ match tokens with
          | [] => flag c st1 = Some false /\ slot c st1 = slot c st
          | _ :: _ => flag c st1 = Some true /\ slot c st1 = Some tokens
          end.
Proof.
  intros Hflag Ht.
  destruct (ReportFormatSplit_quoted tokens Ht) as [Hq Hu].
  split; [exact Hq |]. split; [exact Hu |].
  assert (Hc : Forall (fun x => code x <> 44) (chars (format_of tokens))).
  { generalize (format_of_chars tokens Ht). apply Forall_impl. lia. }
  assert (Hf := response_args_field c _ Hc).
  assert (Hn : Picture.nonempty (unquote (quoted (format_of tokens)))
               = match tokens with [] => false | _ :: _ => true end).
  { rewrite unquote_quoted. now destruct tokens. }
  destruct c; cbn [cmd_of report_index flag slot] in *;
    unfold SaveReportFormat, elem in *; cbn [nth_error] in Hf |- *;
    change (eq_opt (Some cmdForm) cmdForm) with true;
    change (eq_opt (Some cmdJ1708) cmdForm) with false;
    change (eq_opt (Some cmdJ1708) cmdJ1708) with true;
    change (eq_opt (Some cmdJ1939) cmdForm) with false;
    change (eq_opt (Some cmdJ1939) cmdJ1708) with false;
    change (eq_opt (Some cmdJ1939) cmdJ1939) with true;
    cbv iota; rewrite Hf, Hflag, Hn, Hq;
    (destruct tokens; eexists; (split; [reflexivity |]); now destruct st).
Qed.

Lemma format_response_recorded_witness :
  exists st1,
    SaveReportFormat ascii_connection
      ["$FMSC"; "1," ++ quoted "%JO1%JH1%JL1%JS1"]%string = Ok st1
    /\ isReportJ1939 st1 = Some true
    /\ reportJ1XXXFormat st1 = Some ["JO1"; "JH1"; "JL1"; "JS1"]%string.
Proof.
  refine (proj2 (proj2 (format_response_recorded J1939 ascii_connection
                          ["JO1"; "JH1"; "JL1"; "JS1"]%string eq_refl _))).
  repeat constructor; vm_compute; discriminate.
Defined.

(* ---------------------------------------------------------------------- *)
(** ** Header fields delimited by commas *)

Lemma field_located pre field rest :
  comma_free field ->
  Buffer.indexOf (pre ++ field ++ Byte.x2c :: rest) Byte.x2c
    (Z.of_nat (List.length pre))
  = Z.of_nat (List.length pre + List.length field)
  /\ Buffer.subarray (pre ++ field ++ Byte.x2c :: rest)
       (Z.of_nat (List.length pre))
       (Z.of_nat (List.length pre + List.length field))
     = field.
Proof.
  intros Hf. unfold Buffer.indexOf, Buffer.subarray.
  destruct (Z.ltb_spec (Z.of_nat (List.length pre)) 0); [lia |].
  rewrite Nat2Z.id, skipn_app, skipn_all, Nat.sub_diag. cbn [skipn app].
  rewrite index_from_skip by exact Hf.
  split; [lia |].
  rewrite sub_nat by lia.
  rewrite skipn_app, skipn_all, Nat.sub_diag. cbn [skipn app].
  replace (List.length pre + List.length field - List.length pre)%nat
    with (List.length field) by lia.
  rewrite firstn_app, firstn_all, Nat.sub_diag. cbn [firstn].
  apply app_nil_r.
Qed.

Lemma index_from_absent c l : forall pos,
  Forall (fun b => Buffer.val b <> Buffer.val c) l ->
  Buffer.index_from c l pos = -1.
Proof.
  induction l as [| b l IH]; intros pos H; [reflexivity |].
  inversion H as [| ? ? Hb Hl]; subst. cbn [Buffer.index_from].
  destruct (Z.eqb_spec (Buffer.val b) (Buffer.val c)); [contradiction |].
  now apply IH.
Qed.

Lemma field_unterminated pre tail :
  comma_free tail ->
  Buffer.indexOf (pre ++ tail) Byte.x2c (Z.of_nat (List.length pre)) = -1
  /\ Buffer.subarray (pre ++ tail) (Z.of_nat (List.length pre)) (-1)
     = removelast tail.
Proof.
  intros Hf. unfold Buffer.indexOf, Buffer.subarray.
  destruct (Z.ltb_spec (Z.of_nat (List.length pre)) 0); [lia |].
  rewrite Nat2Z.id, skipn_app, skipn_all, Nat.sub_diag. cbn [skipn app].
  split; [now apply index_from_absent |].
  unfold sub, clamp. rewrite length_app.
  destruct (Z.ltb_spec (Z.of_nat (List.length pre)) 0); [lia |].
  change (-1 <? 0) with true. cbv iota.
  rewrite Z.min_l by lia. rewrite Nat2Z.id.
  rewrite skipn_app, skipn_all, Nat.sub_diag. cbn [skipn app].
  destruct tail as [| b tail] using rev_ind; [now rewrite firstn_nil |].
  rewrite removelast_last, length_app. cbn [List.length].
  replace (Z.to_nat _) with (List.length tail) by lia.
  rewrite firstn_app, firstn_all, Nat.sub_diag. cbn [firstn].
  apply app_nil_r.
Qed.

(** X17. [GetHeaderValueBinary] on a field that starts at [startIndex], is
    free of commas and is followed by a comma: the next index is the one
    after that comma, and the value is the big-endian number of the field
    for type Int (NaN when the field is empty; the number is below 2^53,
    the range in which Numbers are exact), the big-endian number of its
    first 8 bytes for type BigUint64BE, a range error if it has fewer than 8
    bytes, and the bytes of the field for any other type.  When no comma
    follows, the value is taken from all remaining bytes but the last and
    the next index is 0. *)
Theorem GetHeaderValueBinary_field pre field rest :
  comma_free field ->
  let buffer := (pre ++ field ++ Byte.x2c :: rest)%list in
  let start := Z.of_nat (List.length pre) in
  let next := Z.of_nat (List.length pre + List.length field + 1) in
  (Buffer.be_value field < 2 ^ 53 ->
   GetHeaderValueBinary buffer start "Int"
   = Ok (HeaderInt (match field with
                    | [] => NaN
                    | _ :: _ => Int (Buffer.be_value field)
                    end), next))
  /\ GetHeaderValueBinary buffer start "BigUint64BE"
     = (if (List.length field <? 8)%nat then Throw RangeError
        else Ok (HeaderBigInt (Buffer.be_value (firstn 8 field)), next))
  /\ (forall type,
        type <> "Int"%string -> type <> "BigUint64BE"%string ->
        GetHeaderValueBinary buffer start type = Ok (HeaderBytes field, next))
  /\ GetHeaderValueBinary (pre ++ field) start "Bytes"
     = Ok (HeaderBytes (removelast field), 0).
Proof.
  intros Hf. cbv zeta.
  destruct (field_located pre field rest Hf) as [Hi Hs].
  destruct (field_unterminated pre field Hf) as [Hi' Hs'].
  unfold GetHeaderValueBinary. rewrite Hi, Hs, Hi', Hs'.
  replace (Z.of_nat (List.length pre + List.length field) + 1)
    with (Z.of_nat (List.length pre + List.length field + 1)) by lia.
  split; [| split; [| split]].
  - intros _. cbn [String.eqb Ascii.eqb Bool.eqb andb bind].
    destruct field as [| b field]; [reflexivity |].
    now rewrite parseInt_hex.
  - cbn [String.eqb Ascii.eqb Bool.eqb andb]. unfold Buffer.readBigUint64BE.
    destruct (List.length field <? 8)%nat; reflexivity.
  - intros type H1 H2.
    destruct (String.eqb_spec type "BigUint64BE"); [contradiction |].
    destruct (String.eqb_spec type "Int"); [contradiction |].
    reflexivity.
  - reflexivity.
Qed.

Lemma GetHeaderValueBinary_field_witness :
  GetHeaderValueBinary
    [Byte.x40; Byte.x50; Byte.x01; Byte.x02; Byte.x2c; Byte.x07] 2 "Int"
  = Ok (HeaderInt (Int 258), 5).
Proof.
  refine (proj1 (GetHeaderValueBinary_field [Byte.x40; Byte.x50]
                   [Byte.x01; Byte.x02] [Byte.x07] _) _).
  - repeat constructor; vm_compute; discriminate.
  - reflexivity.
Defined.

(* ---------------------------------------------------------------------- *)
(** ** A connection sniffed as binary *)

Section BinaryConnection.

Variable env : Picture.Env.
Variable ExtractValue :
  list string -> list string -> result (option (list Pattern.DecodedValue)).

Lemma CheckReportType_binary st buffer :
  reportType st = None ->
  nth_error buffer 2 <> Some Byte.x2c ->
  CheckReportType st buffer = set_reportType (Some "binary"%string) st.
Proof.
  intros Ht Hb. unfold CheckReportType. rewrite Ht.
  destruct (Buffer.equals _ _) eqn:E; [| reflexivity].
  exfalso. apply Hb. apply equals_eq in E.
  unfold Buffer.subarray in E. rewrite sub_lit in E by lia.
  change (Z.to_nat (3 - 2)) with 1%nat in E.
  change (Z.to_nat 2) with 2%nat in E.
  rewrite <- (Nat.add_0_r 2), <- nth_error_skipn.
  assert (E' := f_equal (fun l => nth_error l 0) E).
  cbv beta in E'. rewrite nth_error_firstn in E'. exact E'.
Qed.

Lemma HandleReportMsg_binary st buffer :
  reportType st = Some "binary"%string ->
  HandleReportMsg ExtractValue st buffer = Ok st.
Proof.
  intros Ht. unfold HandleReportMsg, CheckReportType.
  rewrite Ht. cbv iota. rewrite Ht. reflexivity.
Qed.

Lemma RecievedData_binary now st buffer st' :
  reportType st = Some "binary"%string ->
  RecievedData env ExtractValue now st buffer = Ok st' ->
  reportType st' = Some "binary"%string
  /\ timeSeriesDB st' = timeSeriesDB st
  /\ reportFinalFormat st' = reportFinalFormat st
  /\ (is_report buffer = true -> st' = SendACK (set_lastAlive now st)).
Proof.
  intros Ht E. unfold RecievedData in E.
  destruct (if is_keepalive buffer then _ else _) as [st1 |] eqn:E1;
    [| discriminate].
  cbn [bind] in E. injection E as <-.
  assert (G : reportType st1 = reportType st
              /\ timeSeriesDB st1 = timeSeriesDB st
              /\ reportFinalFormat st1 = reportFinalFormat st
              /\ (is_report buffer = true -> st1 = st)).
  { destruct (is_keepalive buffer) eqn:Ek.
    - apply HandleKeepAliveMsg_shape in E1. rewrite E1.
      repeat split; try now destruct st.
      intros Hr. apply report_frame_only in Hr. congruence.
    - destruct (is_report buffer) eqn:Er.
      + rewrite HandleReportMsg_binary in E1 by assumption.
        injection E1 as <-. repeat split.
      + destruct (is_picture buffer).
        * apply HandlePictureMsg_shape in E1. rewrite E1.
          repeat split; try discriminate; now destruct st.
        * unfold HandleOtherMsg in E1. rewrite Ht in E1.
          injection E1 as <-. repeat split. }
  destruct G as (G1 & G2 & G3 & G4). rewrite SendACK_shape.
  split; [rewrite <- Ht, <- G1; now destruct st1 |].
  split; [rewrite <- G2; now destruct st1 |].
  split; [rewrite <- G3; now destruct st1 |].
  intros Hr. rewrite <- SendACK_shape. now rewrite (G4 Hr).
Qed.

(** X18. A report frame whose third byte is not a comma, arriving before
    any other report, marks the connection binary, and a connection marked
    binary stays so: through every later sequence of frames processed
    without error no point is ever written and the effective format stays
    as it was, and every report frame, ASCII ones included, only refreshes
    the liveness time and is acknowledged with the sequence number already
    known. *)
Theorem binary_connection_is_inert :
  (forall now st buffer,
      reportType st = None -> is_report buffer = true ->
      nth_error buffer 2 <> Some Byte.x2c ->
      RecievedData env ExtractValue now st buffer
      = Ok (SendACK (set_lastAlive now
                       (set_reportType (Some "binary"%string) st))))
  /\ (forall st frames st',
         reportType st = Some "binary"%string ->
         run env ExtractValue st frames = Ok st' ->
         reportType st' = Some "binary"%string
         /\ timeSeriesDB st' = timeSeriesDB st
         /\ reportFinalFormat st' = reportFinalFormat st
         /\ forall now buffer,
              is_report buffer = true ->
              RecievedData env ExtractValue now st' buffer
              = Ok (SendACK (set_lastAlive now st'))).
Proof.
  split.
  - intros now st buffer Ht Hr Hb. unfold RecievedData.
    rewrite (report_frame_only _ Hr), Hr. unfold HandleReportMsg.
    rewrite (CheckReportType_binary st buffer Ht Hb).
    replace (reportType (set_reportType (Some "binary"%string) st))
      with (Some "binary"%string) by now destruct st.
    reflexivity.
  - intros st frames. revert st.
    induction frames as [| [now buffer] frames IH]; intros st st' Ht Hrun.
    + injection Hrun as <-. repeat split; try assumption.
      intros now buffer Hr. unfold RecievedData.
      rewrite (report_frame_only _ Hr), Hr.
      now rewrite HandleReportMsg_binary.
    + cbn [run] in Hrun.
      destruct (RecievedData env ExtractValue now st buffer) as [st1 |] eqn:E;
        [| discriminate].
      cbn [bind] in Hrun.
      destruct (RecievedData_binary now st buffer st1 Ht E)
        as (H1 & H2 & H3 & _).
      destruct (IH st1 st' H1 Hrun) as (H1' & H2' & H3' & H4').
      repeat split; try congruence. exact H4'.
Qed.

End BinaryConnection.

Lemma binary_connection_is_inert_witness :
  let garbled := Buffer.from_ascii "@P;ABCD,25,7,352602017041662," in
  let report :=
    report_frame "ABCD" "25" 8 352602017041662
      (Buffer.from_ascii "1712808280,1712867697,1713414999") in
  let st :=
    SendACK (set_lastAlive 1
               (set_reportType (Some "binary"%string) (ClientSocket.new 0))) in
  RecievedData no_env no_decoder 1 (ClientSocket.new 0) garbled = Ok st
  /\ exists st',
       run no_env no_decoder st [(2, report)] = Ok st'
       /\ reportType st' = Some "binary"%string
       /\ timeSeriesDB st' = [].
Proof.
  cbv zeta.
  destruct (binary_connection_is_inert no_env no_decoder) as [H1 H2].
  split; [apply H1; [reflexivity | reflexivity | vm_compute; discriminate] |].
  eexists. split; [vm_compute; reflexivity |].
  destruct (H2 (SendACK
                  (set_lastAlive 1
                     (set_reportType (Some "binary"%string)
                        (ClientSocket.new 0))))
              [(2, report_frame "ABCD" "25" 8 352602017041662
                     (Buffer.from_ascii "1712808280,1712867697,1713414999"))]
              _ eq_refl eq_refl) as (A & B & _).
  split; [exact A | exact B].
Defined.

(* ---------------------------------------------------------------------- *)
(** ** Keep-alive frames are echoed *)

Lemma is_keepalive_frame buffer :
  is_keepalive buffer = true ->
  exists id seq,
    List.length id = 8%nat /\ List.length seq = 2%nat
    /\ buffer = keepalive_frame id seq.
Proof.
  unfold is_keepalive. intros H. apply andb_prop in H as [He Hl].
  apply equals_eq in He. apply Nat.eqb_eq in Hl.
  unfold Buffer.subarray in He. rewrite sub_lit in He by lia.
  change (Z.to_nat (2 - 0)) with 2%nat in He.
  change (Z.to_nat 0) with 0%nat in He. cbn [skipn] in He.
  destruct buffer as [| b0 [| b1 rest]]; try discriminate Hl.
  cbn [firstn] in He. injection He as -> ->.
  exists (firstn 8 rest), (skipn 8 rest).
  cbn [List.length] in Hl.
  rewrite length_firstn, length_skipn. repeat split; try lia.
  unfold keepalive_frame. now rewrite firstn_skipn.
Qed.

Section KeepAlive.

Variable env : Picture.Env.
Variable ExtractValue :
  list string -> list string -> result (option (list Pattern.DecodedValue)).

(** X19. Every keep-alive frame is processed without error.  It sets the
    identifier and the sequence number to the big-endian integers at offsets
    2..10 and 10..12 and the liveness time to the arrival time, and changes
    nothing else but the socket: the frame itself is written back as
    acknowledgment when both numbers are non-zero, and nothing is written
    when either is zero. *)
Theorem keepalive_echoed now st buffer :
  is_keepalive buffer = true ->
  let id := Buffer.be_value (Buffer.subarray buffer 2 10) in
  let seq := Buffer.be_value (Buffer.subarray buffer 10 12) in
  RecievedData env ExtractValue now st buffer
  = Ok (set_socket
          (socket st ++ (if (id =? 0) || (seq =? 0) then [] else [buffer]))%list
          (set_lastAlive now
             (set_seqNum (Some (Int seq))
                (set_deviceID (Some (BigInt id)) st)))).
Proof.
  intros Hk. destruct (is_keepalive_frame buffer Hk)
    as (idb & seqb & Hid & Hseq & ->).
  destruct (keepalive_parts idb seqb Hid Hseq) as (_ & -> & ->). cbv zeta.
  rewrite (RecievedData_keepalive env ExtractValue now st idb seqb Hid Hseq).
  f_equal.
  destruct (Z.eqb_spec (Buffer.be_value idb) 0) as [Ei | Ei].
  - cbn [orb]. rewrite app_nil_r, SendACK_zero.
    + now destruct st.
    + right. left. rewrite Ei. now destruct st.
  - destruct (Z.eqb_spec (Buffer.be_value seqb) 0) as [Es | Es]; cbn [orb].
    + rewrite app_nil_r, SendACK_zero.
      * now destruct st.
      * left. rewrite Es. now destruct st.
    + rewrite (SendACK_bytes _ idb seqb) by (assumption || now destruct st).
      now destruct st.
Qed.

End KeepAlive.

Lemma keepalive_echoed_witness :
  let frame :=
    [Byte.xfe; Byte.x02; Byte.x00; Byte.x01; Byte.x40; Byte.xb1; Byte.x1d;
     Byte.x4f; Byte.x5c; Byte.x3e; Byte.x00; Byte.x07] in
  RecievedData no_env no_decoder 5 (ClientSocket.new 0) frame
  = Ok (set_socket [frame]
          (set_lastAlive 5
             (set_seqNum (Some (Int 7))
                (set_deviceID (Some (BigInt 352604421839934))
                   (ClientSocket.new 0))))).
Proof.
  cbv zeta.
  exact (keepalive_echoed no_env no_decoder 5 (ClientSocket.new 0)
           [Byte.xfe; Byte.x02; Byte.x00; Byte.x01; Byte.x40; Byte.xb1;
            Byte.x1d; Byte.x4f; Byte.x5c; Byte.x3e; Byte.x00; Byte.x07]
           eq_refl).
Defined.

(* ---------------------------------------------------------------------- *)
(** ** Header fields of an ASCII frame *)

Lemma removelast_map {A B : Type} (f : A -> B) l :
  removelast (map f l) = map f (removelast l).
Proof.
  induction l as [| a l IH]; [reflexivity |].
  destruct l as [| b l]; [reflexivity |].
  cbn [map removelast] in *. now rewrite IH.
Qed.

Lemma Forall_removelast {A : Type} (P : A -> Prop) l :
  Forall P l -> Forall P (removelast l).
Proof.
  induction 1 as [| a l Ha Hl IH]; [constructor |].
  destruct l as [| b l]; [constructor |].
  cbn [removelast]. constructor; assumption.
Qed.

(** X20. [GetHeaderValueAscii] on a field of 7-bit characters without comma
    that starts at [startIndex] and is followed by a comma returns the text
    of the field and the index after that comma; with type Int, the decimal
    rendering of a non-negative integer below 2^53 (the range in which
    Numbers are exact) is read back as that integer.  When
    no comma follows, the text returned is the rest of the buffer without
    its last character and the next index is 0. *)
Theorem GetHeaderValueAscii_text pre field rest :
  no_comma field -> ascii7 field ->
  let start := Z.of_nat (List.length pre) in
  let next := Z.of_nat (List.length pre) + length field + 1 in
  GetHeaderValueAscii (pre ++ Buffer.from_ascii field ++ Byte.x2c :: rest) start
  = (field, next)
  /\ (forall z, field = int_toString z 10 -> 0 <= z < 2 ^ 53 ->
        GetHeaderValueAsciiInt
          (pre ++ Buffer.from_ascii field ++ Byte.x2c :: rest) start
        = (Int z, next))
  /\ GetHeaderValueAscii (pre ++ Buffer.from_ascii field) start
     = (str (removelast (chars field)), 0).
Proof.
  intros Hc H7. cbv zeta.
  assert (E : GetHeaderValueAscii
                (pre ++ Buffer.from_ascii field ++ Byte.x2c :: rest)
                (Z.of_nat (List.length pre))
              = (field, Z.of_nat (List.length pre) + length field + 1)).
  { rewrite GetHeaderValueAscii_field by assumption.
    rewrite toString_ascii_from_ascii by assumption. f_equal.
    rewrite !length_app. unfold Buffer.from_ascii. rewrite length_map.
    cbn [List.length]. unfold length. rewrite <- length_chars. lia. }
  split; [exact E |]. split.
  - intros z Hz [Hz0 _]. unfold GetHeaderValueAsciiInt. rewrite E. subst field.
    now rewrite (parseInt_int_toString None 10) by (reflexivity || lia).
  - unfold GetHeaderValueAscii.
    destruct (field_unterminated pre (Buffer.from_ascii field)
                (from_ascii_no_comma field Hc)) as [-> ->].
    f_equal. unfold Buffer.from_ascii. rewrite removelast_map.
    fold (Buffer.from_ascii (str (removelast (chars field)))).
    rewrite <- (chars_str (removelast (chars field))) at 1.
    apply toString_ascii_from_ascii. rewrite chars_str.
    now apply Forall_removelast.
Qed.

Lemma GetHeaderValueAscii_text_witness :
  GetHeaderValueAsciiInt (Buffer.from_ascii "@P,ABCD,25,7,352602017041662,") 11
  = (Int 7, 13).
Proof.
  refine (proj1 (proj2 (GetHeaderValueAscii_text
                          (Buffer.from_ascii "@P,ABCD,25,") "7"
                          (Buffer.from_ascii "352602017041662,") _ _))
            7 eq_refl _).
  - repeat constructor; vm_compute; discriminate.
  - repeat constructor.
  - lia.
Defined.

(* ---------------------------------------------------------------------- *)
(** ** A sequence number that does not fit in two bytes *)

Lemma hex_be_bytes k z :
  0 <= z < 256 ^ Z.of_nat k ->
  flat_map Buffer.hex_chars (be_bytes k z) = fixed 16 (2 * k) z.
Proof.
  intros Hz. now rewrite hex_fixed, length_be_bytes, be_value_be_bytes.
Qed.

Lemma digits_five z :
  16 ^ 4 <= z < 16 ^ 5 -> digits 16 z = fixed 16 5 z.
Proof.
  intros Hz. destruct (digits_fixed 16 z) as (k & -> & Hlt & Hge); try lia.
  replace k with 4%nat; [reflexivity |].
  destruct Hge as [-> | Hge]; [cbn in Hlt; lia |].
  destruct (Nat.lt_trichotomy k 4) as [Hk | [Hk | Hk]]; [| lia |].
  - assert (16 ^ Z.of_nat (S k) <= 16 ^ 4) by (apply Z.pow_le_mono_r; lia). lia.
  - assert (16 ^ 5 <= 16 ^ Z.of_nat k) by (apply Z.pow_le_mono_r; lia). lia.
Qed.

(** X21. A sequence number of five hexadecimal digits, which a report
    header can carry, does not fit in the two sequence bytes of an
    acknowledgment: with an identifier that is a BigInt in (0, 2^64) or a
    Number in (0, 2^53), [SendACK] then still writes one 12-byte frame,
    but the sequence number it carries is the known one divided by 16. *)
Theorem SendACK_sequence_overflow st d id seq :
  deviceID st = Some d -> DeviceID_value d = Some id -> DeviceID_exact d ->
  seqNum st = Some (Int seq) ->
  0 < id < 2 ^ 64 -> 2 ^ 16 <= seq < 2 ^ 20 ->
  socket (SendACK st)
  = (socket st
     ++ [keepalive_frame (be_bytes 8 id) (be_bytes 2 (seq / 16))])%list.
Proof.
  intros Hd Hv _ Hs Hid Hseq.
  assert (HB : forall st1,
             deviceID st1 = Some (BigInt id) -> seqNum st1 = Some (Int seq) ->
             socket (SendACK st1)
             = (socket st1
                ++ [keepalive_frame (be_bytes 8 id)
                      (be_bytes 2 (seq / 16))])%list).
  { intros st1 H1 H2. unfold SendACK. rewrite H1, H2.
    cbn [DeviceID_truthy truthy DeviceID_toString toString].
    destruct (Z.eqb_spec id 0); [lia |].
    destruct (Z.eqb_spec seq 0); [lia |].
    cbn [negb andb].
    rewrite (padStart_int_toString 16 id 16)
      by (try lia; change (16 ^ 16) with (2 ^ 64); lia).
    unfold int_toString at 1. destruct (Z.ltb_spec seq 0); [lia |].
    rewrite digits_five
      by (change (16 ^ 4) with (2 ^ 16); change (16 ^ 5) with (2 ^ 20); lia).
    unfold padStart. rewrite length_str, length_fixed.
    change (4 <=? Z.of_nat 5) with true. cbv iota.
    change (Z.to_nat 16) with (2 * 8)%nat.
    rewrite <- (hex_be_bytes 8 id)
      by (change (256 ^ Z.of_nat 8) with (2 ^ 64); lia).
    change (fixed 16 5 seq)
      with (fixed 16 (2 * 2) (seq / 16) ++ [digit_char (seq mod 16)])%list.
    rewrite <- (hex_be_bytes 2 (seq / 16))
      by (change (256 ^ Z.of_nat 2) with (2 ^ 16);
          Z.div_mod_to_equations; lia).
    change "fe02"%string
      with (str (flat_map Buffer.hex_chars [Byte.xfe; Byte.x02])).
    rewrite !str_app, app_assoc, <- !flat_map_app.
    unfold Buffer.from_hex. rewrite chars_str, !from_hex_app.
    cbn [Buffer.from_hex_chars]. rewrite app_nil_r, <- app_assoc.
    now destruct st1. }
  destruct d as [z | [| z]]; cbn in Hv; try discriminate;
    injection Hv as ->.
  - now apply HB.
  - rewrite (SendACK_Number st id Hd). rewrite HB; now destruct st.
Qed.

Lemma SendACK_sequence_overflow_witness :
  let st :=
    set_seqNum (Some (Int 70000))
      (set_deviceID (Some (Number (Int 352602017041662)))
         (ClientSocket.new 0)) in
  socket (SendACK st)
  = [keepalive_frame (be_bytes 8 352602017041662) (be_bytes 2 4375)].
Proof.
  cbv zeta.
  refine (SendACK_sequence_overflow
            (set_seqNum (Some (Int 70000))
               (set_deviceID (Some (Number (Int 352602017041662)))
                  (ClientSocket.new 0)))
            (Number (Int 352602017041662)) 352602017041662 70000
            eq_refl eq_refl eq_refl eq_refl _ _); lia.
Defined.

(* ---------------------------------------------------------------------- *)
(** ** A format string that does not begin with a percent sign *)



